(** * Question-template admin client: a shallow embedding and its properties

    The client is JavaScript.  Every function below is transcribed from the
    source file named in its comment; asynchronous functions become state
    transformers that may complete normally or by throwing, the network is a
    scripted sequence of responses, and [localStorage] is a finite map. *)

From Stdlib Require Import ZArith String Ascii List Bool Lia DecimalString.
From stdpp Require Import base option strings gmap list.

#[local] Set Warnings "-register-all".

Local Open Scope string_scope.
Local Open Scope list_scope.
Local Open Scope Z_scope.

(** ** JavaScript values *)

Module Js.

(** Built-in objects that plain object literals reach through their
    prototype chain. *)
Inductive builtin :=
| ObjectConstructor
| ObjectPrototype
| NativeFunction (name : string).

(** A string is the sequence of its code units, one [ascii] per unit (code
    units 0 to 255); a number is an integer.  An object is the list of its own
    enumerable properties in creation order. *)
Inductive value :=
| VUndefined
| VNull
| VBool (b : bool)
| VNum (n : Z)
| VStr (s : string)
| VArr (elems : list value)
| VObj (props : list (string * value))
| VBuiltin (b : builtin).

(** How a statement completes: with a value, or by throwing one. *)
Inductive completion (A : Type) :=
| Normal (a : A)
| Throw (e : value).
Arguments Normal {A} a.
Arguments Throw {A} e.

Definition bindC {A B} (c : completion A) (k : A -> completion B) : completion B :=
  match c with
  | Normal a => k a
  | Throw e => Throw e
  end.

Notation "'let!' x ':=' c 'in' k" := (bindC c (fun x => k))
  (at level 10, x name, c at level 100, k at level 200,
   format "'[v' 'let!'  x  :=  c  'in' '/' k ']'").

Definition truthy (v : value) : bool :=
  match v with
  | VUndefined | VNull => false
  | VBool b => b
  | VNum n => negb (n =? 0)
  | VStr s => negb (String.eqb s "")
  | VArr _ | VObj _ | VBuiltin _ => true
  end.

(** [a || b] *)
Definition or_else (a b : value) : value := if truthy a then a else b.

Definition nullish (v : value) : bool :=
  match v with
  | VUndefined | VNull => true
  | _ => false
  end.

(** *** Strings *)

Definition code (c : ascii) : N := N_of_ascii c.

(** WhiteSpace and LineTerminator code units below 256. *)
Definition is_whitespace (c : ascii) : bool :=
  let n := code c in
  (((9 <=? n) && (n <=? 13)) || (n =? 32) || (n =? 160))%N.

Fixpoint trimStart (s : string) : string :=
  match s with
  | EmptyString => EmptyString
  | String c r => if is_whitespace c then trimStart r else s
  end.

Fixpoint trimEnd (s : string) : string :=
  match s with
  | EmptyString => EmptyString
  | String c r =>
      let r' := trimEnd r in
      if is_whitespace c && String.eqb r' "" then EmptyString else String c r'
  end.

Definition trim (s : string) : string := trimEnd (trimStart s).

Definition lower_char (c : ascii) : ascii :=
  let n := code c in
  if (((65 <=? n) && (n <=? 90))
      || ((192 <=? n) && (n <=? 222) && negb (n =? 215)))%N
  then ascii_of_N (n + 32) else c.

Fixpoint toLowerCase (s : string) : string :=
  match s with
  | EmptyString => EmptyString
  | String c r => String (lower_char c) (toLowerCase r)
  end.

(** [s.substring(0, n)] for an integer [n]: a negative end is taken as 0 and
    an end past the string as its length. *)
Fixpoint take_units (n : nat) (s : string) : string :=
  match n, s with
  | O, _ => EmptyString
  | S _, EmptyString => EmptyString
  | S m, String c r => String c (take_units m r)
  end.

Definition substring0 (s : string) (n : Z) : string := take_units (Z.to_nat n) s.

Definition decimal (n : Z) : string := NilZero.string_of_int (Z.to_int n).

Fixpoint join (sep : string) (l : list string) : string :=
  match l with
  | [] => ""
  | [x] => x
  | x :: r => x +:+ sep +:+ join sep r
  end.

Definition builtin_ToString (b : builtin) : string :=
  match b with
  | ObjectPrototype => "[object Object]"
  | ObjectConstructor => "function Object() { [native code] }"
  | NativeFunction name => "function " +:+ name +:+ "() { [native code] }"
  end.

(** ToString, as used by template literals, property keys and
    [localStorage.setItem]. *)
Fixpoint ToString (v : value) : string :=
  match v with
  | VUndefined => "undefined"
  | VNull => "null"
  | VBool b => if b then "true" else "false"
  | VNum n => decimal n
  | VStr s => s
  | VArr l =>
      join "," (List.map (fun x => if nullish x then "" else ToString x) l)
  | VObj _ => "[object Object]"
  | VBuiltin b => builtin_ToString b
  end.

(** *** Errors *)

(** An [Error] instance, as far as the code looks at one: its message. *)
Definition mkError (message : string) : value := VObj [("message", VStr message)].

Definition TypeError_read (of_ : value) (k : string) : value :=
  mkError ("Cannot read properties of " +:+ ToString of_
           +:+ " (reading '" +:+ k +:+ "')").

Definition TypeError_not_function (what : string) : value :=
  mkError (what +:+ " is not a function").

(** *** Objects *)

Definition props := list (string * value).

Fixpoint assoc (k : string) (ps : props) : option value :=
  match ps with
  | [] => None
  | (k', v) :: r => if String.eqb k k' then Some v else assoc k r
  end.

(** [o[k] = v] on the own properties: an existing key keeps its place. *)
Fixpoint obj_set (k : string) (v : value) (ps : props) : props :=
  match ps with
  | [] => [(k, v)]
  | (k', v') :: r =>
      if String.eqb k k' then (k, v) :: r else (k', v') :: obj_set k v r
  end.

Definition digit (c : ascii) : option N :=
  let n := code c in
  if ((48 <=? n) && (n <=? 57))%N then Some (n - 48)%N else None.

Fixpoint parse_digits (acc : N) (s : string) : option N :=
  match s with
  | EmptyString => Some acc
  | String c r =>
      match digit c with
      | Some d => parse_digits (acc * 10 + d)%N r
      | None => None
      end
  end.

(** A property key is an array index when it is the canonical decimal form
    of an integer below 2^32 - 1. *)
Definition array_index (k : string) : option N :=
  match k with
  | EmptyString => None
  | String c EmptyString => digit c
  | String c _ =>
      if (code c =? 48)%N then None
      else match parse_digits 0 k with
           | Some n => if (n <? 4294967295)%N then Some n else None
           | None => None
           end
  end.

Fixpoint insert_index (i : N) (k : string) (l : list (N * string)) : list (N * string) :=
  match l with
  | [] => [(i, k)]
  | (j, k') :: r =>
      if (i <? j)%N then (i, k) :: l else (j, k') :: insert_index i k r
  end.

Fixpoint index_keys (ks : list string) : list (N * string) :=
  match ks with
  | [] => []
  | k :: r =>
      match array_index k with
      | Some i => insert_index i k (index_keys r)
      | None => index_keys r
      end
  end.

Fixpoint name_keys (ks : list string) : list string :=
  match ks with
  | [] => []
  | k :: r =>
      match array_index k with
      | Some _ => name_keys r
      | None => k :: name_keys r
      end
  end.

(** OrdinaryOwnPropertyKeys: array indices in ascending order, then the
    other keys in creation order. *)
Definition own_keys (ps : props) : list string :=
  List.map snd (index_keys (List.map fst ps)) ++ name_keys (List.map fst ps).

Fixpoint indices_from (i : nat) (n : nat) : list string :=
  match n with
  | O => []
  | S m => decimal (Z.of_nat i) :: indices_from (S i) m
  end.

Fixpoint units (s : string) : list value :=
  match s with
  | EmptyString => []
  | String c r => VStr (String c EmptyString) :: units r
  end.

(** The own enumerable properties of a value, in key order. *)
Definition own_props (v : value) : props :=
  match v with
  | VObj ps =>
      List.map (fun k => (k, default VUndefined (assoc k ps))) (own_keys ps)
  | VArr l => combine (indices_from 0 (List.length l)) l
  | VStr s => combine (indices_from 0 (String.length s)) (units s)
  | _ => []
  end.

(** [Object.keys(v)] *)
Definition Object_keys (v : value) : completion (list string) :=
  if nullish v
  then Throw (mkError "Cannot convert undefined or null to object")
  else Normal (List.map fst (own_props v)).

(** [{...target, ...src}] *)
Definition spread (target : props) (src : value) : props :=
  fold_left (fun acc kv => obj_set (fst kv) (snd kv) acc) (own_props src) target.

(** An object literal, entry by entry. *)
Inductive entry :=
| Spread (v : value)
| Field (k : string) (v : value).

Definition object_literal (es : list entry) : value :=
  VObj (fold_left (fun acc e =>
                     match e with
                     | Spread v => spread acc v
                     | Field k v => obj_set k v acc
                     end) es []).

(** The properties every plain object inherits from [Object.prototype]. *)
Definition Object_prototype (k : string) : option builtin :=
  if String.eqb k "constructor" then Some ObjectConstructor
  else if String.eqb k "__proto__" then Some ObjectPrototype
  else if existsb (String.eqb k)
            ["hasOwnProperty"; "isPrototypeOf"; "propertyIsEnumerable";
             "toLocaleString"; "toString"; "valueOf"; "__defineGetter__";
             "__defineSetter__"; "__lookupGetter__"; "__lookupSetter__"]
       then Some (NativeFunction k)
  else None.

(** [v[k]] (equally [v.k]).  Own properties, and for a plain object those of
    [Object.prototype]; the methods of the other prototypes are not among the
    property names the client reads. *)
Definition get (v : value) (k : string) : completion value :=
  match v with
  | VUndefined | VNull => Throw (TypeError_read v k)
  | VObj ps =>
      match assoc k ps with
      | Some x => Normal x
      | None =>
          match Object_prototype k with
          | Some b => Normal (VBuiltin b)
          | None => Normal VUndefined
          end
      end
  | VArr l =>
      if String.eqb k "length" then Normal (VNum (Z.of_nat (List.length l)))
      else match array_index k with
           | Some i => Normal (nth (N.to_nat i) l VUndefined)
           | None => Normal VUndefined
           end
  | VStr s =>
      if String.eqb k "length" then Normal (VNum (Z.of_nat (String.length s)))
      else match array_index k with
           | Some i => Normal (nth (N.to_nat i) (units s) VUndefined)
           | None => Normal VUndefined
           end
  | VBool _ | VNum _ | VBuiltin _ => Normal VUndefined
  end.

(** [a <= n] for a number [n] and an operand that is undefined, null, a
    boolean or a number (the length of a string or an array is a number; a
    value without a length gives undefined, which compares false).  Operands
    that would first be parsed or converted to a primitive read false. *)
Definition le_number (a : value) (n : Z) : bool :=
  match a with
  | VNum x => x <=? n
  | VNull => 0 <=? n
  | VBool b => (if b then 1 else 0) <=? n
  | _ => false
  end.

(** [v.toLowerCase()]: only strings have the method. *)
Definition call_toLowerCase (v : value) (what : string) : completion value :=
  match v with
  | VStr s => Normal (VStr (toLowerCase s))
  | VUndefined | VNull => Throw (TypeError_read v "toLowerCase")
  | _ => Throw (TypeError_not_function what)
  end.

(** [v.substring(0, n)] *)
Definition call_substring0 (v : value) (n : Z) (what : string) : completion value :=
  match v with
  | VStr s => Normal (VStr (substring0 s n))
  | VUndefined | VNull => Throw (TypeError_read v "substring")
  | _ => Throw (TypeError_not_function what)
  end.

(** [v?.k] *)
Definition get_opt (v : value) (k : string) : completion value :=
  if nullish v then Normal VUndefined else get v k.

(** [a === b] on primitives.  Two objects are the same only when they are
    the same reference, which the value model does not carry: identifiers
    compared by the client are numbers and strings. *)
Definition strict_eq (a b : value) : bool :=
  match a, b with
  | VUndefined, VUndefined => true
  | VNull, VNull => true
  | VBool x, VBool y => Bool.eqb x y
  | VNum x, VNum y => x =? y
  | VStr x, VStr y => String.eqb x y
  | _, _ => false
  end.

(** *** More of the string methods *)

(** [s.split(sep)] for a separator of one code unit: the pieces between the
    separators, at least one. *)
Fixpoint split_on (sep : ascii) (s : string) : list string :=
  match s with
  | EmptyString => [EmptyString]
  | String c r =>
      if Ascii.eqb c sep then EmptyString :: split_on sep r
      else match split_on sep r with
           | x :: xs => String c x :: xs
           | [] => [String c EmptyString]
           end
  end.

Definition newline : ascii := ascii_of_N 10.

(** [s.split('\n')] *)
Definition lines (s : string) : list string := split_on newline s.

(** [s.startsWith(p)] *)
Definition startsWith (s p : string) : bool := String.prefix p s.

(** [s.endsWith(c)] for one code unit [c] *)
Fixpoint endsWith (s : string) (c : ascii) : bool :=
  match s with
  | EmptyString => false
  | String d EmptyString => Ascii.eqb d c
  | String _ r => endsWith r c
  end.

(** [s.includes(sub)] *)
Fixpoint includes (s sub : string) : bool :=
  String.prefix sub s
  || match s with
     | EmptyString => false
     | String _ r => includes r sub
     end.

(** What is left of [s] after the prefix [p], when [s] starts with it. *)
Fixpoint after_prefix (p s : string) : option string :=
  match p, s with
  | EmptyString, _ => Some s
  | String a p', String b s' => if Ascii.eqb a b then after_prefix p' s' else None
  | String _ _, EmptyString => None
  end.

End Js.

(** ** Formatting helpers
    [src/features/question-templates/utils/templateHelpers.js]

    The glyphs of the badges and icons are kept as the bytes of their UTF-8
    text; nothing measures them. *)

Module Helpers.
Import Js.

Definition colors : value :=
  VObj [("easy", VStr "#10b981"); ("medium", VStr "#f59e0b");
        ("hard", VStr "#ef4444"); ("expert", VStr "#8b5cf6")].

Definition default_color : value := VStr "#6b7280".

(** [colors[difficulty?.toLowerCase()] || '#6b7280'] *)
Definition getDifficultyColor (difficulty : value) : completion value :=
  let! k := (if nullish difficulty then Normal VUndefined
        else call_toLowerCase difficulty "difficulty?.toLowerCase") in
  let! c := get colors (ToString k) in
  Normal (or_else c default_color).

Definition badge (label color bgColor icon : string) : value :=
  VObj [("label", VStr label); ("color", VStr color);
        ("bgColor", VStr bgColor); ("icon", VStr icon)].

Definition badges : value :=
  VObj [("draft", badge "Draft" "#6b7280" "rgba(107, 114, 128, 0.1)" "📝");
        ("active", badge "Active" "#10b981" "rgba(16, 185, 129, 0.1)" "✅");
        ("inactive", badge "Inactive" "#ef4444" "rgba(239, 68, 68, 0.1)" "🚫")].

(** [badges[status?.toLowerCase()] || badges.draft] *)
Definition getStatusBadge (status : value) : completion value :=
  let! k := (if nullish status then Normal VUndefined
        else call_toLowerCase status "status?.toLowerCase") in
  let! b := get badges (ToString k) in
  let! d := get badges "draft" in
  Normal (or_else b d).

Definition types : value :=
  VObj [("mcq", VStr "Multiple Choice"); ("user_input", VStr "User Input");
        ("image_based", VStr "Image Based"); ("code_based", VStr "Code Based")].

(** [types[type?.toLowerCase()] || type] *)
Definition formatQuestionType (type : value) : completion value :=
  let! k := (if nullish type then Normal VUndefined
        else call_toLowerCase type "type?.toLowerCase") in
  let! t := get types (ToString k) in
  Normal (or_else t type).

Definition icons : value :=
  VObj [("mcq", VStr "📋"); ("user_input", VStr "✏️");
        ("image_based", VStr "🖼️"); ("code_based", VStr "💻")].

Definition default_icon : value := VStr "❓".

(** [icons[type?.toLowerCase()] || '❓'] *)
Definition getQuestionTypeIcon (type : value) : completion value :=
  let! k := (if nullish type then Normal VUndefined
        else call_toLowerCase type "type?.toLowerCase") in
  let! i := get icons (ToString k) in
  Normal (or_else i default_icon).

Definition ellipsis : string := "...".

(** [truncateText(text, maxLength)]; [maxLength] is 50 when left out. *)
Definition truncateText (text : value) (maxLength : Z) : completion value :=
  if negb (truthy text) then Normal text
  else
    let! len := get text "length" in
    if le_number len maxLength then Normal text
    else
      let! prefix := call_substring0 text maxLength "text.substring" in
      Normal (VStr (ToString prefix +:+ ellipsis)).

Definition truncateText_default (text : value) : completion value :=
  truncateText text 50.

Definition fallback_message : string :=
  "An unexpected error occurred. Please try again.".

(** [parseErrorMessage(error)] *)
Definition parseErrorMessage (error : value) : completion value :=
  let! m := get error "message" in
  if truthy m then Normal m
  else match error with
       | VStr _ => Normal error
       | _ => Normal (VStr fallback_message)
       end.

(** [generateCodePreview(code)]: the first five lines, and a marker when
    there are more. *)
Definition line_break : string := String newline EmptyString.

Definition generateCodePreview (code : value) : completion value :=
  if negb (truthy code) then Normal (VStr "")
  else
    match code with
    | VStr s =>
        let preview := join line_break (firstn 5 (lines s)) in
        if (5 <? List.length (lines s))%nat
        then Normal (VStr (preview +:+ line_break +:+ "..."))
        else Normal (VStr preview)
    | _ => Throw (TypeError_not_function "code.split")
    end.

(** *** The option lists of the form *)

Definition difficulty_option (v label color : string) : value :=
  VObj [("value", VStr v); ("label", VStr label); ("color", VStr color)].

Definition getDifficultyOptions : list value :=
  [difficulty_option "easy" "Easy" "#10b981";
   difficulty_option "medium" "Medium" "#f59e0b";
   difficulty_option "hard" "Hard" "#ef4444";
   difficulty_option "expert" "Expert" "#8b5cf6"].

Definition type_option (v label icon : string) : value :=
  VObj [("value", VStr v); ("label", VStr label); ("icon", VStr icon)].

Definition getQuestionTypeOptions : list value :=
  [type_option "mcq" "Multiple Choice" "📋";
   type_option "user_input" "User Input" "✏️";
   type_option "image_based" "Image Based" "🖼️";
   type_option "code_based" "Code Based" "💻"].

(** An option whose label is its value. *)
Definition plain_option (v : string) : value :=
  VObj [("value", VStr v); ("label", VStr v)].

Definition getGrade1ModuleOptions : list value :=
  [plain_option "Math Skill"; plain_option "Number Sense";
   plain_option "Geometry"; plain_option "Measurement"].

Definition categories : value :=
  VObj [("Math Skill",
         VArr [plain_option "Fundamentals"; plain_option "Operations";
               plain_option "Problem Solving"]);
        ("Number Sense",
         VArr [plain_option "Counting"; plain_option "Number Recognition";
               plain_option "Place Value"]);
        ("Geometry", VArr [plain_option "Shapes"; plain_option "Patterns"]);
        ("Measurement", VArr [plain_option "Length"; plain_option "Time"])].

(** [categories[module] || []] *)
Definition getGrade1CategoryOptions (module : value) : completion value :=
  let! c := get categories (ToString module) in
  Normal (or_else c (VArr [])).

Definition topics : value :=
  VObj [("Fundamentals", VArr [plain_option "Addition"; plain_option "Subtraction"]);
        ("Operations", VArr [plain_option "Addition"; plain_option "Subtraction"]);
        ("Counting",
         VArr [plain_option "Count to 10"; plain_option "Count to 20";
               plain_option "Count to 100"]);
        ("Shapes", VArr [plain_option "Basic Shapes"; plain_option "Shape Properties"])].

(** [topics[category] || []] *)
Definition getGrade1TopicOptions (category : value) : completion value :=
  let! t := get topics (ToString category) in
  Normal (or_else t (VArr [])).

End Helpers.

(** ** Form validation
    [validateTemplateForm] of the template validation utilities *)

Module Validation.
Import Js.

(** A template draft as the form holds it: each field a string, or absent. *)
Record draft := {
  module : option string;
  category : option string;
  topic : option string;
  subtopic : option string;
  format : option string;
  difficulty : option string;
  type : option string;
  dynamic_question : option string;
  logical_answer : option string
}.

Record validation := {
  isValid : bool;
  errors : gmap string string
}.

Definition len (s : string) : Z := Z.of_nat (String.length s).

(** [!x || x.trim().length === 0] *)
Definition missing (x : option string) : bool :=
  match x with
  | None => true
  | Some s => String.eqb s "" || (len (trim s) =? 0)
  end.

(** [x && x.length > n] *)
Definition longer_than (n : Z) (x : option string) : bool :=
  match x with
  | None => false
  | Some s => negb (String.eqb s "") && (len s >? n)
  end.

(** [x && x.length < n] *)
Definition shorter_than (n : Z) (x : option string) : bool :=
  match x with
  | None => false
  | Some s => negb (String.eqb s "") && (len s <? n)
  end.

(** [if (c) errors[k] = msg] *)
Definition flag (c : bool) (k msg : string) (e : gmap string string) : gmap string string :=
  if c then <[k := msg]> e else e.

Definition validateTemplateForm (data : draft) : validation :=
  let e : gmap string string := ∅ in
  (* Required fields *)
  let e := flag (missing (module data)) "module" "Module is required" e in
  let e := flag (missing (category data)) "category" "Category is required" e in
  let e := flag (missing (topic data)) "topic" "Topic is required" e in
  let e := flag (missing (subtopic data)) "subtopic" "Subtopic is required" e in
  let e := flag (missing (format data)) "format" "Format is required" e in
  let e := flag (missing (difficulty data)) "difficulty" "Difficulty is required" e in
  let e := flag (missing (type data)) "type" "Question type is required" e in
  let e := flag (missing (dynamic_question data)) "dynamic_question"
             "Dynamic question code is required" e in
  let e := flag (missing (logical_answer data)) "logical_answer"
             "Logical answer code is required" e in
  (* Length validations *)
  let e := flag (longer_than 100 (module data)) "module"
             "Module must be less than 100 characters" e in
  let e := flag (longer_than 100 (category data)) "category"
             "Category must be less than 100 characters" e in
  let e := flag (longer_than 100 (topic data)) "topic"
             "Topic must be less than 100 characters" e in
  let e := flag (longer_than 100 (subtopic data)) "subtopic"
             "Subtopic must be less than 100 characters" e in
  let e := flag (longer_than 200 (format data)) "format"
             "Format must be less than 200 characters" e in
  (* Code length validations *)
  let e := flag (shorter_than 10 (dynamic_question data)) "dynamic_question"
             "Code must be at least 10 characters" e in
  let e := flag (shorter_than 10 (logical_answer data)) "logical_answer"
             "Code must be at least 10 characters" e in
  {| isValid := Nat.eqb (size e) 0; errors := e |}.

(** The nine required fields, by name. *)
Inductive field :=
| Module_ | Category | Topic | Subtopic | Format | Difficulty | Type_
| DynamicQuestion | LogicalAnswer.

Definition field_name (f : field) : string :=
  match f with
  | Module_ => "module"
  | Category => "category"
  | Topic => "topic"
  | Subtopic => "subtopic"
  | Format => "format"
  | Difficulty => "difficulty"
  | Type_ => "type"
  | DynamicQuestion => "dynamic_question"
  | LogicalAnswer => "logical_answer"
  end.

Definition field_value (data : draft) (f : field) : option string :=
  match f with
  | Module_ => module data
  | Category => category data
  | Topic => topic data
  | Subtopic => subtopic data
  | Format => format data
  | Difficulty => difficulty data
  | Type_ => type data
  | DynamicQuestion => dynamic_question data
  | LogicalAnswer => logical_answer data
  end.

(** [sanitizeTemplateData(data)]: every field [x?.trim() || ''] *)
Definition sanitized (x : option string) : option string :=
  match x with
  | None => Some ""
  | Some s => Some (trim s)
  end.

Definition sanitizeTemplateData (data : draft) : draft :=
  {| module := sanitized (module data);
     category := sanitized (category data);
     topic := sanitized (topic data);
     subtopic := sanitized (subtopic data);
     format := sanitized (format data);
     difficulty := sanitized (difficulty data);
     type := sanitized (type data);
     dynamic_question := sanitized (dynamic_question data);
     logical_answer := sanitized (logical_answer data) |}.

(** [validLevels.includes(difficulty?.toLowerCase())] *)
Definition validLevels : list string := ["easy"; "medium"; "hard"; "expert"].

Definition isValidDifficulty (difficulty : value) : completion bool :=
  let! k := (if nullish difficulty then Normal VUndefined
             else call_toLowerCase difficulty "difficulty?.toLowerCase") in
  Normal (existsb (fun x => strict_eq (VStr x) k) validLevels).

Definition validTypes : list string := ["mcq"; "user_input"; "image_based"; "code_based"].

Definition isValidQuestionType (type : value) : completion bool :=
  let! k := (if nullish type then Normal VUndefined
             else call_toLowerCase type "type?.toLowerCase") in
  Normal (existsb (fun x => strict_eq (VStr x) k) validTypes).

(** [validatePythonSyntax(code)], the lint of a script before it is sent *)
Module Python.

Record result := {
  isValid : bool;
  errors : list string
}.

Definition control_keywords : list string :=
  ["if"; "elif"; "else"; "for"; "while"; "def"; "class"; "try"; "except";
   "finally"; "with"].

(** The test of the line against the pattern: a control keyword at the start,
    followed by a whitespace code unit. *)
Definition control_structure (trimmed : string) : bool :=
  existsb (fun kw => match after_prefix kw trimmed with
                     | Some (String c _) => is_whitespace c
                     | _ => false
                     end) control_keywords.

Definition colon : ascii := ascii_of_N 58.
Definition backslash : ascii := ascii_of_N 92.
Definition hash : string := String (ascii_of_N 35) EmptyString.

Definition missing_colon (i : nat) : string :=
  "Line " +:+ decimal (Z.of_nat i + 1) +:+ ": Missing colon after control structure".

(** The loop over the lines, from index [i] on. *)
Fixpoint check_lines (i : nat) (ls : list string) : list string :=
  match ls with
  | [] => []
  | l :: r =>
      let trimmed := trim l in
      if (len trimmed =? 0) || startsWith trimmed hash then check_lines (S i) r
      else if control_structure trimmed
              && negb (endsWith trimmed colon) && negb (endsWith trimmed backslash)
           then missing_colon i :: check_lines (S i) r
           else check_lines (S i) r
  end.

Definition validatePythonSyntax (code : option string) : result :=
  if missing code then {| isValid := false; errors := ["Code cannot be empty"] |}
  else
    let found := check_lines 0 (lines (default "" code)) in
    {| isValid := Nat.eqb (List.length found) 0; errors := found |}.

End Python.

End Validation.

(** ** Asynchronous code over a store

    An [async] function over a store of type [S] is a state transformer that
    completes normally or by throwing; [await] is sequencing. *)

Module Async.
Import Js.

Definition M (S A : Type) : Type := S -> completion A * S.

Definition ret {S A} (a : A) : M S A := fun s => (Normal a, s).

Definition throw {S A} (e : value) : M S A := fun s => (Throw e, s).

Definition bind {S A B} (m : M S A) (k : A -> M S B) : M S B :=
  fun s =>
    match m s with
    | (Normal a, s') => k a s'
    | (Throw e, s') => (Throw e, s')
    end.

(** A pure step that may throw. *)
Definition lift {S A} (c : completion A) : M S A := fun s => (c, s).

Definition gets {S A} (f : S -> A) : M S A := fun s => (Normal (f s), s).

Definition modify {S} (f : S -> S) : M S unit := fun s => (Normal tt, f s).

(** [try { m } catch (e) { handler e }] *)
Definition try_catch {S A} (m : M S A) (handler : value -> M S A) : M S A :=
  fun s =>
    match m s with
    | (Normal a, s') => (Normal a, s')
    | (Throw e, s') => handler e s'
    end.

(** [try { m } finally { fin }], for a [fin] that does not itself return. *)
Definition try_finally {S A} (m : M S A) (fin : M S unit) : M S A :=
  fun s =>
    match m s with
    | (r, s') =>
        match fin s' with
        | (Normal _, s'') => (r, s'')
        | (Throw e, s'') => (Throw e, s'')
        end
    end.

(** Run a computation over a part [W] of the store [S]. *)
Definition zoom {S W A} (proj : S -> W) (put : W -> S -> S) (m : M W A) : M S A :=
  fun s =>
    match m (proj s) with
    | (r, w') => (r, put w' s)
    end.

End Async.

Notation "'await' x ':=' m 'in' k" := (Async.bind m (fun x => k))
  (at level 10, x name, m at level 100, k at level 200,
   format "'[v' 'await'  x  :=  m  'in' '/' k ']'").
Notation "m ';;;' k" := (Async.bind m (fun _ => k))
  (at level 100, k at level 200, right associativity).

(** ** The browser platform: local storage, the network, JSON text *)

Module Platform.
Import Js Async.

(** [JSON.stringify], taken as the platform provides it. *)
Class Serializer := JSON_stringify : value -> string.

Record request := {
  method : string;
  url : string;
  headers : list (string * string);
  body : option string
}.

(** What [response.json()] gives: the parsed body, or a rejection. *)
Inductive body_result :=
| BadJson (message : string)
| Json (v : value).

(** What [fetch] gives: a rejection, or a response with its [ok] flag. *)
Inductive fetch_result :=
| NetworkError (message : string)
| Response (ok : bool) (b : body_result).

(** The world outside the stores: [localStorage], the responses the network
    will give (the n-th request gets the n-th one) and the requests sent. *)
Record world := {
  storage : gmap string string;
  responses : nat -> fetch_result;
  sent : list request
}.

Definition set_storage (f : gmap string string -> gmap string string) (w : world) : world :=
  {| storage := f (storage w); responses := responses w; sent := sent w |}.

(** [localStorage.getItem(k)]: the stored string, or null *)
Definition item (w : world) (k : string) : value :=
  match storage w !! k with
  | Some s => VStr s
  | None => VNull
  end.

Definition getItem (k : string) : M world value := gets (fun w => item w k).

(** [localStorage.setItem(k, v)] stores the string form of [v]. *)
Definition setItem (k : string) (v : value) : M world unit :=
  modify (set_storage (insert k (ToString v))).

Definition removeItem (k : string) : M world unit :=
  modify (set_storage (delete k)).

(** [await fetch(...)]: the request is recorded, and the next scripted
    response is the outcome. *)
Definition fetch (req : request) : M world (bool * body_result) :=
  fun w =>
    let w' := {| storage := storage w; responses := responses w;
                 sent := sent w ++ [req] |} in
    match responses w (List.length (sent w)) with
    | NetworkError m => (Throw (mkError m), w')
    | Response ok b => (Normal (ok, b), w')
    end.

(** [await response.json()] *)
Definition json (b : body_result) : completion value :=
  match b with
  | BadJson m => Throw (mkError m)
  | Json v => Normal v
  end.

(** [new Error(x)] for a defined [x]: the message is its string form. *)
Definition new_Error (x : value) : value := mkError (ToString x).

(** *** Form-urlencoded query strings ([URLSearchParams.toString]) *)

Definition hex_digit (n : N) : ascii :=
  ascii_of_N (if (n <? 10)%N then 48 + n else 55 + n)%N.

Definition percent (b : N) : string :=
  String "%" (String (hex_digit (b / 16)) (String (hex_digit (b mod 16)) EmptyString)).

Definition unreserved (n : N) : bool :=
  (((48 <=? n) && (n <=? 57)) || ((65 <=? n) && (n <=? 90))
   || ((97 <=? n) && (n <=? 122))
   || (n =? 42) || (n =? 45) || (n =? 46) || (n =? 95))%N.

(** One code unit: kept, turned into [+], or percent-encoded through its
    UTF-8 bytes. *)
Definition encode_unit (c : ascii) : string :=
  let n := code c in
  if unreserved n then String c EmptyString
  else if (n =? 32)%N then "+"
  else if (n <? 128)%N then percent n
  else percent (192 + n / 64) +:+ percent (128 + n mod 64).

Fixpoint urlencode (s : string) : string :=
  match s with
  | EmptyString => EmptyString
  | String c r => encode_unit c +:+ urlencode r
  end.

Definition URLSearchParams_toString (params : list (string * string)) : string :=
  join "&" (List.map (fun kv => urlencode (fst kv) +:+ "=" +:+ urlencode (snd kv)) params).

(** [JSON.parse], taken as the platform provides it: the parsed value, or a
    [SyntaxError]. *)
Class Parser := JSON_parse : string -> completion value.

End Platform.

(** ** The API client  [src/services/questionTemplateService.js] *)

Module Service.
Import Js Async Platform.

Section Client.
Context `{Serializer}.

Definition API_BASE : string := "/api/v1".

(** [getAuthHeaders()] *)
Definition getAuthHeaders : M world (list (string * string)) :=
  await token := getItem "authToken" in
  ret (("Content-Type", "application/json")
       :: (if truthy token
           then [("Authorization", "Bearer " +:+ ToString token)]
           else [])).

(** [throw new Error(result.error?.message || fallback)] *)
Definition throw_api_error {A} (result : value) (fallback : string) : M world A :=
  await e := lift (get result "error") in
  await m := lift (get_opt e "message") in
  throw (new_Error (or_else m (VStr fallback))).

(** The shape shared by the client's calls: send, parse the body, throw on a
    status outside the success range, else give the parsed body back.  The
    [catch] of each call logs the error and throws it again. *)
Definition call (meth path : string) (payload : option value) (fallback : string)
  : M world value :=
  try_catch
    (await hs := getAuthHeaders in
     await response :=
       fetch {| method := meth; url := API_BASE +:+ path; headers := hs;
                body := JSON_stringify <$> payload |} in
     await result := lift (json (snd response)) in
     if negb (fst response) then throw_api_error result fallback
     else ret result)
    (fun error => throw error).

Definition createTemplate (templateData : value) : M world value :=
  call "POST" "/question-templates" (Some templateData) "Failed to create template".

(** The entries [listTemplates] appends to its [URLSearchParams]. *)
Definition param (filters : gmap string value) (k : string) : list (string * string) :=
  let v := default VUndefined (filters !! k) in
  if truthy v then [(k, ToString v)] else [].

Definition listTemplates_params (filters : gmap string value) : list (string * string) :=
  param filters "module" ++ param filters "category"
  ++ param filters "difficulty" ++ param filters "status"
  ++ param filters "limit" ++ param filters "offset".

Definition listTemplates_url (filters : gmap string value) : string :=
  API_BASE +:+ "/question-templates?"
  +:+ URLSearchParams_toString (listTemplates_params filters).

Definition listTemplates (filters : gmap string value) : M world value :=
  try_catch
    (let url := listTemplates_url filters in
     await hs := getAuthHeaders in
     await response :=
       fetch {| method := "GET"; url := url; headers := hs; body := None |} in
     await result := lift (json (snd response)) in
     if negb (fst response) then throw_api_error result "Failed to fetch templates"
     else ret result)
    (fun error => throw error).

Definition getTemplate (templateId : value) : M world value :=
  call "GET" ("/question-templates/" +:+ ToString templateId) None
       "Failed to fetch template".

Definition updateTemplate (templateId updateData : value) : M world value :=
  call "PATCH" ("/question-templates/" +:+ ToString templateId) (Some updateData)
       "Failed to update template".

(** [deleteTemplate] reads the body only of a failed response. *)
Definition deleteTemplate (templateId : value) : M world value :=
  try_catch
    (await hs := getAuthHeaders in
     await response :=
       fetch {| method := "DELETE";
                url := API_BASE +:+ "/question-templates/" +:+ ToString templateId;
                headers := hs; body := None |} in
     if negb (fst response) then
       await result := lift (json (snd response)) in
       throw_api_error result "Failed to delete template"
     else ret (VBool true))
    (fun error => throw error).

Definition previewTemplate (templateId count : value) : M world value :=
  call "POST" ("/question-templates/" +:+ ToString templateId +:+ "/preview")
       (Some (VObj [("count", count)])) "Failed to preview template".

Definition createGenerationJob (jobData : value) : M world value :=
  call "POST" "/question-generation-jobs" (Some jobData)
       "Failed to create generation job".

Definition getGenerationJob (jobId : value) : M world value :=
  call "GET" ("/question-generation-jobs/" +:+ ToString jobId) None
       "Failed to fetch job".

Definition listGeneratedQuestions_params (filters : gmap string value) : list (string * string) :=
  param filters "template_id" ++ param filters "job_id"
  ++ param filters "limit" ++ param filters "offset".

Definition listGeneratedQuestions (filters : gmap string value) : M world value :=
  try_catch
    (let url := API_BASE +:+ "/generated-questions?"
                +:+ URLSearchParams_toString (listGeneratedQuestions_params filters) in
     await hs := getAuthHeaders in
     await response :=
       fetch {| method := "GET"; url := url; headers := hs; body := None |} in
     await result := lift (json (snd response)) in
     if negb (fst response)
     then throw_api_error result "Failed to fetch generated questions"
     else ret result)
    (fun error => throw error).

Definition getGeneratedQuestion (questionId : value) : M world value :=
  call "GET" ("/generated-questions/" +:+ ToString questionId) None
       "Failed to fetch question".

End Client.
End Service.

(** ** The template store
    [src/features/question-templates/context/TemplateContext.jsx] *)

Module TemplateStore.
Import Js Async Platform.

(** The provider's state.  [render_error] holds what a queued state updater
    threw when React applied it, outside the operation that queued it. *)
Record state := {
  templates : value;
  currentTemplate : value;
  filters : gmap string value;
  loading : bool;
  error : value;
  totalCount : value;
  render_error : option value;
  env : world
}.

Definition default_filters : gmap string value :=
  <["module" := VStr ""]> (<["category" := VStr ""]> (<["difficulty" := VStr ""]>
  (<["status" := VStr ""]> (<["limit" := VNum 50]> (<["offset" := VNum 0]> ∅))))).

Definition initial (w : world) : state :=
  {| templates := VArr []; currentTemplate := VNull; filters := default_filters;
     loading := false; error := VNull; totalCount := VNum 0;
     render_error := None; env := w |}.

Definition setTemplates (v : value) : M state unit :=
  modify (fun s =>
    {| templates := v; currentTemplate := currentTemplate s; filters := filters s;
       loading := loading s; error := error s; totalCount := totalCount s;
       render_error := render_error s; env := env s |}).

Definition setCurrentTemplate (v : value) : M state unit :=
  modify (fun s =>
    {| templates := templates s; currentTemplate := v; filters := filters s;
       loading := loading s; error := error s; totalCount := totalCount s;
       render_error := render_error s; env := env s |}).

Definition setFilters (f : gmap string value -> gmap string value) : M state unit :=
  modify (fun s =>
    {| templates := templates s; currentTemplate := currentTemplate s;
       filters := f (filters s);
       loading := loading s; error := error s; totalCount := totalCount s;
       render_error := render_error s; env := env s |}).

Definition setLoading (b : bool) : M state unit :=
  modify (fun s =>
    {| templates := templates s; currentTemplate := currentTemplate s;
       filters := filters s;
       loading := b; error := error s; totalCount := totalCount s;
       render_error := render_error s; env := env s |}).

Definition setError (v : value) : M state unit :=
  modify (fun s =>
    {| templates := templates s; currentTemplate := currentTemplate s;
       filters := filters s;
       loading := loading s; error := v; totalCount := totalCount s;
       render_error := render_error s; env := env s |}).

Definition setTotalCount (v : value) : M state unit :=
  modify (fun s =>
    {| templates := templates s; currentTemplate := currentTemplate s;
       filters := filters s;
       loading := loading s; error := error s; totalCount := v;
       render_error := render_error s; env := env s |}).

Definition put_env (w : world) (s : state) : state :=
  {| templates := templates s; currentTemplate := currentTemplate s;
     filters := filters s;
     loading := loading s; error := error s; totalCount := totalCount s;
     render_error := render_error s; env := w |}.

(** [setTemplates(prev => f(prev))]: when the updater throws, the collection
    keeps its value and the error surfaces in rendering. *)
Definition updateTemplates (f : value -> completion value) : M state unit :=
  modify (fun s =>
    match f (templates s) with
    | Normal v =>
        {| templates := v; currentTemplate := currentTemplate s;
           filters := filters s;
           loading := loading s; error := error s; totalCount := totalCount s;
           render_error := render_error s; env := env s |}
    | Throw e =>
        {| templates := templates s; currentTemplate := currentTemplate s;
           filters := filters s;
           loading := loading s; error := error s; totalCount := totalCount s;
           render_error := Some e; env := env s |}
    end).

(** A call of the API client from the store. *)
Definition api {A} (m : M world A) : M state A := zoom env put_env m.

Fixpoint map_elems (f : value -> completion value) (l : list value)
  : completion (list value) :=
  match l with
  | [] => Normal []
  | x :: r =>
      let! y := f x in
      let! r' := map_elems f r in
      Normal (y :: r')
  end.

Fixpoint filter_elems (f : value -> completion bool) (l : list value)
  : completion (list value) :=
  match l with
  | [] => Normal []
  | x :: r =>
      let! keep := f x in
      let! r' := filter_elems f r in
      Normal (if keep then x :: r' else r')
  end.

(** [prev.map(f)] *)
Definition Array_map (f : value -> completion value) (prev : value) : completion value :=
  match prev with
  | VArr l => let! l' := map_elems f l in Normal (VArr l')
  | VUndefined | VNull => Throw (TypeError_read prev "map")
  | _ => Throw (TypeError_not_function "prev.map")
  end.

(** [prev.filter(f)] *)
Definition Array_filter (f : value -> completion bool) (prev : value) : completion value :=
  match prev with
  | VArr l => let! l' := filter_elems f l in Normal (VArr l')
  | VUndefined | VNull => Throw (TypeError_read prev "filter")
  | _ => Throw (TypeError_not_function "prev.filter")
  end.

(** [{ success: false, error: errorMsg }] *)
Definition failure (errorMsg : value) : value :=
  VObj [("success", VBool false); ("error", errorMsg)].

(** [{ success: true, data }] *)
Definition success (data : value) : value :=
  VObj [("success", VBool true); ("data", data)].

(** [throw new Error(response.error?.message || fallback)] *)
Definition throw_response_error {A} (response : value) (fallback : string) : M state A :=
  await e := lift (get response "error") in
  await m := lift (get_opt e "message") in
  throw (new_Error (or_else m (VStr fallback))).

(** The [catch] block shared by the operations that report a result. *)
Definition report (err : value) : M state value :=
  await errorMsg := lift (Helpers.parseErrorMessage err) in
  setError errorMsg ;;;
  ret (failure errorMsg).

Section Operations.
Context `{Serializer}.

Definition fetchTemplates : M state value :=
  setLoading true ;;;
  setError VNull ;;;
  try_finally
    (try_catch
       (await fs := gets filters in
        await response := api (Service.listTemplates fs) in
        await ok := lift (get response "success") in
        if truthy ok then
          await data := lift (get response "data") in
          await ts := lift (get_opt data "templates") in
          await n := lift (get_opt data "total") in
          let templatesArray := or_else ts (VArr []) in
          let total := or_else n (VNum 0) in
          setTemplates templatesArray ;;;
          setTotalCount total ;;;
          ret VUndefined
        else throw_response_error response "Failed to fetch templates")
       (fun err =>
          await msg := lift (Helpers.parseErrorMessage err) in
          setError msg ;;;
          setTemplates (VArr []) ;;;
          ret VUndefined))
    (setLoading false).

Definition createTemplate (templateData : value) : M state value :=
  setLoading true ;;;
  setError VNull ;;;
  try_finally
    (try_catch
       (await response := api (Service.createTemplate templateData) in
        await ok := lift (get response "success") in
        if truthy ok then
          fetchTemplates ;;;
          await data := lift (get response "data") in
          ret (success data)
        else throw_response_error response "Failed to create template")
       report)
    (setLoading false).

Definition updateTemplate (templateId updateData : value) : M state value :=
  await current := gets currentTemplate in
  setLoading true ;;;
  setError VNull ;;;
  try_finally
    (try_catch
       (await response := api (Service.updateTemplate templateId updateData) in
        await ok := lift (get response "success") in
        if truthy ok then
          updateTemplates
            (Array_map (fun t =>
               let! id := get t "template_id" in
               if strict_eq id templateId then get response "data" else Normal t)) ;;;
          await cid := lift (get_opt current "template_id") in
          (if strict_eq cid templateId
           then await data := lift (get response "data") in setCurrentTemplate data
           else ret tt) ;;;
          await data := lift (get response "data") in
          ret (success data)
        else throw_response_error response "Failed to update template")
       report)
    (setLoading false).

Definition deleteTemplate (templateId : value) : M state value :=
  await current := gets currentTemplate in
  setLoading true ;;;
  setError VNull ;;;
  try_finally
    (try_catch
       (api (Service.deleteTemplate templateId) ;;;
        updateTemplates
          (Array_filter (fun t =>
             let! id := get t "template_id" in
             Normal (negb (strict_eq id templateId)))) ;;;
        await cid := lift (get_opt current "template_id") in
        (if strict_eq cid templateId then setCurrentTemplate VNull else ret tt) ;;;
        ret (VObj [("success", VBool true)]))
       report)
    (setLoading false).

Definition getTemplate (templateId : value) : M state value :=
  setLoading true ;;;
  setError VNull ;;;
  try_finally
    (try_catch
       (await response := api (Service.getTemplate templateId) in
        await ok := lift (get response "success") in
        if truthy ok then
          await data := lift (get response "data") in
          setCurrentTemplate data ;;;
          ret (success data)
        else throw_response_error response "Failed to fetch template")
       report)
    (setLoading false).

Definition previewTemplate (templateId count : value) : M state value :=
  setLoading true ;;;
  setError VNull ;;;
  try_finally
    (try_catch
       (await response := api (Service.previewTemplate templateId count) in
        await ok := lift (get response "success") in
        if truthy ok then
          await data := lift (get response "data") in
          ret (success data)
        else throw_response_error response "Failed to preview template")
       report)
    (setLoading false).

End Operations.

(** [setFilters(prev => ({ ...prev, ...newFilters, offset: 0 }))] *)
Definition merge_filters (newFilters prev : gmap string value) : gmap string value :=
  <["offset" := VNum 0]> (newFilters ∪ prev).

Definition updateFilters (newFilters : gmap string value) : M state unit :=
  setFilters (merge_filters newFilters).

Definition clearFilters : M state unit :=
  setFilters (fun _ => default_filters).

End TemplateStore.

(** ** The session store  ([AuthProvider]) *)

Module Auth.
Import Js Async Platform.

Record state := {
  user : value;
  userData : value;
  userType : value;
  activeChildId : value;
  activeChildLoading : bool;
  loading : bool;
  env : world
}.

Definition initial (w : world) : state :=
  {| user := VNull; userData := VNull; userType := VNull; activeChildId := VNull;
     activeChildLoading := true; loading := true; env := w |}.

Definition setUser (v : value) : M state unit :=
  modify (fun s =>
    {| user := v; userData := userData s; userType := userType s;
       activeChildId := activeChildId s;
       activeChildLoading := activeChildLoading s; loading := loading s;
       env := env s |}).

Definition setUserData (v : value) : M state unit :=
  modify (fun s =>
    {| user := user s; userData := v; userType := userType s;
       activeChildId := activeChildId s;
       activeChildLoading := activeChildLoading s; loading := loading s;
       env := env s |}).

Definition setUserType (v : value) : M state unit :=
  modify (fun s =>
    {| user := user s; userData := userData s; userType := v;
       activeChildId := activeChildId s;
       activeChildLoading := activeChildLoading s; loading := loading s;
       env := env s |}).

Definition setActiveChildId (v : value) : M state unit :=
  modify (fun s =>
    {| user := user s; userData := userData s; userType := userType s;
       activeChildId := v;
       activeChildLoading := activeChildLoading s; loading := loading s;
       env := env s |}).

Definition setActiveChildLoading (b : bool) : M state unit :=
  modify (fun s =>
    {| user := user s; userData := userData s; userType := userType s;
       activeChildId := activeChildId s;
       activeChildLoading := b; loading := loading s;
       env := env s |}).

Definition put_env (w : world) (s : state) : state :=
  {| user := user s; userData := userData s; userType := userType s;
     activeChildId := activeChildId s;
     activeChildLoading := activeChildLoading s; loading := loading s;
     env := w |}.

Definition platform {A} (m : M world A) : M state A := zoom env put_env m.

(** [apiData.role || apiData.user_type || 'student'] *)
Definition role_of (apiData : value) : completion value :=
  let! r := get apiData "role" in
  if truthy r then Normal r
  else
    let! t := get apiData "user_type" in
    Normal (or_else t (VStr "student")).

(** The entry a student without children gets for themself. *)
Definition self_child (apiData : value) : completion value :=
  let! user_id := get apiData "user_id" in
  let! display_name := get apiData "display_name" in
  let! first_name := get apiData "first_name" in
  let! grade := get apiData "grade" in
  let! school_name := get apiData "school_name" in
  Normal (object_literal
    [Field (ToString user_id)
       (object_literal
          [Field "id" user_id;
           Field "name" (or_else display_name first_name);
           Field "grade" (or_else grade (VStr "Grade 5"));
           Field "school" (or_else school_name (VStr "My School"));
           Field "board" (VStr "CBSE");
           Field "uid" user_id])]).

(** [apiData.children || {}], replaced by the student's own entry when the
    role is ['student'] and there is no key. *)
Definition children_of (role apiData : value) : completion value :=
  let! c := get apiData "children" in
  let normalizedChildren := or_else c (VObj []) in
  if strict_eq role (VStr "student") then
    let! keys := Object_keys normalizedChildren in
    if (Z.of_nat (List.length keys) =? 0) then self_child apiData
    else Normal normalizedChildren
  else Normal normalizedChildren.

Definition activeChild_key (u : value) : completion string :=
  let! uid := get u "uid" in
  Normal ("activeChild_" +:+ ToString uid).

(** The effect that initialises the active child; it runs whenever [user] or
    [userData] has changed. *)
Definition activeChildEffect : M state unit :=
  await u := gets user in
  await d := gets userData in
  await children := lift (get_opt d "children") in
  if negb (truthy u) || negb (truthy children) then setActiveChildLoading false
  else
    await key := lift (activeChild_key u) in
    await storedChildId := platform (getItem key) in
    await childKeys := lift (Object_keys children) in
    (if truthy storedChildId && existsb (String.eqb (ToString storedChildId)) childKeys
     then setActiveChildId storedChildId
     else match childKeys with
          | first :: _ => setActiveChildId (VStr first)
          | [] => ret tt
          end) ;;;
    setActiveChildLoading false.

(** [updateActiveChild(childId)], exported as [setActiveChildId] *)
Definition updateActiveChild (childId : value) : M state unit :=
  setActiveChildId childId ;;;
  await u := gets user in
  if truthy u then
    await key := lift (activeChild_key u) in
    platform (setItem key childId)
  else ret tt.

Section Operations.
Context `{Serializer}.

Definition json_headers : list (string * string) :=
  [("Content-Type", "application/json")].

Definition fetchUserData (uid overrideToken : value) : M state value :=
  await stored := platform (getItem "authToken") in
  let token := or_else overrideToken stored in
  if negb (truthy token) then
    setUserData VNull ;;;
    setUserType VNull ;;;
    ret VUndefined
  else
    try_catch
      (await response :=
         platform (fetch {| method := "GET"; url := "/api/v1/users/me";
                            headers := [("Authorization", "Bearer " +:+ ToString token)];
                            body := None |}) in
       if fst response then
         await apiData := lift (json (snd response)) in
         await role := lift (role_of apiData) in
         await user_id := lift (get apiData "user_id") in
         if strict_eq role (VStr "teacher") then
           setUserType (VStr "teacher") ;;;
           let teacherData :=
             object_literal [Spread apiData; Field "uid" user_id;
                             Field "isTeacher" (VBool true);
                             Field "userType" (VStr "teacher")] in
           setUserData teacherData ;;;
           setUser teacherData ;;;
           platform (setItem "authUser" (VStr (JSON_stringify teacherData))) ;;;
           ret VUndefined
         else
           await normalizedChildren := lift (children_of role apiData) in
           await phone_number := lift (get apiData "phone_number") in
           let normalizedData :=
             object_literal [Spread apiData; Field "uid" user_id;
                             Field "phoneNumber" (or_else phone_number (VStr ""));
                             Field "parentPhone" (or_else phone_number (VStr ""));
                             Field "authProvider" (VStr "email");
                             Field "userType" role;
                             Field "children" normalizedChildren] in
           setUserType role ;;;
           setUserData normalizedData ;;;
           let simpleUser :=
             object_literal [Spread apiData; Field "uid" user_id;
                             Field "username" user_id] in
           setUser simpleUser ;;;
           platform (setItem "authUser" (VStr (JSON_stringify simpleUser))) ;;;
           ret VUndefined
       else
         setUserData VNull ;;;
         setUserType VNull ;;;
         ret VUndefined)
      (fun _ =>
         setUserData VNull ;;;
         setUserType VNull ;;;
         ret VUndefined).

Definition login (email password : value) : M state value :=
  await response :=
    platform (fetch {| method := "POST"; url := "/api/v1/auth/login";
                       headers := json_headers;
                       body := Some (JSON_stringify
                                 (object_literal [Field "email" email;
                                                  Field "password" password])) |}) in
  await data := lift (json (snd response)) in
  if fst response then
    await token := lift (get data "access_token") in
    platform (setItem "authToken" token) ;;;
    fetchUserData VNull token ;;;
    ret (VObj [("success", VBool true)])
  else
    await detail := lift (get data "detail") in
    ret (VObj [("success", VBool false);
               ("message", or_else detail (VStr "Login failed"))]).

Definition register (payload : value) : M state value :=
  await response :=
    platform (fetch {| method := "POST"; url := "/api/v1/auth/register";
                       headers := json_headers;
                       body := Some (JSON_stringify payload) |}) in
  await data := lift (json (snd response)) in
  if fst response then
    await user_id := lift (get data "user_id") in
    let userObj :=
      object_literal [Spread data; Field "uid" user_id; Field "username" user_id] in
    let registered := VObj [("success", VBool true); ("user", userObj)] in
    await email := lift (get payload "email") in
    await password :=
      (if truthy email then lift (get payload "password") else ret VUndefined) in
    if truthy email && truthy password then
      await signed_in :=
        try_catch
          (await loginResult := login email password in
           await ok := (if truthy loginResult then lift (get loginResult "success")
                        else ret VUndefined) in
           ret (truthy loginResult && truthy ok))
          (fun _ => ret false) in
      (* the return inside the [try], and the one after it *)
      if signed_in then ret registered else ret registered
    else ret registered
  else
    await detail := lift (get data "detail") in
    ret (VObj [("success", VBool false);
               ("message", or_else detail (VStr "Registration failed"))]).

End Operations.

Definition logout : M state value :=
  platform (removeItem "authToken") ;;;
  platform (removeItem "authUser") ;;;
  setUser VNull ;;;
  setUserData VNull ;;;
  setUserType VNull ;;;
  setActiveChildId VNull ;;;
  ret VUndefined.

(** [activeChild]: the entry of the selected child, computed from
    [userData] and [activeChildId]. *)
Definition activeChild (s : state) : completion value :=
  let! children := get_opt (userData s) "children" in
  if negb (truthy children) || negb (truthy (activeChildId s)) then Normal VNull
  else
    let! c := get children (ToString (activeChildId s)) in
    Normal (or_else c VNull).

(** [isTeacher] *)
Definition isTeacher (s : state) : bool := strict_eq (userType s) (VStr "teacher").

Definition setLoading (b : bool) : M state unit :=
  modify (fun s =>
    {| user := user s; userData := userData s; userType := userType s;
       activeChildId := activeChildId s;
       activeChildLoading := activeChildLoading s; loading := b;
       env := env s |}).

Section Session.
Context `{Serializer} `{Parser}.

(** [refreshUserData()] *)
Definition refreshUserData : M state value :=
  await u := gets user in
  if truthy u then
    await uid := lift (get u "uid") in
    fetchUserData uid VNull
  else ret VUndefined.

(** [checkSession()], run once when the provider mounts *)
Definition checkSession : M state value :=
  await token := platform (getItem "authToken") in
  await storedUser := platform (getItem "authUser") in
  (if truthy token && truthy storedUser then
     try_catch
       (await parsedUser := lift (JSON_parse (ToString storedUser)) in
        setUser parsedUser ;;;
        await uid := lift (get parsedUser "uid") in
        fetchUserData uid VNull ;;;
        ret tt)
       (fun _ =>
          platform (removeItem "authToken") ;;;
          platform (removeItem "authUser"))
   else ret tt) ;;;
  setLoading false ;;;
  ret VUndefined.

End Session.

End Auth.

(** * The components' own logic
    ([TemplateUploadForm], [TemplatePreview], [TemplateList]) *)

Module Components.
Import Js Async Platform.

(** [!formData.x.trim()]: the form keeps every field as a string; a field
    that is not there makes the call throw. *)
Definition empty_field (x : option string) : completion bool :=
  match x with
  | Some s => Normal (String.eqb (trim s) "")
  | None => Throw (TypeError_read VUndefined "trim")
  end.

Definition note (c : bool) (k msg : string) (e : gmap string string) : gmap string string :=
  if c then <[k := msg]> e else e.

(** [validate()] of the upload form: the error map it sets, and its answer. *)
Definition validate (formData : Validation.draft) : completion (gmap string string * bool) :=
  let! m := empty_field (Validation.module formData) in
  let! c := empty_field (Validation.category formData) in
  let! t := empty_field (Validation.topic formData) in
  let! s := empty_field (Validation.subtopic formData) in
  let! f := empty_field (Validation.format formData) in
  let! q := empty_field (Validation.dynamic_question formData) in
  let! a := empty_field (Validation.logical_answer formData) in
  let newErrors :=
    note a "logical_answer" "Logical answer code is required"
      (note q "dynamic_question" "Dynamic question code is required"
         (note f "format" "Format is required"
            (note s "subtopic" "Subtopic is required"
               (note t "topic" "Topic is required"
                  (note c "category" "Category is required"
                     (note m "module" "Module is required" ∅)))))) in
  Normal (newErrors, Nat.eqb (size newErrors) 0).

(** The preview pager.  [samples] is [previewData?.preview_samples] when it
    is an array, and [None] when there is none. *)
Definition handlePrevious (prev : Z) : Z := Z.max 0 (prev - 1).

Definition handleNext (samples : option (list value)) (prev : Z) : Z :=
  match samples with
  | Some l => Z.min (Z.of_nat (List.length l) - 1) (prev + 1)
  | None => prev
  end.

(** [field?.toLowerCase().includes(search)] *)
Definition field_matches (field : value) (search : string) : completion value :=
  if nullish field then Normal VUndefined
  else
    let! lowered := call_toLowerCase field "toLowerCase" in
    match lowered with
    | VStr s => Normal (VBool (includes s search))
    | _ => Normal VUndefined
    end.

(** The callback of [filteredTemplates]. *)
Definition template_matches (searchTerm : string) (template : value) : completion bool :=
  if String.eqb searchTerm "" then Normal true
  else
    let search := toLowerCase searchTerm in
    let! module := get template "module" in
    let! m := field_matches module search in
    if truthy m then Normal true
    else
      let! topic := get template "topic" in
      let! t := field_matches topic search in
      if truthy t then Normal true
      else
        let! subtopic := get template "subtopic" in
        let! s := field_matches subtopic search in
        if truthy s then Normal true
        else
          let! category := get template "category" in
          let! c := field_matches category search in
          Normal (truthy c).

(** [templates.filter(template => ...)] *)
Definition filteredTemplates (templates : value) (searchTerm : string) : completion value :=
  match templates with
  | VArr l =>
      let! kept := TemplateStore.filter_elems (template_matches searchTerm) l in
      Normal (VArr kept)
  | VUndefined | VNull => Throw (TypeError_read templates "filter")
  | _ => Throw (TypeError_not_function "templates.filter")
  end.

End Components.

(** * The vocabulary of the statements *)

Module Spec.
Import Js Async Platform.

(** ** Lookup helpers: the documented enumerations *)

Definition difficulty_keys : list string := ["easy"; "medium"; "hard"; "expert"].
Definition status_keys : list string := ["draft"; "active"; "inactive"].
Definition type_keys : list string := ["mcq"; "user_input"; "image_based"; "code_based"].

Definition draft_badge : value :=
  Helpers.badge "Draft" "#6b7280" "rgba(107, 114, 128, 0.1)" "📝".

(** ** Form validation *)

(** A field is blank when it is absent, or empty once trimmed. *)
Definition blank (x : option string) : Prop :=
  match x with
  | None => True
  | Some s => trim s = ""
  end.

(** The length bounds of the form. *)
Definition max_length (f : Validation.field) : option Z :=
  match f with
  | Validation.Module_ | Validation.Category | Validation.Topic
  | Validation.Subtopic => Some 100
  | Validation.Format => Some 200
  | _ => None
  end.

Definition min_length (f : Validation.field) : option Z :=
  match f with
  | Validation.DynamicQuestion | Validation.LogicalAnswer => Some 10
  | _ => None
  end.

(** Every required field is present, non-empty once trimmed, and within its
    length bounds. *)
Definition complete (data : Validation.draft) : Prop :=
  forall f, exists s,
    Validation.field_value data f = Some s /\ trim s <> ""
    /\ (forall n, max_length f = Some n -> Validation.len s <= n)
    /\ (forall n, min_length f = Some n -> n <= Validation.len s).

(** ** Errors *)

Definition is_error (e : value) : Prop := exists m, e = mkError m.

(** What [parseErrorMessage] shows for an error with message [m]. *)
Definition displayed (m : string) : string :=
  if String.eqb m "" then Helpers.fallback_message else m.

(** ** The template store *)

(** The six filter fields the list request knows. *)
Definition filter_names : list string :=
  ["module"; "category"; "difficulty"; "status"; "limit"; "offset"].

Definition filter_value (fs : gmap string value) (k : string) : value :=
  default VUndefined (fs !! k).

(** An answer of the API counts as a success when its [success] is truthy. *)
Definition succeeded (response : value) : bool :=
  match get response "success" with
  | Normal ok => truthy ok
  | Throw _ => false
  end.

(** [response.data?.k || fallback] *)
Definition payload_field (response : value) (k : string) (fallback : value) : value :=
  match get response "data" with
  | Normal data =>
      match get_opt data k with
      | Normal x => or_else x fallback
      | Throw _ => fallback
      end
  | Throw _ => fallback
  end.

(** [response.error?.message] of an answer *)
Definition answer_message (response : value) : value :=
  match get response "error" with
  | Normal e =>
      match get_opt e "message" with
      | Normal m => m
      | Throw _ => VUndefined
      end
  | Throw _ => VUndefined
  end.

(** The message of the error a store operation raises for an answer that is
    not a success, [response.error?.message || fallback] as [new Error]
    keeps it, and that error. *)
Definition answer_text (response : value) (fallback : string) : string :=
  ToString (or_else (answer_message response) (VStr fallback)).

Definition answer_error (response : value) (fallback : string) : value :=
  mkError (answer_text response fallback).

(** The operations of the template store that report a result. *)
Inductive operation :=
| Create (templateData : value)
| Update (templateId updateData : value)
| Delete (templateId : value)
| Get (templateId : value)
| Preview (templateId count : value).

(** The text each operation falls back on when an answer that is not a
    success carries no message; a delete does not look at the answer. *)
Definition operation_fallback (op : operation) : option string :=
  match op with
  | Create _ => Some "Failed to create template"
  | Update _ _ => Some "Failed to update template"
  | Delete _ => None
  | Get _ => Some "Failed to fetch template"
  | Preview _ _ => Some "Failed to preview template"
  end.

Section TemplateOperations.
Context `{Serializer}.

Definition run (op : operation) : M TemplateStore.state value :=
  match op with
  | Create d => TemplateStore.createTemplate d
  | Update id d => TemplateStore.updateTemplate id d
  | Delete id => TemplateStore.deleteTemplate id
  | Get id => TemplateStore.getTemplate id
  | Preview id n => TemplateStore.previewTemplate id n
  end.

Definition api_call (op : operation) : M world value :=
  match op with
  | Create d => Service.createTemplate d
  | Update id d => Service.updateTemplate id d
  | Delete id => Service.deleteTemplate id
  | Get id => Service.getTemplate id
  | Preview id n => Service.previewTemplate id n
  end.

(** The API call of an operation fails when it throws or, for an operation
    that looks at the answer, when the answer is not a success. *)
Definition api_failed (op : operation) (w : world) : bool :=
  match fst (api_call op w) with
  | Throw _ => true
  | Normal response =>
      match op with
      | Delete _ => false
      | _ => negb (succeeded response)
      end
  end.

(** The operation reports the failure [err]: it returns
    [{success: false, error: msg}] and records [msg] in the error slot, where
    [msg] is the string the error-message extractor gives for [err], and it
    clears the busy flag. *)
Definition reports (op : operation) (st : TemplateStore.state) (err : value) : Prop :=
  exists msg st',
    Helpers.parseErrorMessage err = Normal (VStr msg)
    /\ run op st = (Normal (TemplateStore.failure (VStr msg)), st')
    /\ TemplateStore.error st' = VStr msg
    /\ TemplateStore.loading st' = false.

End TemplateOperations.

Definition list_failed (st : TemplateStore.state) : bool :=
  match fst (Service.listTemplates (TemplateStore.filters st) (TemplateStore.env st)) with
  | Throw _ => true
  | Normal response => negb (succeeded response)
  end.

(** The list operation records the failure [err], the string the
    error-message extractor gives for it, empties the collection, clears the
    busy flag and returns nothing. *)
Definition list_reports (st : TemplateStore.state) (err : value) : Prop :=
  exists msg st',
    Helpers.parseErrorMessage err = Normal (VStr msg)
    /\ TemplateStore.fetchTemplates st = (Normal VUndefined, st')
    /\ TemplateStore.error st' = VStr msg
    /\ TemplateStore.templates st' = VArr []
    /\ TemplateStore.loading st' = false.

(** ** The session store *)

(** What the active-child effect selects: the stored identifier when it is
    non-empty and a key, else the first key. *)
Definition selected (stored : option string) (keys : list string) (first : string) : string :=
  match stored with
  | Some s => if negb (String.eqb s "") && existsb (String.eqb s) keys then s else first
  | None => first
  end.

(** The role discriminator: the first truthy one of [role] and [user_type],
    else ['student']. *)
Definition discriminator (role user_type : value) : value :=
  if truthy role then role
  else if truthy user_type then user_type
  else VStr "student".

Definition after_fetch (req : request) (w : world) : world :=
  {| storage := storage w; responses := responses w; sent := sent w ++ [req] |}.

Definition after_request (req : request) (st : Auth.state) : Auth.state :=
  Auth.put_env (after_fetch req (Auth.env st)) st.

Definition signed_in (token : value) (st : Auth.state) : Auth.state :=
  Auth.put_env (set_storage (insert "authToken" (ToString token)) (Auth.env st)) st.

Definition me_request (token : value) : request :=
  {| method := "GET"; url := "/api/v1/users/me";
     headers := [("Authorization", "Bearer " +:+ ToString token)]; body := None |}.

(** The three objects [fetchUserData] builds from the profile. *)
Definition normalized (apiData uid phone role children : value) : value :=
  object_literal [Spread apiData; Field "uid" uid;
                  Field "phoneNumber" (or_else phone (VStr ""));
                  Field "parentPhone" (or_else phone (VStr ""));
                  Field "authProvider" (VStr "email");
                  Field "userType" role;
                  Field "children" children].

Definition simple_user (apiData uid : value) : value :=
  object_literal [Spread apiData; Field "uid" uid; Field "username" uid].

Definition teacher_data (apiData uid : value) : value :=
  object_literal [Spread apiData; Field "uid" uid; Field "isTeacher" (VBool true);
                  Field "userType" (VStr "teacher")].

(** The entry that stands for a student among their own children. *)
Definition self_entry (uid display_name first_name grade school_name : value) : value :=
  VObj [("id", uid); ("name", or_else display_name first_name);
        ("grade", or_else grade (VStr "Grade 5"));
        ("school", or_else school_name (VStr "My School"));
        ("board", VStr "CBSE"); ("uid", uid)].

(** What [register] returns for a created account. *)
Definition registered (data uid : value) : value :=
  VObj [("success", VBool true);
        ("user", object_literal [Spread data; Field "uid" uid; Field "username" uid])].

Section SessionRequests.
Context `{Serializer}.

Definition login_request (email password : value) : request :=
  {| method := "POST"; url := "/api/v1/auth/login"; headers := Auth.json_headers;
     body := Some (JSON_stringify
                     (object_literal [Field "email" email; Field "password" password])) |}.

Definition register_request (payload : value) : request :=
  {| method := "POST"; url := "/api/v1/auth/register"; headers := Auth.json_headers;
     body := Some (JSON_stringify payload) |}.

End SessionRequests.

(** ** Vocabulary of the further properties *)

(** ** Strings *)

(** A string that does not start with a whitespace code unit. *)
Definition starts_clean (s : string) : Prop :=
  match s with
  | EmptyString => True
  | String c _ => is_whitespace c = false
  end.

(** The last code unit of a string, if any. *)
Fixpoint last_unit (s : string) : option ascii :=
  match s with
  | EmptyString => None
  | String c EmptyString => Some c
  | String _ r => last_unit r
  end.

Fixpoint all_units (p : ascii -> bool) (s : string) : bool :=
  match s with
  | EmptyString => true
  | String c r => p c && all_units p r
  end.

(** ** Validation *)

(** What the form validation holds against one field: blank, longer than
    its upper bound, or shorter than its lower bound. *)
Definition violation (data : Validation.draft) (f : Validation.field) : bool :=
  Validation.missing (Validation.field_value data f)
  || match max_length f with
     | Some n => Validation.longer_than n (Validation.field_value data f)
     | None => false
     end
  || match min_length f with
     | Some n => Validation.shorter_than n (Validation.field_value data f)
     | None => false
     end.

(** A line the lint reports: a control structure that ends in neither a
    colon nor a line continuation, and is no comment. *)
Definition reported (line : string) : bool :=
  let t := trim line in
  negb (String.eqb t "") && negb (startsWith t Validation.Python.hash)
  && Validation.Python.control_structure t
  && negb (endsWith t Validation.Python.colon)
  && negb (endsWith t Validation.Python.backslash).

(** The colours and the icons of the lookup tables. *)
Definition palette : list string := ["#10b981"; "#f59e0b"; "#ef4444"; "#8b5cf6"].

Definition type_icons : list value := [VStr "📋"; VStr "✏️"; VStr "🖼️"; VStr "💻"].

(** ** The API client *)

(** The calls of the API client. *)
Inductive endpoint :=
| CreateTemplate (templateData : value)
| ListTemplates (filters : gmap string value)
| GetTemplate (templateId : value)
| UpdateTemplate (templateId updateData : value)
| DeleteTemplate (templateId : value)
| PreviewTemplate (templateId count : value)
| CreateGenerationJob (jobData : value)
| GetGenerationJob (jobId : value)
| ListGeneratedQuestions (filters : gmap string value)
| GetGeneratedQuestion (questionId : value).

Definition http_method (e : endpoint) : string :=
  match e with
  | CreateTemplate _ | PreviewTemplate _ _ | CreateGenerationJob _ => "POST"
  | UpdateTemplate _ _ => "PATCH"
  | DeleteTemplate _ => "DELETE"
  | _ => "GET"
  end.

(** The message of a call's error when the server's answer carries none. *)
Definition default_message (e : endpoint) : string :=
  match e with
  | CreateTemplate _ => "Failed to create template"
  | ListTemplates _ => "Failed to fetch templates"
  | GetTemplate _ => "Failed to fetch template"
  | UpdateTemplate _ _ => "Failed to update template"
  | DeleteTemplate _ => "Failed to delete template"
  | PreviewTemplate _ _ => "Failed to preview template"
  | CreateGenerationJob _ => "Failed to create generation job"
  | GetGenerationJob _ => "Failed to fetch job"
  | ListGeneratedQuestions _ => "Failed to fetch generated questions"
  | GetGeneratedQuestion _ => "Failed to fetch question"
  end.

(** The headers every call sends: the content type, and the bearer
    credential when a non-empty one is stored. *)
Definition auth_headers (w : world) : list (string * string) :=
  ("Content-Type", "application/json")
  :: match storage w !! "authToken" with
     | Some t => if String.eqb t "" then [] else [("Authorization", "Bearer " +:+ t)]
     | None => []
     end.

(** The message a failure body carries: [error.message], when it is a
    non-empty string. *)
Definition server_message (v : value) : option string :=
  match v with
  | VObj ps =>
      match assoc "error" ps with
      | Some (VObj es) =>
          match assoc "message" es with
          | Some (VStr msg) => if String.eqb msg "" then None else Some msg
          | _ => None
          end
      | _ => None
      end
  | _ => None
  end.

Section ClientCalls.
Context `{Serializer}.

Definition client (e : endpoint) : M world value :=
  match e with
  | CreateTemplate d => Service.createTemplate d
  | ListTemplates f => Service.listTemplates f
  | GetTemplate i => Service.getTemplate i
  | UpdateTemplate i d => Service.updateTemplate i d
  | DeleteTemplate i => Service.deleteTemplate i
  | PreviewTemplate i n => Service.previewTemplate i n
  | CreateGenerationJob d => Service.createGenerationJob d
  | GetGenerationJob i => Service.getGenerationJob i
  | ListGeneratedQuestions f => Service.listGeneratedQuestions f
  | GetGeneratedQuestion i => Service.getGeneratedQuestion i
  end.

End ClientCalls.

(** The code units a form-urlencoded component is made of. *)
Definition url_safe (c : ascii) : bool :=
  unreserved (code c) || Ascii.eqb c "+" || Ascii.eqb c "%".

(** One entry of a query string, as it is written. *)
Definition encoded_pair (kv : string * string) : string :=
  urlencode (fst kv) +:+ "=" +:+ urlencode (snd kv).

(** The four filter fields the list of generated questions knows. *)
Definition question_filter_names : list string :=
  ["template_id"; "job_id"; "limit"; "offset"].

(** ** The template store, when a call succeeds *)

(** [response.data] of an answer *)
Definition data_of (response : value) : value :=
  match get response "data" with
  | Normal d => d
  | Throw _ => VUndefined
  end.

(** [t.template_id] of an element of the collection *)
Definition template_id (t : value) : value :=
  match get t "template_id" with
  | Normal x => x
  | Throw _ => VUndefined
  end.

(** [currentTemplate?.template_id === templateId] *)
Definition is_current (current templateId : value) : bool :=
  match get_opt current "template_id" with
  | Normal cid => strict_eq cid templateId
  | Throw _ => false
  end.

(** The store once an operation has started and its API call has come back:
    busy, no error, the world as the call left it. *)
Definition started (w' : world) (st : TemplateStore.state) : TemplateStore.state :=
  {| TemplateStore.templates := TemplateStore.templates st;
     TemplateStore.currentTemplate := TemplateStore.currentTemplate st;
     TemplateStore.filters := TemplateStore.filters st;
     TemplateStore.loading := true;
     TemplateStore.error := VNull;
     TemplateStore.totalCount := TemplateStore.totalCount st;
     TemplateStore.render_error := TemplateStore.render_error st;
     TemplateStore.env := w' |}.

(** ** The session store, beyond the profile's shape *)

(** The profile request was answered with a profile: a success status and a
    body other than null. *)
Definition profile_served (r : fetch_result) : bool :=
  match r with
  | Response true (Json apiData) => negb (nullish apiData)
  | _ => false
  end.

(** The credential [fetchUserData] uses: the override, else the stored one. *)
Definition credential (overrideToken : value) (w : world) : value :=
  or_else overrideToken (item w "authToken").

(** A stored session: the credential and the user snapshot, both non-empty. *)
Definition stored_session (w : world) : option (string * string) :=
  match storage w !! "authToken", storage w !! "authUser" with
  | Some token, Some text =>
      if String.eqb token "" || String.eqb text "" then None else Some (token, text)
  | _, _ => None
  end.

(** ** The components *)

(** The seven fields the upload form checks itself. *)
Definition form_fields : list Validation.field :=
  [Validation.Module_; Validation.Category; Validation.Topic; Validation.Subtopic;
   Validation.Format; Validation.DynamicQuestion; Validation.LogicalAnswer].

(** The four fields the list's search looks at. *)
Definition search_fields : list string := ["module"; "topic"; "subtopic"; "category"].

(** [t.k] of an element of the collection *)
Definition field_of (t : value) (k : string) : value :=
  match get t k with
  | Normal x => x
  | Throw _ => VUndefined
  end.

(** An element the search can look at: it is there, and each of the four
    fields is a string or is missing. *)
Definition searchable (t : value) : Prop :=
  nullish t = false
  /\ forall k, In k search_fields ->
       nullish (field_of t k) = true \/ exists s, field_of t k = VStr s.

(** The search term occurs in one of the four fields, case ignored. *)
Definition found (term : string) (t : value) : bool :=
  String.eqb term ""
  || existsb (fun k => match field_of t k with
                       | VStr s => includes (toLowerCase s) (toLowerCase term)
                       | _ => false
                       end) search_fields.

(** ** The option lists *)

(** The names the module table and the topic table have an entry for. *)
Definition module_names : list string :=
  ["Math Skill"; "Number Sense"; "Geometry"; "Measurement"].

Definition categories_with_topics : list string :=
  ["Fundamentals"; "Operations"; "Counting"; "Shapes"].

(** [o.k] of an option, when it is a string *)
Definition option_field (o : value) (k : string) : option string :=
  match get o k with
  | Normal (VStr s) => Some s
  | _ => None
  end.

End Spec.

(** * Data of the closed examples *)

Module Examples.
Import Js Async Platform.

(** No property below looks at serialized text; the examples run with a
    serializer that writes a value's string form. *)
Definition example_json : Serializer := fun v => ToString v.

(** A network that is down. *)
Definition offline : world :=
  {| storage := ∅;
     responses := fun _ => NetworkError "Failed to fetch";
     sent := [] |}.

(** A network that answers the requests of a session in order. *)
Definition scripted (answers : list fetch_result) : world :=
  {| storage := ∅;
     responses := fun n => nth n answers (NetworkError "Failed to fetch");
     sent := [] |}.

Definition sample_draft : Validation.draft :=
  {| Validation.module := Some "Math Skill";
     Validation.category := Some "Fundamentals";
     Validation.topic := Some "Addition";
     Validation.subtopic := Some "Single digit";
     Validation.format := Some "a + b = ?";
     Validation.difficulty := Some "easy";
     Validation.type := Some "mcq";
     Validation.dynamic_question := Some "a = randint(1, 9)";
     Validation.logical_answer := Some "answer = a + b" |}.

Definition blank_topic_draft : Validation.draft :=
  {| Validation.module := Some "Math Skill";
     Validation.category := Some "Fundamentals";
     Validation.topic := Some "   ";
     Validation.subtopic := Some "Single digit";
     Validation.format := Some "a + b = ?";
     Validation.difficulty := Some "easy";
     Validation.type := Some "mcq";
     Validation.dynamic_question := Some "a = randint(1, 9)";
     Validation.logical_answer := Some "answer = a + b" |}.

(** A parent with the children [c1] and [c2], in that order. *)
Definition two_children : value :=
  VObj [("c1", VObj [("name", VStr "Asha"); ("grade", VStr "Grade 3")]);
        ("c2", VObj [("name", VStr "Ravi"); ("grade", VStr "Grade 6")])].

Definition parent_session (stored : gmap string string) : Auth.state :=
  {| Auth.user := VObj [("user_id", VStr "p1"); ("uid", VStr "p1")];
     Auth.userData := VObj [("user_id", VStr "p1"); ("uid", VStr "p1");
                            ("userType", VStr "parent"); ("children", two_children)];
     Auth.userType := VStr "parent";
     Auth.activeChildId := VNull;
     Auth.activeChildLoading := true;
     Auth.loading := false;
     Auth.env := {| storage := stored;
                    responses := fun _ => NetworkError "Failed to fetch";
                    sent := [] |} |}.

(** The registration scenario: the payload, and a backend that creates the
    account, accepts the login and serves the profile. *)
Definition student_payload : value :=
  VObj [("email", VStr "a@b.com"); ("password", VStr "pw123456");
        ("role", VStr "student")].

Definition parent_payload : value :=
  VObj [("email", VStr "a@b.com"); ("password", VStr "pw123456");
        ("role", VStr "parent")].

Definition created_user (role : string) : value :=
  VObj [("user_id", VStr "u17"); ("email", VStr "a@b.com"); ("role", VStr role)].

Definition token_answer : value :=
  VObj [("access_token", VStr "tok-1"); ("token_type", VStr "bearer")].

Definition profile (role : string) : value :=
  VObj [("user_id", VStr "u17"); ("email", VStr "a@b.com");
        ("first_name", VStr "Asha"); ("user_type", VStr role)].

Definition backend (role : string) : world :=
  scripted [Response true (Json (created_user role));
            Response true (Json token_answer);
            Response true (Json (profile role))].

(** A profile whose role fields are present and empty. *)
Definition empty_role_profile : value :=
  VObj [("user_id", VStr "u17"); ("role", VStr ""); ("user_type", VStr "")].

Definition admin_profile : value :=
  VObj [("user_id", VStr "u18"); ("role", VStr "admin")].

Definition signed_session (apiData : value) : Auth.state :=
  Auth.initial
    {| storage := {["authToken" := "tok-1"]};
       responses := fun _ => Response true (Json apiData);
       sent := [] |}.

Definition rejecting : world :=
  scripted [Response false
              (Json (VObj [("detail", VStr "Incorrect email or password")]))].

(** A script of three lines whose loop header lacks its colon, and a text
    of seven lines. *)
Definition loop_script : string :=
  join Helpers.line_break ["total = 0"; "for i in range(3)"; "    total += i"].

Definition seven_lines : string :=
  join Helpers.line_break ["a"; "b"; "c"; "d"; "e"; "f"; "g"].

(** A store that lists two templates and shows the first. *)
Definition addition : value :=
  VObj [("template_id", VNum 1); ("module", VStr "Math Skill");
        ("topic", VStr "Addition")].

Definition fractions : value :=
  VObj [("template_id", VNum 2); ("module", VStr "Math Skill");
        ("topic", VStr "Fractions"); ("category", VNull)].

Definition listing (w : world) : TemplateStore.state :=
  {| TemplateStore.templates := VArr [addition; fractions];
     TemplateStore.currentTemplate := addition;
     TemplateStore.filters := TemplateStore.default_filters;
     TemplateStore.loading := false;
     TemplateStore.error := VNull;
     TemplateStore.totalCount := VNum 2;
     TemplateStore.render_error := None;
     TemplateStore.env := w |}.

Definition renamed : value :=
  VObj [("template_id", VNum 1); ("module", VStr "Math Skill");
        ("topic", VStr "Sums")].

Definition answer (data : value) : fetch_result :=
  Response true (Json (VObj [("success", VBool true); ("data", data)])).

(** Answers that are not a success: with the server's message, and bare. *)
Definition refusal (message : string) : fetch_result :=
  Response true (Json (VObj [("success", VBool false);
                             ("error", VObj [("message", VStr message)])])).

Definition bare_refusal : fetch_result :=
  Response true (Json (VObj [("success", VBool false)])).

(** A store that shows the second page of the drafts. *)
Definition second_page : TemplateStore.state :=
  {| TemplateStore.templates := VArr [];
     TemplateStore.currentTemplate := VNull;
     TemplateStore.filters :=
       <["offset" := VNum 50]> (<["status" := VStr "draft"]> TemplateStore.default_filters);
     TemplateStore.loading := false;
     TemplateStore.error := VNull;
     TemplateStore.totalCount := VNum 120;
     TemplateStore.render_error := None;
     TemplateStore.env := offline |}.

(** A backend that accepts the login and serves a student's profile. *)
Definition login_backend : world :=
  scripted [Response true (Json token_answer);
            Response true (Json (profile "student"))].

End Examples.

(** * Properties *)

Import Js Async Platform Spec Examples.

(** ** Strings *)

Section StringFacts.

Lemma take_units_length (n : nat) (s : string) :
  (n <= String.length s)%nat -> String.length (take_units n s) = n.
Proof.
  revert s; induction n as [|n IH]; intros [|c r] Hle; simpl in *;
    try reflexivity; try lia.
  rewrite IH; [reflexivity | lia].
Qed.

Lemma take_units_split (n : nat) (s : string) :
  exists rest, s = take_units n s +:+ rest.
Proof.
  revert s; induction n as [|n IH]; intros s.
  - exists s. destruct s; reflexivity.
  - destruct s as [|c r].
    + exists "". reflexivity.
    + destruct (IH r) as [rest E]. exists rest.
      change (String c r = String c (take_units n r +:+ rest)).
      f_equal. exact E.
Qed.

Lemma append_length (a b : string) :
  String.length (a +:+ b) = (String.length a + String.length b)%nat.
Proof.
  induction a as [|c a IH]; [reflexivity|].
  change (S (String.length (a +:+ b)) = S (String.length a + String.length b)).
  rewrite IH. reflexivity.
Qed.

Lemma lower_char_idem (c : ascii) : lower_char (lower_char c) = lower_char c.
Proof. destruct c as [[] [] [] [] [] [] [] []]; reflexivity. Qed.

Lemma toLowerCase_idem (s : string) : toLowerCase (toLowerCase s) = toLowerCase s.
Proof.
  induction s as [|c r IH]; simpl; [reflexivity|].
  rewrite lower_char_idem, IH. reflexivity.
Qed.

(** A lower-cased key is never a name that has an upper-case letter. *)
Lemma lowered_ne (s name : string) :
  toLowerCase name <> name -> toLowerCase s <> name.
Proof.
  intros Hname E. apply Hname. rewrite <- E. apply toLowerCase_idem.
Qed.

End StringFacts.

(** ** templateHelpers.js *)

Section HelperProperties.
Import Helpers.

(** C7.  For a string [s] and a maximum length [n] (a natural number),
    [truncateText(s, n)] is [s] itself when [s] has at most [n] code units;
    otherwise it is the first [n] code units of [s] followed by the ellipsis
    marker, [n + 3] code units in all. *)
Theorem truncateText_spec (s : string) (n : nat) :
  ((String.length s <= n)%nat ->
     truncateText (VStr s) (Z.of_nat n) = Normal (VStr s))
  /\ ((n < String.length s)%nat ->
        truncateText (VStr s) (Z.of_nat n)
          = Normal (VStr (take_units n s +:+ ellipsis))
        /\ (exists rest, s = take_units n s +:+ rest)
        /\ String.length (take_units n s) = n
        /\ String.length (take_units n s +:+ ellipsis) = (n + 3)%nat).
Proof.
  unfold truncateText. destruct s as [|c r].
  - split; [reflexivity | simpl; lia].
  - change (truthy (VStr (String c r))) with true. cbn [negb].
    change (get (VStr (String c r)) "length")
      with (@Normal value (VNum (Z.of_nat (String.length (String c r))))).
    cbn [bindC le_number]. split; intros Hlen.
    + destruct (Z.leb_spec (Z.of_nat (String.length (String c r))) (Z.of_nat n));
        [reflexivity | lia].
    + destruct (Z.leb_spec (Z.of_nat (String.length (String c r))) (Z.of_nat n));
        [lia|].
      cbn [call_substring0 bindC ToString]. unfold substring0.
      rewrite Nat2Z.id. split; [reflexivity|].
      split; [apply take_units_split|].
      assert (String.length (take_units n (String c r)) = n) as E
        by (apply take_units_length; lia).
      split; [exact E|]. rewrite append_length, E. reflexivity.
Qed.

Lemma truncateText_spec_witness :
  truncateText (VStr "Addition of fractions") 8 = Normal (VStr "Addition...")
  /\ truncateText (VStr "Sums") 8 = Normal (VStr "Sums").
Proof.
  split.
  - apply (proj2 (truncateText_spec "Addition of fractions" 8)). simpl. lia.
  - apply (proj1 (truncateText_spec "Sums" 8)). simpl. lia.
Defined.

(** A lower-cased key other than [constructor] and [__proto__] names nothing
    that a table inherits. *)
Lemma lowered_not_inherited (s : string) :
  toLowerCase s <> "constructor" -> toLowerCase s <> "__proto__" ->
  Object_prototype (toLowerCase s) = None.
Proof.
  intros Hc Hp. unfold Object_prototype.
  destruct (String.eqb_spec (toLowerCase s) "constructor") as [E|_]; [contradiction|].
  destruct (String.eqb_spec (toLowerCase s) "__proto__") as [E|_]; [contradiction|].
  cbn [existsb].
  repeat match goal with
  | |- context [String.eqb (toLowerCase s) ?name] =>
      destruct (String.eqb_spec (toLowerCase s) name) as [E|_];
      [exfalso; revert E; apply lowered_ne; discriminate|]
  end.
  reflexivity.
Qed.

Ltac miss_key k :=
  repeat match goal with
  | H : ~ In k (_ :: _) |- _ =>
      apply not_in_cons in H; destruct H as [? H]
  end;
  repeat match goal with
  | |- context [String.eqb k ?name] =>
      destruct (String.eqb_spec k name) as [?|_]; [congruence|]
  end.

(** C8, as amended.  A string key whose lower-cased form is outside the
    helper's enumeration, and is not [constructor] or [__proto__], gets the
    default: gray from [getDifficultyColor], the draft badge from
    [getStatusBadge], the question mark from [getQuestionTypeIcon], and the
    key itself from [formatQuestionType]; so does an absent key. *)
Theorem lookup_helpers_default (s : string) :
  toLowerCase s <> "constructor" -> toLowerCase s <> "__proto__" ->
  (~ In (toLowerCase s) difficulty_keys ->
     getDifficultyColor (VStr s) = Normal (VStr "#6b7280"))
  /\ (~ In (toLowerCase s) status_keys ->
        getStatusBadge (VStr s) = Normal draft_badge)
  /\ (~ In (toLowerCase s) type_keys ->
        getQuestionTypeIcon (VStr s) = Normal (VStr "❓")
        /\ formatQuestionType (VStr s) = Normal (VStr s))
  /\ (forall key, nullish key = true ->
        getDifficultyColor key = Normal (VStr "#6b7280")
        /\ getStatusBadge key = Normal draft_badge
        /\ getQuestionTypeIcon key = Normal (VStr "❓")
        /\ formatQuestionType key = Normal key).
Proof.
  intros Hc Hp. pose proof (lowered_not_inherited s Hc Hp) as Hproto.
  repeat split.
  - intros Hk. unfold getDifficultyColor, difficulty_keys in *.
    cbn [nullish call_toLowerCase bindC ToString colors get assoc].
    miss_key (toLowerCase s). rewrite Hproto. reflexivity.
  - intros Hk. unfold getStatusBadge, status_keys in *.
    cbn [nullish call_toLowerCase bindC ToString badges get assoc].
    miss_key (toLowerCase s). rewrite Hproto. reflexivity.
  - unfold getQuestionTypeIcon, type_keys in *.
    cbn [nullish call_toLowerCase bindC ToString icons get assoc].
    miss_key (toLowerCase s). rewrite Hproto. reflexivity.
  - unfold formatQuestionType, type_keys in *.
    cbn [nullish call_toLowerCase bindC ToString types get assoc].
    miss_key (toLowerCase s). rewrite Hproto. reflexivity.
  - destruct key; try discriminate; reflexivity.
  - destruct key; try discriminate; reflexivity.
  - destruct key; try discriminate; reflexivity.
  - destruct key; try discriminate; reflexivity.
Qed.

Lemma lookup_helpers_default_witness :
  getDifficultyColor (VStr "Legendary") = Normal (VStr "#6b7280")
  /\ getStatusBadge (VStr "Archived") = Normal draft_badge.
Proof.
  assert (forall k l, existsb (String.eqb k) l = false -> ~ In k l) as absent.
  { intros k l E Hin. apply not_true_iff_false in E. apply E.
    apply existsb_exists. exists k. split; [exact Hin | apply String.eqb_refl]. }
  split.
  - destruct (lookup_helpers_default "Legendary") as (Hd & _);
      [vm_compute; discriminate | vm_compute; discriminate |].
    apply Hd. apply absent. reflexivity.
  - destruct (lookup_helpers_default "Archived") as (_ & Hb & _);
      [vm_compute; discriminate | vm_compute; discriminate |].
    apply Hb. apply absent. reflexivity.
Defined.

(** C8 as stated fails: ["EASY"] is outside the enumeration, and
    [getDifficultyColor] answers green, not the default gray. *)
Lemma uppercase_key_not_default :
  ~ In "EASY" difficulty_keys
  /\ getDifficultyColor (VStr "EASY") = Normal (VStr "#10b981")
  /\ VStr "#10b981" <> VStr "#6b7280".
Proof.
  split; [|split; [reflexivity | discriminate]].
  simpl. intros [E|[E|[E|[E|[]]]]]; discriminate E.
Qed.

End HelperProperties.

(** ** Form validation *)

Section ValidationProperties.
Import Validation.

Lemma trim_empty_iff (s : string) : (len (trim s) =? 0) = true <-> trim s = "".
Proof.
  unfold len. rewrite Z.eqb_eq. split.
  - intros E. destruct (trim s); [reflexivity | simpl in E; lia].
  - intros ->. reflexivity.
Qed.

Lemma missing_blank (x : option string) : blank x -> missing x = true.
Proof.
  destruct x as [s|]; simpl; [|reflexivity].
  intros E. apply orb_true_iff. right. apply trim_empty_iff. exact E.
Qed.

Lemma missing_present (s : string) : trim s <> "" -> missing (Some s) = false.
Proof.
  intros Hne. simpl. apply orb_false_iff. split.
  - destruct (String.eqb_spec s "") as [->|]; [contradiction Hne|]; reflexivity.
  - apply not_true_iff_false. rewrite trim_empty_iff. exact Hne.
Qed.

Lemma longer_than_within (n : Z) (s : string) :
  len s <= n -> longer_than n (Some s) = false.
Proof.
  intros Hle. simpl. apply andb_false_iff. right.
  rewrite Z.gtb_ltb. apply Z.ltb_ge. exact Hle.
Qed.

Lemma shorter_than_within (n : Z) (s : string) :
  n <= len s -> shorter_than n (Some s) = false.
Proof.
  intros Hle. simpl. apply andb_false_iff. right. apply Z.ltb_ge. exact Hle.
Qed.

Lemma flag_hit (k msg : string) (e : gmap string string) :
  is_Some (flag true k msg e !! k).
Proof. simpl. rewrite lookup_insert_eq. eauto. Qed.

Lemma flag_keeps (c : bool) (k k' msg : string) (e : gmap string string) :
  is_Some (e !! k) -> is_Some (flag c k' msg e !! k).
Proof.
  intros Hk. destruct c; simpl; [|exact Hk].
  destruct (decide (k' = k)) as [->|Hne].
  - rewrite lookup_insert_eq. eauto.
  - rewrite lookup_insert_ne by exact Hne. exact Hk.
Qed.

Lemma flagged_invalid (k : string) (e : gmap string string) :
  is_Some (e !! k) -> Nat.eqb (size e) 0 = false.
Proof.
  intros [v Hv]. apply Nat.eqb_neq. intros E.
  apply map_size_empty_iff in E. subst e. rewrite lookup_empty in Hv. discriminate Hv.
Qed.

Lemma blank_field_flagged (data : draft) (f : field) :
  blank (field_value data f) ->
  is_Some (errors (validateTemplateForm data) !! field_name f).
Proof.
  intros Hb. apply missing_blank in Hb.
  destruct f; simpl in Hb; unfold validateTemplateForm; cbn [errors field_name];
    rewrite Hb; repeat first [apply flag_hit | apply flag_keeps].
Qed.

(** C3.  A draft in which one of the nine required fields is absent, empty
    or whitespace-only has that field in the error map and is not valid; a
    draft in which all nine are non-empty once trimmed, module, category,
    topic and subtopic have at most 100 code units, format at most 200 and
    both scripts at least 10, is valid with an empty error map. *)
Theorem validateTemplateForm_spec (data : draft) :
  (forall f, blank (field_value data f) ->
     is_Some (errors (validateTemplateForm data) !! field_name f)
     /\ isValid (validateTemplateForm data) = false)
  /\ (complete data ->
        isValid (validateTemplateForm data) = true
        /\ errors (validateTemplateForm data) = ∅).
Proof.
  split.
  - intros f Hb. pose proof (blank_field_flagged data f Hb) as Hin.
    split; [exact Hin|].
    unfold validateTemplateForm in *. cbn [isValid errors] in *.
    eapply flagged_invalid. exact Hin.
  - intros Hc.
    destruct (Hc Module_) as (m & Em & Hm & Hmax_m & _).
    destruct (Hc Category) as (c & Ec & Hcat & Hmax_c & _).
    destruct (Hc Topic) as (t & Et & Ht & Hmax_t & _).
    destruct (Hc Subtopic) as (st & Est & Hst & Hmax_st & _).
    destruct (Hc Format) as (fo & Efo & Hfo & Hmax_fo & _).
    destruct (Hc Difficulty) as (d & Ed & Hd & _).
    destruct (Hc Type_) as (ty & Ety & Hty & _).
    destruct (Hc DynamicQuestion) as (dq & Edq & Hdq & _ & Hmin_dq).
    destruct (Hc LogicalAnswer) as (la & Ela & Hla & _ & Hmin_la).
    simpl in Em, Ec, Et, Est, Efo, Ed, Ety, Edq, Ela.
    unfold validateTemplateForm. cbn [isValid errors].
    rewrite Em, Ec, Et, Est, Efo, Ed, Ety, Edq, Ela.
    rewrite !missing_present by assumption.
    rewrite (longer_than_within 100 m), (longer_than_within 100 c),
      (longer_than_within 100 t), (longer_than_within 100 st),
      (longer_than_within 200 fo) by auto.
    rewrite (shorter_than_within 10 dq), (shorter_than_within 10 la) by auto.
    cbn [flag]. rewrite map_size_empty. split; reflexivity.
Qed.

Lemma validateTemplateForm_spec_witness :
  (isValid (validateTemplateForm sample_draft) = true
   /\ errors (validateTemplateForm sample_draft) = ∅)
  /\ (is_Some (errors (validateTemplateForm blank_topic_draft) !! "topic")
      /\ isValid (validateTemplateForm blank_topic_draft) = false).
Proof.
  split.
  - apply (validateTemplateForm_spec sample_draft).
    intros f; destruct f; eexists; (split; [reflexivity|]);
      (split; [vm_compute; discriminate|]);
      split; intros n E; vm_compute in E; try discriminate E;
      injection E as <-; vm_compute; discriminate.
  - apply (proj1 (validateTemplateForm_spec blank_topic_draft) Topic).
    reflexivity.
Defined.

End ValidationProperties.


(** ** Objects and errors *)

Section ObjectFacts.
Lemma assoc_obj_set_eq (k : string) (v : value) (ps : props) :
  assoc k (obj_set k v ps) = Some v.
Proof.
  induction ps as [|[k' v'] r IH]; simpl.
  - rewrite String.eqb_refl. reflexivity.
  - destruct (String.eqb k k') eqn:E; simpl; rewrite ?String.eqb_refl, ?E; auto.
Qed.

Lemma assoc_obj_set_ne (k k' : string) (v : value) (ps : props) :
  k <> k' -> assoc k (obj_set k' v ps) = assoc k ps.
Proof.
  intros Hne. induction ps as [|[k'' v''] r IH]; simpl.
  - destruct (String.eqb_spec k k'); [contradiction | reflexivity].
  - destruct (String.eqb_spec k' k'') as [->|Hk]; simpl.
    + destruct (String.eqb_spec k k''); [contradiction | reflexivity].
    + destruct (String.eqb k k''); [reflexivity | exact IH].
Qed.

Lemma get_obj_set_eq (k : string) (v : value) (ps : props) :
  get (VObj (obj_set k v ps)) k = Normal v.
Proof. simpl. rewrite assoc_obj_set_eq. reflexivity. Qed.

Lemma get_obj_set_ne (k k' : string) (v : value) (ps : props) :
  k <> k' -> get (VObj (obj_set k' v ps)) k = get (VObj ps) k.
Proof. intros Hne. simpl. rewrite assoc_obj_set_ne by exact Hne. reflexivity. Qed.
End ObjectFacts.

Section ErrorFacts.

Lemma get_throws_error (v : value) (k : string) (e : value) :
  get v k = Throw e -> is_error e.
Proof.
  destruct v; simpl; try discriminate.
  - intros [= <-]. eexists; reflexivity.
  - intros [= <-]. eexists; reflexivity.
  - destruct (String.eqb k "length"); [discriminate|].
    destruct (array_index k); discriminate.
  - destruct (String.eqb k "length"); [discriminate|].
    destruct (array_index k); discriminate.
  - destruct (assoc k props0); [discriminate|].
    destruct (Object_prototype k); discriminate.
Qed.

Lemma get_defined (v : value) (k : string) :
  nullish v = false -> exists x, get v k = Normal x.
Proof.
  destruct v; simpl; try discriminate; intros _; eauto.
  - destruct (String.eqb k "length"); eauto. destruct (array_index k); eauto.
  - destruct (String.eqb k "length"); eauto. destruct (array_index k); eauto.
  - destruct (assoc k props0); eauto. destruct (Object_prototype k); eauto.
Qed.

Lemma get_Normal_defined (v : value) (k : string) (x : value) :
  get v k = Normal x -> nullish v = false.
Proof. destruct v; simpl; try discriminate; reflexivity. Qed.

Lemma truthy_defined (v : value) : truthy v = true -> nullish v = false.
Proof. destruct v; simpl; try discriminate; reflexivity. Qed.

Lemma strict_eq_string (v : value) (s : string) :
  strict_eq v (VStr s) = true <-> v = VStr s.
Proof.
  destruct v; simpl; split; try discriminate.
  - intros E. apply String.eqb_eq in E. subst. reflexivity.
  - intros [= ->]. apply String.eqb_refl.
Qed.

Lemma Object_keys_truthy (v : value) (k : string) (ks : list string) :
  Object_keys v = Normal (k :: ks) -> truthy v = true.
Proof.
  destruct v; try discriminate; try reflexivity.
  destruct s; [discriminate | reflexivity].
Qed.

Lemma Object_keys_single (k : string) (e : value) :
  Object_keys (VObj [(k, e)]) = Normal [k].
Proof.
  unfold Object_keys, own_props, own_keys. cbn.
  destruct (array_index k); reflexivity.
Qed.

Lemma get_opt_defined (v : value) (k : string) : exists x, get_opt v k = Normal x.
Proof.
  unfold get_opt. destruct (nullish v) eqn:E; [eauto | apply get_defined; exact E].
Qed.

Lemma parseErrorMessage_error (m : string) :
  Helpers.parseErrorMessage (mkError m) = Normal (VStr (displayed m)).
Proof.
  unfold Helpers.parseErrorMessage, displayed. cbn.
  destruct (String.eqb m ""); reflexivity.
Qed.

Lemma throw_api_error_throws (result : value) (fallback : string) (w : world) :
  exists m, @Service.throw_api_error value result fallback w = (Throw (mkError m), w).
Proof.
  unfold Service.throw_api_error, bind, lift, throw.
  destruct (get result "error") as [e|e] eqn:E.
  - destruct (get_opt_defined e "message") as [x ->]. eexists; reflexivity.
  - apply get_throws_error in E. destruct E as [m ->]. eexists; reflexivity.
Qed.

Context `{Serializer}.

Lemma call_throws_error meth path payload fallback (w w' : world) (e : value) :
  Service.call meth path payload fallback w = (Throw e, w') -> is_error e.
Proof.
  unfold Service.call, try_catch, bind, Service.getAuthHeaders, getItem, gets, ret,
    fetch, lift, throw. cbn -[Service.throw_api_error].
  destruct (responses w (List.length (sent w))) as [m|ok [m|v]];
    cbn -[Service.throw_api_error].
  - intros [= <- _]. eexists; reflexivity.
  - intros [= <- _]. eexists; reflexivity.
  - destruct ok; cbn -[Service.throw_api_error]; [discriminate|].
    match goal with |- context [Service.throw_api_error v fallback ?w0] =>
      destruct (throw_api_error_throws v fallback w0) as [m ->] end.
    intros [= <- _]. eexists; reflexivity.
Qed.

Lemma listTemplates_throws_error fs (w w' : world) (e : value) :
  Service.listTemplates fs w = (Throw e, w') -> is_error e.
Proof.
  unfold Service.listTemplates, try_catch, bind, Service.getAuthHeaders, getItem, gets, ret,
    fetch, lift, throw. cbn -[Service.throw_api_error].
  destruct (responses w (List.length (sent w))) as [m|ok [m|v]];
    cbn -[Service.throw_api_error].
  - intros [= <- _]. eexists; reflexivity.
  - intros [= <- _]. eexists; reflexivity.
  - destruct ok; cbn -[Service.throw_api_error]; [discriminate|].
    match goal with |- context [Service.throw_api_error v ?fb ?w0] =>
      destruct (throw_api_error_throws v fb w0) as [m ->] end.
    intros [= <- _]. eexists; reflexivity.
Qed.

Lemma deleteTemplate_throws_error id (w w' : world) (e : value) :
  Service.deleteTemplate id w = (Throw e, w') -> is_error e.
Proof.
  unfold Service.deleteTemplate, try_catch, bind, Service.getAuthHeaders, getItem, gets, ret,
    fetch, lift, throw. cbn -[Service.throw_api_error].
  destruct (responses w (List.length (sent w))) as [m|ok b];
    cbn -[Service.throw_api_error].
  - intros [= <- _]. eexists; reflexivity.
  - destruct ok; cbn -[Service.throw_api_error]; [discriminate|].
    destruct b as [m|v]; cbn -[Service.throw_api_error].
    + intros [= <- _]. eexists; reflexivity.
    + match goal with |- context [Service.throw_api_error v ?fb ?w0] =>
        destruct (throw_api_error_throws v fb w0) as [m ->] end.
      intros [= <- _]. eexists; reflexivity.
Qed.

End ErrorFacts.

(** ** Filters and the list query *)

Section FilterProperties.
Import Async Platform TemplateStore.

Lemma merge_filters_lookup (patch prev : gmap string value) (k : string) :
  merge_filters patch prev !! k
  = if decide (k = "offset") then Some (VNum 0)
    else match patch !! k with
         | Some v => Some v
         | None => prev !! k
         end.
Proof.
  unfold merge_filters. destruct (decide (k = "offset")) as [->|Hne].
  - apply lookup_insert_eq.
  - rewrite lookup_insert_ne by congruence.
    destruct (patch !! k) as [v|] eqn:E.
    + apply lookup_union_Some_l. exact E.
    + rewrite lookup_union_r by exact E. reflexivity.
Qed.

(** C6.  Applying a filter patch gives a filter set whose offset is 0,
    whatever it was and whatever the patch says of it; every other field
    named in the patch takes the patch's value, and every field not named in
    the patch is unchanged; nothing else in the store changes. *)
Theorem updateFilters_spec (patch : gmap string value) (st : state) :
  exists st',
    updateFilters patch st = (Normal tt, st')
    /\ filters st' !! "offset" = Some (VNum 0)
    /\ (forall k, k <> "offset" ->
          filters st' !! k = match patch !! k with
                             | Some v => Some v
                             | None => filters st !! k
                             end)
    /\ templates st' = templates st
    /\ currentTemplate st' = currentTemplate st
    /\ loading st' = loading st
    /\ error st' = error st
    /\ totalCount st' = totalCount st
    /\ env st' = env st.
Proof.
  eexists. split; [reflexivity|]. cbn [filters templates currentTemplate loading
    error totalCount env]. split.
  - rewrite merge_filters_lookup. reflexivity.
  - split; [|repeat split].
    intros k Hne. rewrite merge_filters_lookup.
    destruct (decide (k = "offset")); [contradiction | reflexivity].
Qed.

Lemma updateFilters_spec_witness :
  filters second_page !! "offset" = Some (VNum 50)
  /\ exists st',
       updateFilters {["difficulty" := VStr "hard"]} second_page = (Normal tt, st')
       /\ filters st' !! "offset" = Some (VNum 0)
       /\ filters st' !! "difficulty" = Some (VStr "hard")
       /\ filters st' !! "status" = Some (VStr "draft")
       /\ filters st' !! "limit" = Some (VNum 50).
Proof.
  split; [reflexivity|].
  destruct (updateFilters_spec {["difficulty" := VStr "hard"]} second_page)
    as (st' & Hrun & Ho & Hk & _).
  exists st'. split; [exact Hrun|]. split; [exact Ho|]. split; [|split].
  - rewrite (Hk "difficulty") by discriminate. reflexivity.
  - rewrite (Hk "status") by discriminate. reflexivity.
  - rewrite (Hk "limit") by discriminate. reflexivity.
Defined.

(** A patch that itself names an offset is no exception: the offset is 0
    afterwards. *)
Lemma offset_in_patch_not_taken :
  exists st',
    updateFilters {["offset" := VNum 50]} (initial offline) = (Normal tt, st')
    /\ ({["offset" := VNum 50]} : gmap string value) !! "offset" = Some (VNum 50)
    /\ filters st' !! "offset" = Some (VNum 0).
Proof.
  eexists. split; [reflexivity|]. split; reflexivity.
Qed.

Lemma listTemplates_sends (fs : gmap string value) (w : world) :
  exists hs,
    fst (Service.getAuthHeaders w) = Normal hs
    /\ sent (snd (Service.listTemplates fs w))
       = sent w ++ [{| method := "GET"; url := Service.listTemplates_url fs;
                       headers := hs; body := None |}].
Proof.
  eexists. split; [reflexivity|].
  unfold Service.listTemplates, try_catch, bind, Service.getAuthHeaders,
    getItem, gets, ret, fetch, lift, Service.throw_api_error, throw.
  cbn.
  destruct (responses w (List.length (sent w))) as [m|ok [m|v]]; cbn;
    try reflexivity.
  destruct ok; cbn; [reflexivity|].
  destruct (get v "error") as [e|e]; cbn; [|reflexivity].
  destruct (get_opt e "message"); reflexivity.
Qed.

(** C10.  A filter field is among the entries of the list request's query
    string exactly when its value is truthy, and then with its string form;
    an offset of 0, an empty module, category, difficulty or status and a
    limit of 0 are left out. *)
Theorem listTemplates_query (fs : gmap string value) (w : world) :
  (forall k, In k filter_names ->
     (In k (List.map fst (Service.listTemplates_params fs))
      <-> truthy (filter_value fs k) = true))
  /\ (forall k v, In (k, v) (Service.listTemplates_params fs) ->
        In k filter_names /\ v = ToString (filter_value fs k))
  /\ (exists hs,
        fst (Service.getAuthHeaders w) = Normal hs
        /\ sent (snd (Service.listTemplates fs w))
        = sent w ++ [{| method := "GET";
                        url := Service.API_BASE +:+ "/question-templates?"
                               +:+ URLSearchParams_toString
                                     (Service.listTemplates_params fs);
                        headers := hs; body := None |}])
  /\ Service.listTemplates_params
       (<["module" := VStr ""]> (<["category" := VStr ""]>
        (<["difficulty" := VStr ""]> (<["status" := VStr ""]>
        (<["limit" := VNum 0]> (<["offset" := VNum 0]> ∅)))))) = [].
Proof.
  split; [|split; [|split; [apply listTemplates_sends | reflexivity]]].
  - intros k Hk. unfold Service.listTemplates_params, Service.param, filter_value in *.
    destruct (truthy (default VUndefined (fs !! "module"))) eqn:E1,
             (truthy (default VUndefined (fs !! "category"))) eqn:E2,
             (truthy (default VUndefined (fs !! "difficulty"))) eqn:E3,
             (truthy (default VUndefined (fs !! "status"))) eqn:E4,
             (truthy (default VUndefined (fs !! "limit"))) eqn:E5,
             (truthy (default VUndefined (fs !! "offset"))) eqn:E6;
      simpl in Hk |- *;
      destruct Hk as [<-|[<-|[<-|[<-|[<-|[<-|[]]]]]]];
      (split; [intros Hin; repeat destruct Hin as [Hin|Hin];
               first [congruence | discriminate Hin | contradiction]
              | intros Ht; first [congruence | tauto]]).
  - intros k v. unfold Service.listTemplates_params, Service.param, filter_value.
    rewrite !in_app_iff.
    intros Hin; repeat destruct Hin as [Hin|Hin];
      match type of Hin with
      | In _ (if ?c then _ else _) =>
          destruct c; simpl in Hin; [destruct Hin as [Hin|[]] | contradiction Hin]
      end;
      injection Hin as <- <-; (split; [simpl; tauto | reflexivity]).
Qed.

Lemma listTemplates_query_witness :
  In "status" (List.map fst (Service.listTemplates_params
                               (<["status" := VStr "active"]> default_filters)))
  /\ ~ In "offset" (List.map fst (Service.listTemplates_params
                                    (<["status" := VStr "active"]> default_filters))).
Proof.
  destruct (listTemplates_query (<["status" := VStr "active"]> default_filters) offline)
    as (Hiff & _).
  split.
  - apply (Hiff "status"); [simpl; tauto | reflexivity].
  - intros Hin. apply (Hiff "offset") in Hin; [discriminate Hin | simpl; tauto].
Defined.

End FilterProperties.

(** ** The template store *)

Section StoreProps.
Import TemplateStore.
Context `{Serializer}.

Lemma throw_response_error_throws (response : value) (fallback : string) (s : state) :
  nullish response = false ->
  exists m, @throw_response_error value response fallback s = (Throw (mkError m), s).
Proof.
  intros Hn. unfold throw_response_error, bind, lift, throw.
  destruct (get_defined response "error" Hn) as [e ->].
  destruct (get_opt_defined e "message") as [x ->]. eexists; reflexivity.
Qed.

Lemma throw_response_error_exact (response : value) (fallback : string) (s : state) :
  nullish response = false ->
  @throw_response_error value response fallback s
  = (Throw (answer_error response fallback), s).
Proof.
  intros Hn.
  unfold throw_response_error, answer_error, answer_text, answer_message, bind, lift, throw.
  destruct (get_defined response "error" Hn) as [e ->].
  destruct (get_opt_defined e "message") as [x ->]. reflexivity.
Qed.

Lemma fetchTemplates_run (st : state) :
  exists st',
    fetchTemplates st = (Normal VUndefined, st')
    /\ loading st' = false
    /\ filters st' = filters st
    /\ currentTemplate st' = currentTemplate st
    /\ match Service.listTemplates (filters st) (env st) with
       | (Normal response, w') =>
           env st' = w'
           /\ if succeeded response
              then templates st' = payload_field response "templates" (VArr [])
                   /\ totalCount st' = payload_field response "total" (VNum 0)
                   /\ error st' = VNull
              else templates st' = VArr []
                   /\ totalCount st' = totalCount st
                   /\ match get response "success" with
                      | Normal _ =>
                          error st'
                          = VStr (displayed
                                    (answer_text response "Failed to fetch templates"))
                      | Throw e => exists m, e = mkError m /\ error st' = VStr (displayed m)
                      end
       | (Throw e, w') =>
           env st' = w'
           /\ templates st' = VArr []
           /\ totalCount st' = totalCount st
           /\ exists m, e = mkError m /\ error st' = VStr (displayed m)
       end.
Proof.
  unfold fetchTemplates, try_finally, try_catch, bind, api, zoom, setLoading, setError,
    setTemplates, setTotalCount, modify, gets, lift, ret.
  cbn -[Service.listTemplates throw_response_error Helpers.parseErrorMessage].
  destruct (Service.listTemplates (filters st) (env st)) as [[response|e] w'] eqn:Ecall;
    cbn -[throw_response_error Helpers.parseErrorMessage].
  - unfold succeeded, payload_field.
    destruct (get response "success") as [ok|e] eqn:Eok;
      cbn -[throw_response_error Helpers.parseErrorMessage].
    + destruct (truthy ok) eqn:Hok; cbn -[throw_response_error Helpers.parseErrorMessage].
      * destruct (get_defined response "data" (get_Normal_defined _ _ _ Eok)) as [data ->].
        destruct (get_opt_defined data "templates") as [ts Ets].
        destruct (get_opt_defined data "total") as [n En].
        rewrite Ets, En. cbn. eexists. repeat split.
      * rewrite throw_response_error_exact by exact (get_Normal_defined _ _ _ Eok).
        unfold answer_error. rewrite parseErrorMessage_error. cbn.
        eexists. repeat split.
    + apply get_throws_error in Eok. destruct Eok as [m ->].
      rewrite parseErrorMessage_error. cbn. eexists. repeat split.
      eexists; split; reflexivity.
  - apply listTemplates_throws_error in Ecall. destruct Ecall as [m ->].
    rewrite parseErrorMessage_error. cbn. eexists. repeat split.
    eexists; split; reflexivity.
Qed.

Lemma api_call_throws_error op (w w' : world) (e : value) :
  api_call op w = (Throw e, w') -> is_error e.
Proof.
  destruct op; simpl; try apply call_throws_error. apply deleteTemplate_throws_error.
Qed.

Ltac caught_error :=
  match goal with
  | |- context [throw_response_error ?r ?fb ?s0] =>
      let m := fresh "m" in
      destruct (throw_response_error_throws r fb s0) as [m ->];
      [eapply get_Normal_defined; eassumption|]
  | _ => idtac
  end;
  rewrite parseErrorMessage_error; cbn;
  eexists; eexists; repeat split.

Lemma failed_operation_reports (op : operation) (st : state) :
  api_failed op (env st) = true ->
  exists msg st',
    run op st = (Normal (failure (VStr msg)), st')
    /\ error st' = VStr msg
    /\ loading st' = false
    /\ templates st' = templates st
    /\ currentTemplate st' = currentTemplate st
    /\ totalCount st' = totalCount st
    /\ env st' = snd (api_call op (env st)).
Proof.
  unfold api_failed.
  destruct (api_call op (env st)) as [[response|e] w'] eqn:Ecall; cbn [fst snd].
  - destruct op; try discriminate; unfold succeeded;
      (destruct (get response "success") as [ok|e] eqn:Eok; cbn [negb];
       [destruct (truthy ok) eqn:Hok; [discriminate|] |]); intros _;
      simpl in Ecall;
      unfold run, createTemplate, updateTemplate, getTemplate, previewTemplate,
        try_finally, try_catch, bind, api, zoom, setLoading, setError, report,
        modify, gets, lift, ret;
      cbn -[Service.createTemplate Service.updateTemplate Service.getTemplate
            Service.previewTemplate throw_response_error Helpers.parseErrorMessage];
      rewrite Ecall;
      cbn -[throw_response_error Helpers.parseErrorMessage];
      rewrite Eok;
      cbn -[throw_response_error Helpers.parseErrorMessage];
      rewrite ?Hok;
      cbn -[throw_response_error Helpers.parseErrorMessage];
      try (apply get_throws_error in Eok; destruct Eok as [m ->]);
      caught_error.
  - intros _. pose proof (api_call_throws_error _ _ _ _ Ecall) as [m ->].
    destruct op; simpl in Ecall;
      unfold run, createTemplate, updateTemplate, deleteTemplate, getTemplate,
        previewTemplate,
        try_finally, try_catch, bind, api, zoom, setLoading, setError, report,
        modify, gets, lift, ret;
      cbn -[Service.createTemplate Service.updateTemplate Service.getTemplate
            Service.deleteTemplate
            Service.previewTemplate throw_response_error Helpers.parseErrorMessage];
      rewrite Ecall;
      cbn -[throw_response_error Helpers.parseErrorMessage];
      caught_error.
Qed.

(** C5.  The list operation always returns, with the busy flag cleared.  When
    the API call succeeds, the collection and the total count are those of
    the server's payload (an empty collection and 0 where the payload has
    none).  When it fails, the collection is empty and the error message is
    recorded: the message of the error the call raised; for an answer without
    a truthy success, the answer's [error.message] when there is one and
    ['Failed to fetch templates'] otherwise; for an answer that is null, the
    message of the TypeError of reading it (in each case as the
    error-message extractor shows it). *)
Theorem fetchTemplates_spec (st : state) :
  exists st',
    fetchTemplates st = (Normal VUndefined, st')
    /\ loading st' = false
    /\ match Service.listTemplates (filters st) (env st) with
       | (Normal response, _) =>
           if succeeded response
           then templates st' = payload_field response "templates" (VArr [])
                /\ totalCount st' = payload_field response "total" (VNum 0)
                /\ error st' = VNull
           else templates st' = VArr []
                /\ match get response "success" with
                   | Normal _ =>
                       error st'
                       = VStr (displayed
                                 (answer_text response "Failed to fetch templates"))
                   | Throw e => exists m, e = mkError m /\ error st' = VStr (displayed m)
                   end
       | (Throw e, _) =>
           templates st' = VArr []
           /\ exists m, e = mkError m /\ error st' = VStr (displayed m)
       end.
Proof.
  destruct (fetchTemplates_run st) as (st' & Hrun & Hl & _ & _ & Hout).
  exists st'. split; [exact Hrun|]. split; [exact Hl|].
  destruct (Service.listTemplates (filters st) (env st)) as [[response|e] w'].
  - destruct Hout as (_ & Hout). destruct (succeeded response).
    + exact Hout.
    + destruct Hout as (Ht & _ & Hm). split; assumption.
  - destruct Hout as (_ & Ht & _ & Hm). split; assumption.
Qed.

End StoreProps.

(** ** The session store *)

Section AuthProps.
Import Auth.

Lemma activeChildEffect_run (st : state) (children : value) (first : string) (rest : list string) :
  truthy (user st) = true ->
  get_opt (userData st) "children" = Normal children ->
  Object_keys children = Normal (first :: rest) ->
  exists key st',
    activeChild_key (user st) = Normal key
    /\ activeChildEffect st = (Normal tt, st')
    /\ activeChildId st' = VStr (selected (storage (env st) !! key) (first :: rest) first)
    /\ env st' = env st
    /\ activeChildLoading st' = false
    /\ user st' = user st /\ userData st' = userData st /\ userType st' = userType st.
Proof.
  destruct st as [u d ty a al l [sto resp snt]]. cbn [user userData env storage].
  intros Hu Hc Hk. pose proof (Object_keys_truthy _ _ _ Hk) as Ht.
  destruct (get_defined u "uid" (truthy_defined _ Hu)) as [uid Euid].
  assert (activeChild_key u = Normal ("activeChild_" +:+ ToString uid)) as Ekey
    by (unfold activeChild_key; rewrite Euid; reflexivity).
  exists ("activeChild_" +:+ ToString uid).
  unfold activeChildEffect, bind, gets, lift, platform, zoom, getItem, item,
    setActiveChildId, setActiveChildLoading, modify, ret, selected.
  cbn -[existsb String.append activeChild_key].
  rewrite Hc, Hu, Ht, Ekey. cbn -[existsb String.append]. rewrite Hk.
  cbn -[existsb String.append].
  destruct (sto !! ("activeChild_" +:+ ToString uid)) as [s|] eqn:Es;
    cbn -[existsb String.append].
  - destruct (negb (String.eqb s "") && existsb (String.eqb s) (first :: rest)) eqn:E;
      cbn -[existsb String.append]; eexists; repeat split.
  - eexists; repeat split.
Qed.

Lemma updateActiveChild_run (childId : value) (st : state) :
  truthy (user st) = true ->
  exists key st',
    activeChild_key (user st) = Normal key
    /\ updateActiveChild childId st = (Normal tt, st')
    /\ activeChildId st' = childId
    /\ storage (env st') !! key = Some (ToString childId)
    /\ (forall k, k <> key -> storage (env st') !! k = storage (env st) !! k).
Proof.
  destruct st as [u d ty a al l [sto resp snt]]. cbn [user env storage].
  intros Hu. destruct (get_defined u "uid" (truthy_defined _ Hu)) as [uid Euid].
  assert (activeChild_key u = Normal ("activeChild_" +:+ ToString uid)) as Ekey
    by (unfold activeChild_key; rewrite Euid; reflexivity).
  exists ("activeChild_" +:+ ToString uid).
  unfold updateActiveChild, bind, gets, lift, platform, zoom, setItem,
    setActiveChildId, modify, ret.
  cbn -[String.append activeChild_key]. rewrite Hu, Ekey.
  cbn -[String.append]. eexists. repeat split.
  - apply lookup_insert_eq.
  - intros k Hk. apply lookup_insert_ne. congruence.
Qed.

(** C1, as amended.  With a user and a non-empty children mapping, the effect
    restores the child identifier stored for this principal when it is
    non-empty and a key of the mapping, and otherwise selects the first key
    in [Object.keys] order; it leaves local storage as it is.  A choice is
    written to local storage, under the principal's key, by an explicit
    selection. *)
Theorem activeChildEffect_spec (st : state) :
  truthy (user st) = true ->
  (forall children first rest,
     get_opt (userData st) "children" = Normal children ->
     Object_keys children = Normal (first :: rest) ->
     exists key st',
       activeChild_key (user st) = Normal key
       /\ activeChildEffect st = (Normal tt, st')
       /\ activeChildId st'
          = VStr (selected (storage (env st) !! key) (first :: rest) first)
       /\ env st' = env st)
  /\ (forall childId,
        exists key st',
          activeChild_key (user st) = Normal key
          /\ updateActiveChild childId st = (Normal tt, st')
          /\ activeChildId st' = childId
          /\ storage (env st') !! key = Some (ToString childId)).
Proof.
  intros Hu. split.
  - intros children first rest Hc Hk.
    destruct (activeChildEffect_run st children first rest Hu Hc Hk)
      as (key & st' & Hkey & Hrun & Hid & Henv & _).
    exists key, st'. repeat split; assumption.
  - intros childId.
    destruct (updateActiveChild_run childId st Hu)
      as (key & st' & Hkey & Hrun & Hid & Hsto & _).
    exists key, st'. repeat split; assumption.
Qed.

Context `{Serializer}.

Lemma fetchUserData_profile (st : state) (uid0 overrideToken apiData role uid phone children : value) :
  truthy (or_else overrideToken (item (env st) "authToken")) = true ->
  responses (env st) (List.length (sent (env st))) = Response true (Json apiData) ->
  role_of apiData = Normal role ->
  strict_eq role (VStr "teacher") = false ->
  get apiData "user_id" = Normal uid ->
  get apiData "phone_number" = Normal phone ->
  children_of role apiData = Normal children ->
  fetchUserData uid0 overrideToken st
  = (Normal VUndefined,
     {| user := simple_user apiData uid;
        userData := normalized apiData uid phone role children;
        userType := role;
        activeChildId := activeChildId st;
        activeChildLoading := activeChildLoading st;
        loading := loading st;
        env := set_storage
                 (insert "authUser" (JSON_stringify (simple_user apiData uid)))
                 (after_fetch
                    (me_request (or_else overrideToken (item (env st) "authToken")))
                    (env st)) |}).
Proof.
  destruct st as [u d ty a al l [sto resp snt]]. cbn [env sent responses].
  intros Ht Hresp Hrole Hnt Huid Hph Hch.
  unfold fetchUserData, try_catch, bind, gets, lift, platform, zoom, getItem, setItem,
    fetch, setUser, setUserData, setUserType, modify, ret.
  cbn -[role_of children_of object_literal String.append or_else item].
  rewrite Ht.
  cbn -[role_of children_of object_literal String.append or_else item].
  rewrite Hresp.
  cbn -[role_of children_of object_literal String.append or_else item].
  rewrite Hrole. cbn -[role_of children_of object_literal String.append or_else item].
  rewrite Huid. cbn -[role_of children_of object_literal String.append or_else item].
  rewrite Hnt, Hch. cbn -[role_of children_of object_literal String.append or_else item].
  rewrite Hph. cbn -[role_of children_of object_literal String.append or_else item].
  reflexivity.
Qed.

Lemma fetchUserData_teacher (st : state) (uid0 overrideToken apiData uid : value) :
  truthy (or_else overrideToken (item (env st) "authToken")) = true ->
  responses (env st) (List.length (sent (env st))) = Response true (Json apiData) ->
  role_of apiData = Normal (VStr "teacher") ->
  get apiData "user_id" = Normal uid ->
  fetchUserData uid0 overrideToken st
  = (Normal VUndefined,
     {| user := teacher_data apiData uid;
        userData := teacher_data apiData uid;
        userType := VStr "teacher";
        activeChildId := activeChildId st;
        activeChildLoading := activeChildLoading st;
        loading := loading st;
        env := set_storage
                 (insert "authUser" (JSON_stringify (teacher_data apiData uid)))
                 (after_fetch
                    (me_request (or_else overrideToken (item (env st) "authToken")))
                    (env st)) |}).
Proof.
  destruct st as [u d ty a al l [sto resp snt]]. cbn [env sent responses].
  intros Ht Hresp Hrole Huid.
  unfold fetchUserData, try_catch, bind, gets, lift, platform, zoom, getItem, setItem,
    fetch, setUser, setUserData, setUserType, modify, ret.
  cbn -[role_of children_of object_literal String.append or_else item].
  rewrite Ht.
  cbn -[role_of children_of object_literal String.append or_else item].
  rewrite Hresp.
  cbn -[role_of children_of object_literal String.append or_else item].
  rewrite Hrole. cbn -[role_of children_of object_literal String.append or_else item].
  rewrite Huid. cbn -[role_of children_of object_literal String.append or_else item].
  reflexivity.
Qed.

Lemma role_of_discriminator (apiData role user_type : value) :
  get apiData "role" = Normal role ->
  get apiData "user_type" = Normal user_type ->
  role_of apiData = Normal (discriminator role user_type).
Proof.
  intros Hr Hu. unfold role_of, discriminator, or_else. rewrite Hr. cbn [bindC].
  destruct (truthy role); [reflexivity|]. rewrite Hu. reflexivity.
Qed.

Lemma self_child_defined (apiData : value) :
  nullish apiData = false -> exists c, self_child apiData = Normal c.
Proof.
  intros Hn. unfold self_child.
  destruct (get_defined apiData "user_id" Hn) as [? ->].
  destruct (get_defined apiData "display_name" Hn) as [? ->].
  destruct (get_defined apiData "first_name" Hn) as [? ->].
  destruct (get_defined apiData "grade" Hn) as [? ->].
  destruct (get_defined apiData "school_name" Hn) as [? ->].
  eexists; reflexivity.
Qed.

Lemma children_of_defined (role apiData : value) :
  nullish apiData = false -> exists c, children_of role apiData = Normal c.
Proof.
  intros Hn. unfold children_of.
  destruct (get_defined apiData "children" Hn) as [c ->]. cbn [bindC].
  destruct (strict_eq role (VStr "student")); [|eauto].
  assert (nullish (or_else c (VObj [])) = false) as Hc.
  { unfold or_else. destruct (truthy c) eqn:E; [apply truthy_defined; exact E | reflexivity]. }
  unfold Object_keys. rewrite Hc. cbn [bindC].
  destruct (Z.of_nat _ =? 0); [apply self_child_defined; exact Hn | eauto].
Qed.

(** C9, as amended.  A fetched profile is treated as a teacher's exactly when
    its role discriminator is the string ['teacher']; with any other
    discriminator it is normalized as a parent's or student's, with
    [userType] the raw discriminator.  The discriminator is [role] when that
    is truthy, else [user_type] when that is truthy, and the default
    ['student'] exactly when both are falsy (absent, null or empty). *)
Theorem fetchUserData_role (st : state)
    (uid0 overrideToken apiData role user_type : value) :
  truthy (or_else overrideToken (item (env st) "authToken")) = true ->
  responses (env st) (List.length (sent (env st))) = Response true (Json apiData) ->
  get apiData "role" = Normal role ->
  get apiData "user_type" = Normal user_type ->
  exists st',
    fetchUserData uid0 overrideToken st = (Normal VUndefined, st')
    /\ (discriminator role user_type = VStr "teacher" ->
          userType st' = VStr "teacher"
          /\ get (userData st') "isTeacher" = Normal (VBool true)
          /\ get (userData st') "userType" = Normal (VStr "teacher"))
    /\ (discriminator role user_type <> VStr "teacher" ->
          userType st' = discriminator role user_type
          /\ get (userData st') "userType" = Normal (discriminator role user_type)
          /\ get (userData st') "children"
             = children_of (discriminator role user_type) apiData)
    /\ (truthy role = true -> discriminator role user_type = role)
    /\ (truthy role = false -> truthy user_type = true ->
          discriminator role user_type = user_type)
    /\ (truthy role = false -> truthy user_type = false ->
          discriminator role user_type = VStr "student").
Proof.
  intros Ht Hresp Hr Hu.
  pose proof (role_of_discriminator _ _ _ Hr Hu) as Hrole.
  pose proof (get_Normal_defined _ _ _ Hr) as Hn.
  destruct (get_defined apiData "user_id" Hn) as [uid Huid].
  destruct (get_defined apiData "phone_number" Hn) as [phone Hph].
  destruct (children_of_defined (discriminator role user_type) apiData Hn) as [c Hc].
  assert ((truthy role = true -> discriminator role user_type = role)
          /\ (truthy role = false -> truthy user_type = true ->
                discriminator role user_type = user_type)
          /\ (truthy role = false -> truthy user_type = false ->
                discriminator role user_type = VStr "student")) as Hd.
  { unfold discriminator. repeat split; intros; repeat
      match goal with E : truthy _ = _ |- _ => rewrite E; clear E end; reflexivity. }
  destruct (strict_eq (discriminator role user_type) (VStr "teacher")) eqn:Et.
  - apply strict_eq_string in Et. rewrite Et in Hrole.
    eexists. split; [apply (fetchUserData_teacher st uid0 overrideToken apiData uid);
                     assumption|].
    split; [|split; [intros Hne; contradiction | exact Hd]].
    intros _. cbn [userType userData]. split; [reflexivity|].
    unfold teacher_data, object_literal. cbn [fold_left]. split.
    + rewrite get_obj_set_ne by discriminate. apply get_obj_set_eq.
    + apply get_obj_set_eq.
  - eexists. split; [apply (fetchUserData_profile st uid0 overrideToken apiData
                              (discriminator role user_type) uid phone c); assumption|].
    split; [|split; [|exact Hd]].
    + intros E. apply strict_eq_string in E. congruence.
    + intros _. cbn [userType userData]. split; [reflexivity|].
      unfold normalized, object_literal. cbn [fold_left]. split.
      * rewrite get_obj_set_ne by discriminate. apply get_obj_set_eq.
      * rewrite Hc. apply get_obj_set_eq.
Qed.


Lemma login_network_error (email password : value) (st : state) (m : string) :
  responses (env st) (List.length (sent (env st))) = NetworkError m ->
  login email password st
  = (Throw (mkError m), after_request (login_request email password) st).
Proof.
  intros Hresp. unfold login, bind, platform, zoom, fetch.
  cbn -[object_literal]. rewrite Hresp. reflexivity.
Qed.

Lemma login_bad_body (email password : value) (st : state) (ok : bool) (m : string) :
  responses (env st) (List.length (sent (env st))) = Response ok (BadJson m) ->
  login email password st
  = (Throw (mkError m), after_request (login_request email password) st).
Proof.
  intros Hresp. unfold login, bind, platform, zoom, fetch, lift.
  cbn -[object_literal]. rewrite Hresp. reflexivity.
Qed.

Lemma login_rejected (email password : value) (st : state) (data detail : value) :
  responses (env st) (List.length (sent (env st))) = Response false (Json data) ->
  get data "detail" = Normal detail ->
  login email password st
  = (Normal (VObj [("success", VBool false);
                   ("message", or_else detail (VStr "Login failed"))]),
     after_request (login_request email password) st).
Proof.
  intros Hresp Hd. unfold login, bind, platform, zoom, fetch, lift, ret.
  cbn -[object_literal or_else]. rewrite Hresp. cbn -[object_literal or_else].
  rewrite Hd. reflexivity.
Qed.

Lemma login_accepted (email password : value) (st : state) (data token : value) :
  responses (env st) (List.length (sent (env st))) = Response true (Json data) ->
  get data "access_token" = Normal token ->
  login email password st
  = match fetchUserData VNull token
            (signed_in token (after_request (login_request email password) st)) with
    | (Normal _, st') => (Normal (VObj [("success", VBool true)]), st')
    | (Throw e, st') => (Throw e, st')
    end.
Proof.
  intros Hresp Hd. unfold login, bind, platform, zoom, fetch, lift, ret, setItem, modify.
  cbn -[object_literal or_else fetchUserData]. rewrite Hresp.
  cbn -[object_literal or_else fetchUserData].
  rewrite Hd. cbn -[object_literal or_else fetchUserData].
  unfold signed_in, after_request, put_env, after_fetch, set_storage, login_request.
  cbn -[object_literal or_else fetchUserData].
  destruct (fetchUserData _ _ _) as [[r|e] st']; reflexivity.
Qed.

(** register reports success whenever the registration request succeeded. *)
Lemma register_reports_success (payload : value) (st : state) (data uid : value) :
  responses (env st) (List.length (sent (env st))) = Response true (Json data) ->
  get data "user_id" = Normal uid ->
  nullish payload = false ->
  exists st', register payload st = (Normal (registered data uid), st').
Proof.
  intros Hresp Hid Hp.
  destruct (get_defined payload "email" Hp) as [email He].
  destruct (get_defined payload "password" Hp) as [password Hpw].
  unfold register, bind, platform, zoom, fetch, lift, ret, try_catch.
  cbn -[object_literal login]. rewrite Hresp. cbn -[object_literal login].
  rewrite Hid. cbn -[object_literal login]. rewrite He. cbn -[object_literal login].
  destruct (truthy email) eqn:Te; cbn -[object_literal login].
  - rewrite Hpw. cbn -[object_literal login].
    destruct (truthy password) eqn:Tp; cbn -[object_literal login].
    + destruct (login email password _) as [[r|e] st1]; cbn -[object_literal login].
      * destruct (truthy r) eqn:Tr; cbn -[object_literal login].
        -- destruct (get_defined r "success" (truthy_defined _ Tr)) as [ok ->].
           cbn -[object_literal]. destruct (truthy ok); eexists; reflexivity.
        -- eexists; reflexivity.
      * eexists; reflexivity.
    + eexists; reflexivity.
  - eexists; reflexivity.
Qed.


Lemma register_run (payload : value) (st : state) (data uid email password : value) :
  responses (env st) (List.length (sent (env st))) = Response true (Json data) ->
  get data "user_id" = Normal uid ->
  get payload "email" = Normal email -> truthy email = true ->
  get payload "password" = Normal password -> truthy password = true ->
  register payload st
  = (Normal (registered data uid),
     snd (login email password (after_request (register_request payload) st))).
Proof.
  intros Hresp Hid He Te Hpw Tp.
  unfold register, bind, platform, zoom, fetch, lift, ret, try_catch.
  cbn -[object_literal login]. rewrite Hresp. cbn -[object_literal login].
  rewrite Hid. cbn -[object_literal login]. rewrite He. cbn -[object_literal login].
  rewrite Te. cbn -[object_literal login]. rewrite Hpw, Tp. cbn -[object_literal login].
  unfold after_request, after_fetch, register_request, put_env.
  cbn -[object_literal login].
  destruct (login email password _) as [[r|e] st1]; cbn -[object_literal login].
  - destruct (truthy r) eqn:Tr; cbn -[object_literal login].
    + destruct (get_defined r "success" (truthy_defined _ Tr)) as [ok ->].
      cbn -[object_literal]. destruct (truthy ok); reflexivity.
    + reflexivity.
  - reflexivity.
Qed.

Lemma children_of_student (apiData c uid display_name first_name grade school_name : value) :
  get apiData "children" = Normal c ->
  Object_keys (or_else c (VObj [])) = Normal [] ->
  get apiData "user_id" = Normal uid ->
  get apiData "display_name" = Normal display_name ->
  get apiData "first_name" = Normal first_name ->
  get apiData "grade" = Normal grade ->
  get apiData "school_name" = Normal school_name ->
  children_of (VStr "student") apiData
  = Normal (VObj [(ToString uid,
                   self_entry uid display_name first_name grade school_name)]).
Proof.
  intros Hc Hk Hu Hd Hf Hg Hs. unfold children_of, self_child.
  rewrite Hc. cbn [bindC strict_eq]. rewrite String.eqb_refl, Hk. cbn [bindC List.length].
  rewrite Hu, Hd, Hf, Hg, Hs. reflexivity.
Qed.

(** C4, as amended.  When registration succeeds, [register] returns a success
    result carrying the created user record, whatever the automatic login
    does.  When that login succeeds and the profile then fetched is a
    student's without children, under the new user's identifier, the
    session's children mapping has exactly one entry, keyed by that
    identifier, with the name taken from [display_name] or [first_name] and
    the grade and school defaulted when absent. *)
Theorem register_outcome (payload : value) (st : state) (data uid : value) :
  responses (env st) (List.length (sent (env st))) = Response true (Json data) ->
  get data "user_id" = Normal uid ->
  nullish payload = false ->
  (exists st', register payload st = (Normal (registered data uid), st'))
  /\ (forall email password ldata token apiData c,
        get payload "email" = Normal email -> truthy email = true ->
        get payload "password" = Normal password -> truthy password = true ->
        responses (env st) (S (List.length (sent (env st))))
          = Response true (Json ldata) ->
        get ldata "access_token" = Normal token -> truthy token = true ->
        responses (env st) (S (S (List.length (sent (env st)))))
          = Response true (Json apiData) ->
        role_of apiData = Normal (VStr "student") ->
        get apiData "children" = Normal c ->
        Object_keys (or_else c (VObj [])) = Normal [] ->
        get apiData "user_id" = Normal uid ->
        exists st' display_name first_name grade school_name,
          register payload st = (Normal (registered data uid), st')
          /\ get apiData "display_name" = Normal display_name
          /\ get apiData "first_name" = Normal first_name
          /\ get apiData "grade" = Normal grade
          /\ get apiData "school_name" = Normal school_name
          /\ get (userData st') "children"
             = Normal (VObj [(ToString uid,
                              self_entry uid display_name first_name grade school_name)])
          /\ (let! children := get (userData st') "children" in Object_keys children)
             = Normal [ToString uid]
          /\ userType st' = VStr "student").
Proof.
  intros Hresp Hid Hp. split; [apply register_reports_success; assumption|].
  intros email password ldata token apiData c He Te Hpw Tp Hl Htok Ttok Hme Hrole Hc Hk Hu.
  pose proof (get_Normal_defined _ _ _ Hu) as Hn.
  destruct (get_defined apiData "display_name" Hn) as [dn Hdn].
  destruct (get_defined apiData "first_name" Hn) as [fn Hfn].
  destruct (get_defined apiData "grade" Hn) as [g Hg].
  destruct (get_defined apiData "school_name" Hn) as [sn Hsn].
  destruct (get_defined apiData "phone_number" Hn) as [ph Hph].
  pose proof (children_of_student _ _ _ _ _ _ _ Hc Hk Hu Hdn Hfn Hg Hsn) as Hch.
  rewrite (register_run payload st data uid email password) by assumption.
  rewrite (login_accepted email password _ ldata token);
    [| cbn [after_request put_env env after_fetch sent responses];
       rewrite length_app, Nat.add_1_r; exact Hl
     | exact Htok].
  erewrite (fetchUserData_profile _ VNull token apiData (VStr "student") uid ph);
    [ | unfold or_else; rewrite Ttok; exact Ttok
      | cbn [signed_in after_request put_env env after_fetch sent responses set_storage];
        rewrite !length_app, !Nat.add_1_r; exact Hme
      | exact Hrole | reflexivity | exact Hu | exact Hph | exact Hch ].
  cbn [snd userData userType].
  eexists. exists dn, fn, g, sn. split; [reflexivity|].
  cbn [userData userType].
  repeat (split; [assumption|]).
  assert (get (normalized apiData uid ph (VStr "student")
                 (VObj [(ToString uid, self_entry uid dn fn g sn)])) "children"
          = Normal (VObj [(ToString uid, self_entry uid dn fn g sn)])) as Hget.
  { unfold normalized, object_literal. cbn [fold_left]. apply get_obj_set_eq. }
  split; [exact Hget|]. split; [|reflexivity].
  rewrite Hget. cbn [bindC]. apply Object_keys_single.
Qed.

End AuthProps.

(** ** Error handling across the two stores *)

Section ErrorHandling.
Context `{Serializer}.

Ltac run_operation :=
  unfold run, TemplateStore.createTemplate, TemplateStore.updateTemplate,
    TemplateStore.deleteTemplate, TemplateStore.getTemplate,
    TemplateStore.previewTemplate, try_finally, try_catch, bind, TemplateStore.api, zoom,
    TemplateStore.setLoading, TemplateStore.setError, TemplateStore.report,
    modify, gets, lift, ret;
  cbn -[Service.createTemplate Service.updateTemplate Service.getTemplate
        Service.deleteTemplate Service.previewTemplate
        TemplateStore.throw_response_error Helpers.parseErrorMessage].

Ltac step_operation :=
  cbn -[TemplateStore.throw_response_error Helpers.parseErrorMessage].

Lemma raised_is_reported (op : operation) (st : TemplateStore.state) (e : value) :
  fst (api_call op (TemplateStore.env st)) = Throw e -> reports op st e.
Proof.
  destruct (api_call op (TemplateStore.env st)) as [c w'] eqn:Ecall. cbn [fst]. intros ->.
  pose proof (api_call_throws_error _ _ _ _ Ecall) as [m ->].
  exists (displayed m). eexists. split; [apply parseErrorMessage_error|].
  destruct op; simpl in Ecall; run_operation; rewrite Ecall; step_operation;
    rewrite parseErrorMessage_error; cbn; repeat split.
Qed.

Lemma answer_is_reported (op : operation) (st : TemplateStore.state)
    (response ok : value) (fb : string) :
  fst (api_call op (TemplateStore.env st)) = Normal response ->
  operation_fallback op = Some fb ->
  get response "success" = Normal ok -> truthy ok = false ->
  reports op st (answer_error response fb).
Proof.
  destruct (api_call op (TemplateStore.env st)) as [c w'] eqn:Ecall. cbn [fst].
  intros -> Hfb Eok Hok. pose proof (get_Normal_defined _ _ _ Eok) as Hn.
  exists (displayed (answer_text response fb)). eexists.
  split; [apply parseErrorMessage_error|].
  destruct op; try discriminate Hfb; injection Hfb as <-; simpl in Ecall;
    run_operation; rewrite Ecall; step_operation;
    rewrite Eok; step_operation; rewrite Hok; step_operation;
    rewrite throw_response_error_exact by exact Hn; unfold answer_error;
    rewrite parseErrorMessage_error; cbn; repeat split.
Qed.

Lemma null_answer_is_reported (op : operation) (st : TemplateStore.state)
    (response e : value) (fb : string) :
  fst (api_call op (TemplateStore.env st)) = Normal response ->
  operation_fallback op = Some fb ->
  get response "success" = Throw e ->
  reports op st e.
Proof.
  destruct (api_call op (TemplateStore.env st)) as [c w'] eqn:Ecall. cbn [fst].
  intros -> Hfb Eok. destruct (get_throws_error _ _ _ Eok) as [m ->].
  exists (displayed m). eexists. split; [apply parseErrorMessage_error|].
  destruct op; try discriminate Hfb; simpl in Ecall;
    run_operation; rewrite Ecall; step_operation;
    rewrite Eok; step_operation;
    rewrite parseErrorMessage_error; cbn; repeat split.
Qed.

Lemma failed_operation_cases (op : operation) (w : world) :
  api_failed op w = true ->
  (exists e, fst (api_call op w) = Throw e)
  \/ (exists response ok fb,
        fst (api_call op w) = Normal response /\ operation_fallback op = Some fb
        /\ get response "success" = Normal ok /\ truthy ok = false)
  \/ (exists response e fb,
        fst (api_call op w) = Normal response /\ operation_fallback op = Some fb
        /\ get response "success" = Throw e).
Proof.
  unfold api_failed. destruct (fst (api_call op w)) as [response|e]; [|eauto].
  intros Hf. right.
  assert (exists fb, operation_fallback op = Some fb /\ succeeded response = false)
    as (fb & Hfb & Hs).
  { destruct op; try discriminate Hf; apply negb_true_iff in Hf; eexists;
      (split; [reflexivity | exact Hf]). }
  unfold succeeded in Hs. destruct (get response "success") as [ok|e] eqn:Eok.
  - left. exists response, ok, fb. repeat split; assumption.
  - right. exists response, e, fb. repeat split; assumption.
Qed.

Lemma list_raised_is_reported (st : TemplateStore.state) (e : value) :
  fst (Service.listTemplates (TemplateStore.filters st) (TemplateStore.env st)) = Throw e ->
  list_reports st e.
Proof.
  destruct (fetchTemplates_run st) as (st' & Hrun & Hl & _ & _ & Hout).
  destruct (Service.listTemplates (TemplateStore.filters st) (TemplateStore.env st))
    as [[response|e'] w']; cbn [fst]; [discriminate|]. intros [= ->].
  destruct Hout as (_ & Ht & _ & m & -> & Hm).
  exists (displayed m), st'. split; [apply parseErrorMessage_error|].
  repeat split; assumption.
Qed.

Lemma list_answer_is_reported (st : TemplateStore.state) (response ok : value) :
  fst (Service.listTemplates (TemplateStore.filters st) (TemplateStore.env st))
    = Normal response ->
  get response "success" = Normal ok -> truthy ok = false ->
  list_reports st (answer_error response "Failed to fetch templates").
Proof.
  destruct (fetchTemplates_run st) as (st' & Hrun & Hl & _ & _ & Hout).
  destruct (Service.listTemplates (TemplateStore.filters st) (TemplateStore.env st))
    as [[response'|e'] w']; cbn [fst]; [|discriminate]. intros [= ->] Eok Hok.
  unfold succeeded in Hout. rewrite Eok, Hok in Hout.
  destruct Hout as (_ & Ht & _ & Hm).
  exists (displayed (answer_text response "Failed to fetch templates")), st'.
  split; [apply parseErrorMessage_error|]. repeat split; assumption.
Qed.

Lemma list_null_answer_is_reported (st : TemplateStore.state) (response e : value) :
  fst (Service.listTemplates (TemplateStore.filters st) (TemplateStore.env st))
    = Normal response ->
  get response "success" = Throw e ->
  list_reports st e.
Proof.
  destruct (fetchTemplates_run st) as (st' & Hrun & Hl & _ & _ & Hout).
  destruct (Service.listTemplates (TemplateStore.filters st) (TemplateStore.env st))
    as [[response'|e'] w']; cbn [fst]; [|discriminate]. intros [= ->] Eok.
  unfold succeeded in Hout. rewrite Eok in Hout.
  destruct Hout as (_ & Ht & _ & m & -> & Hm).
  exists (displayed m), st'. split; [apply parseErrorMessage_error|].
  repeat split; assumption.
Qed.

Lemma failed_list_cases (st : TemplateStore.state) :
  list_failed st = true ->
  (exists e, fst (Service.listTemplates (TemplateStore.filters st) (TemplateStore.env st))
             = Throw e)
  \/ (exists response ok,
        fst (Service.listTemplates (TemplateStore.filters st) (TemplateStore.env st))
          = Normal response
        /\ get response "success" = Normal ok /\ truthy ok = false)
  \/ (exists response e,
        fst (Service.listTemplates (TemplateStore.filters st) (TemplateStore.env st))
          = Normal response
        /\ get response "success" = Throw e).
Proof.
  unfold list_failed.
  destruct (fst (Service.listTemplates (TemplateStore.filters st) (TemplateStore.env st)))
    as [response|e]; [|eauto].
  intros Hf. apply negb_true_iff in Hf. right. unfold succeeded in Hf.
  destruct (get response "success") as [ok|e] eqn:Eok; eauto 6.
Qed.

(** C2, as amended.  A create, update, delete, get-by-id or preview of the
    template store whose API call fails catches the failure and reports it:
    it returns [{success: false, error: msg}], records [msg] in the error
    slot and clears the busy flag, where [msg] is the string the
    error-message extractor gives for the failure caught.  That failure is
    the error the API call raised; or, for an answer whose [success] is not
    truthy (a delete does not look), [new Error] of the answer's
    [error.message] when truthy and of the operation's own text otherwise; or
    the TypeError of reading an answer that is null.  A failing operation is
    in one of these cases.  The list operation does the same with
    ['Failed to fetch templates'], except that it returns nothing and empties
    the collection.  The session store has no error slot and no catch around
    its login: a failure of the transport and a body that does not parse are
    raised to the caller, and a rejected login whose body is not null is
    answered with [{success: false, message}]. *)
Theorem store_failures_reported :
  (forall (op : operation) (st : TemplateStore.state) (e : value),
     fst (api_call op (TemplateStore.env st)) = Throw e -> reports op st e)
  /\ (forall (op : operation) (st : TemplateStore.state) (response ok : value)
        (fb : string),
        fst (api_call op (TemplateStore.env st)) = Normal response ->
        operation_fallback op = Some fb ->
        get response "success" = Normal ok -> truthy ok = false ->
        reports op st (answer_error response fb))
  /\ (forall (op : operation) (st : TemplateStore.state) (response e : value)
        (fb : string),
        fst (api_call op (TemplateStore.env st)) = Normal response ->
        operation_fallback op = Some fb ->
        get response "success" = Throw e ->
        reports op st e)
  /\ (forall (op : operation) (st : TemplateStore.state),
        api_failed op (TemplateStore.env st) = true ->
        (exists e, fst (api_call op (TemplateStore.env st)) = Throw e)
        \/ (exists response ok fb,
              fst (api_call op (TemplateStore.env st)) = Normal response
              /\ operation_fallback op = Some fb
              /\ get response "success" = Normal ok /\ truthy ok = false)
        \/ (exists response e fb,
              fst (api_call op (TemplateStore.env st)) = Normal response
              /\ operation_fallback op = Some fb
              /\ get response "success" = Throw e))
  /\ (forall (st : TemplateStore.state) (e : value),
        fst (Service.listTemplates (TemplateStore.filters st) (TemplateStore.env st))
          = Throw e ->
        list_reports st e)
  /\ (forall (st : TemplateStore.state) (response ok : value),
        fst (Service.listTemplates (TemplateStore.filters st) (TemplateStore.env st))
          = Normal response ->
        get response "success" = Normal ok -> truthy ok = false ->
        list_reports st (answer_error response "Failed to fetch templates"))
  /\ (forall (st : TemplateStore.state) (response e : value),
        fst (Service.listTemplates (TemplateStore.filters st) (TemplateStore.env st))
          = Normal response ->
        get response "success" = Throw e ->
        list_reports st e)
  /\ (forall st : TemplateStore.state,
        list_failed st = true ->
        (exists e,
           fst (Service.listTemplates (TemplateStore.filters st) (TemplateStore.env st))
           = Throw e)
        \/ (exists response ok,
              fst (Service.listTemplates (TemplateStore.filters st) (TemplateStore.env st))
                = Normal response
              /\ get response "success" = Normal ok /\ truthy ok = false)
        \/ (exists response e,
              fst (Service.listTemplates (TemplateStore.filters st) (TemplateStore.env st))
                = Normal response
              /\ get response "success" = Throw e))
  /\ (forall (email password : value) (st : Auth.state) (m : string),
        responses (Auth.env st) (List.length (sent (Auth.env st))) = NetworkError m ->
        Auth.login email password st
        = (Throw (mkError m), after_request (login_request email password) st))
  /\ (forall (email password : value) (st : Auth.state) (ok : bool) (m : string),
        responses (Auth.env st) (List.length (sent (Auth.env st)))
          = Response ok (BadJson m) ->
        Auth.login email password st
        = (Throw (mkError m), after_request (login_request email password) st))
  /\ (forall (email password : value) (st : Auth.state) (data detail : value),
        responses (Auth.env st) (List.length (sent (Auth.env st)))
          = Response false (Json data) ->
        get data "detail" = Normal detail ->
        Auth.login email password st
        = (Normal (VObj [("success", VBool false);
                         ("message", or_else detail (VStr "Login failed"))]),
           after_request (login_request email password) st)).
Proof.
  repeat apply conj.
  - apply raised_is_reported.
  - apply answer_is_reported.
  - apply null_answer_is_reported.
  - intros op st. apply failed_operation_cases.
  - apply list_raised_is_reported.
  - apply list_answer_is_reported.
  - apply list_null_answer_is_reported.
  - apply failed_list_cases.
  - intros. apply login_network_error. assumption.
  - intros. eapply login_bad_body. eassumption.
  - intros. eapply login_rejected; eassumption.
Qed.

End ErrorHandling.

(** ** Closed examples *)

Section ClosedExamples.
#[local] Existing Instance example_json.

Lemma store_failures_reported_witness :
  (exists st',
     run (Create (VObj [("module", VStr "Math Skill")])) (TemplateStore.initial offline)
     = (Normal (TemplateStore.failure (VStr "Failed to fetch")), st')
     /\ TemplateStore.error st' = VStr "Failed to fetch"
     /\ TemplateStore.loading st' = false)
  /\ (exists st',
        run (Create (VObj [("module", VStr "Math Skill")]))
          (TemplateStore.initial (scripted [refusal "Template already exists"]))
        = (Normal (TemplateStore.failure (VStr "Template already exists")), st')
        /\ TemplateStore.error st' = VStr "Template already exists")
  /\ (exists st',
        run (Get (VNum 7)) (TemplateStore.initial (scripted [bare_refusal]))
        = (Normal (TemplateStore.failure (VStr "Failed to fetch template")), st')
        /\ TemplateStore.error st' = VStr "Failed to fetch template").
Proof.
  split; [|split].
  - destruct (proj1 store_failures_reported
                (Create (VObj [("module", VStr "Math Skill")]))
                (TemplateStore.initial offline) (mkError "Failed to fetch") eq_refl)
      as (msg & st' & Hp & Hrun & He & Hl).
    injection Hp as <-. exists st'. repeat split; assumption.
  - destruct (proj1 (proj2 store_failures_reported)
                (Create (VObj [("module", VStr "Math Skill")]))
                (TemplateStore.initial (scripted [refusal "Template already exists"]))
                _ (VBool false) "Failed to create template" eq_refl eq_refl eq_refl eq_refl)
      as (msg & st' & Hp & Hrun & He & _).
    injection Hp as <-. exists st'. split; assumption.
  - destruct (proj1 (proj2 store_failures_reported)
                (Get (VNum 7)) (TemplateStore.initial (scripted [bare_refusal]))
                _ (VBool false) "Failed to fetch template" eq_refl eq_refl eq_refl eq_refl)
      as (msg & st' & Hp & Hrun & He & _).
    injection Hp as <-. exists st'. split; assumption.
Defined.

Lemma fetchTemplates_spec_witness :
  (exists st',
     TemplateStore.fetchTemplates
       (TemplateStore.initial (scripted [refusal "Service unavailable"]))
     = (Normal VUndefined, st')
     /\ TemplateStore.templates st' = VArr []
     /\ TemplateStore.error st' = VStr "Service unavailable")
  /\ (exists st',
        TemplateStore.fetchTemplates (TemplateStore.initial (scripted [bare_refusal]))
        = (Normal VUndefined, st')
        /\ TemplateStore.templates st' = VArr []
        /\ TemplateStore.error st' = VStr "Failed to fetch templates").
Proof.
  split.
  - destruct (fetchTemplates_spec
                (TemplateStore.initial (scripted [refusal "Service unavailable"])))
      as (st' & Hrun & _ & Hout).
    exists st'. split; [exact Hrun|]. exact Hout.
  - destruct (fetchTemplates_spec (TemplateStore.initial (scripted [bare_refusal])))
      as (st' & Hrun & _ & Hout).
    exists st'. split; [exact Hrun|]. exact Hout.
Defined.

(** C2 as stated fails for the session store: a login over a network that is
    down throws to its caller, a rejected login answers with a [message] and
    no [error], and neither is recorded in a slot; and the template store's
    list operation returns nothing. *)
Lemma login_failure_not_reported :
  fst (Auth.login (VStr "a@b.com") (VStr "pw123456") (Auth.initial offline))
  = Throw (mkError "Failed to fetch")
  /\ fst (Auth.login (VStr "a@b.com") (VStr "pw123456") (Auth.initial rejecting))
     = Normal (VObj [("success", VBool false);
                     ("message", VStr "Incorrect email or password")])
  /\ fst (TemplateStore.fetchTemplates (TemplateStore.initial offline))
     = Normal VUndefined.
Proof. repeat split; vm_compute; reflexivity. Qed.

Lemma activeChildEffect_spec_witness :
  exists st',
    Auth.activeChildEffect (parent_session {["activeChild_p1" := "c2"]})
    = (Normal tt, st')
    /\ Auth.activeChildId st' = VStr "c2".
Proof.
  destruct (proj1 (activeChildEffect_spec
                     (parent_session {["activeChild_p1" := "c2"]}) eq_refl)
              two_children "c1" ["c2"] eq_refl eq_refl)
    as (key & st' & Hkey & Hrun & Hid & _).
  exists st'. split; [exact Hrun|].
  injection Hkey as <-. exact Hid.
Defined.

(** [Object.keys] lists array-index keys first, whatever the order in which
    the properties were created. *)
Example index_keys_come_first :
  Object_keys (VObj [("b", VNull); ("10", VNull); ("9", VNull)])
  = Normal ["9"; "10"; "b"].
Proof. reflexivity. Qed.

(** A key that names an inherited property reaches the prototype of the
    table. *)
Example inherited_key_is_found :
  Helpers.getDifficultyColor (VStr "constructor")
  = Normal (VBuiltin ObjectConstructor).
Proof. reflexivity. Qed.

(** C1 as stated fails: with the children [c1] and [c2] and nothing stored,
    the effect selects [c1] and local storage still holds no selection. *)
Lemma default_child_not_persisted :
  exists st',
    Auth.activeChildEffect (parent_session ∅) = (Normal tt, st')
    /\ Auth.activeChildId st' = VStr "c1"
    /\ storage (Auth.env st') !! "activeChild_p1" = None.
Proof.
  eexists. split; [vm_compute; reflexivity|]. split; reflexivity.
Qed.

Lemma fetchUserData_role_witness :
  exists st',
    Auth.fetchUserData VNull VNull (signed_session admin_profile)
    = (Normal VUndefined, st')
    /\ Auth.userType st' = VStr "admin".
Proof.
  destruct (fetchUserData_role (signed_session admin_profile) VNull VNull
              admin_profile (VStr "admin") VUndefined eq_refl eq_refl eq_refl eq_refl)
    as (st' & Hrun & _ & Hother & _).
  exists st'. split; [exact Hrun|].
  apply Hother. discriminate.
Defined.

(** C9 as stated fails: in this profile [role] and [user_type] are present,
    both empty, and the ['student'] default is applied. *)
Lemma empty_role_defaults_to_student :
  Object_keys empty_role_profile = Normal ["user_id"; "role"; "user_type"]
  /\ get empty_role_profile "role" = Normal (VStr "")
  /\ get empty_role_profile "user_type" = Normal (VStr "")
  /\ Auth.userType
       (snd (Auth.fetchUserData VNull VNull (signed_session empty_role_profile)))
     = VStr "student".
Proof. repeat split; vm_compute; reflexivity. Qed.

Lemma register_outcome_witness :
  exists st',
    Auth.register student_payload (Auth.initial (backend "student"))
    = (Normal (registered (created_user "student") (VStr "u17")), st')
    /\ get (Auth.userData st') "children"
       = Normal (VObj [("u17", self_entry (VStr "u17") VUndefined (VStr "Asha")
                                 VUndefined VUndefined)]).
Proof.
  destruct (proj2 (register_outcome student_payload (Auth.initial (backend "student"))
                     (created_user "student") (VStr "u17") eq_refl eq_refl eq_refl)
              (VStr "a@b.com") (VStr "pw123456") token_answer (VStr "tok-1")
              (profile "student") VUndefined
              eq_refl eq_refl eq_refl eq_refl eq_refl eq_refl eq_refl eq_refl
              eq_refl eq_refl eq_refl eq_refl)
    as (st' & dn & fn & g & sn & Hrun & Hdn & Hfn & Hg & Hsn & Hch & _).
  exists st'. split; [exact Hrun|].
  injection Hdn as <-. injection Hfn as <-. injection Hg as <-. injection Hsn as <-.
  exact Hch.
Defined.

(** C4 as stated fails: a parent registers, the automatic login succeeds, and
    the session's children mapping is empty. *)
Lemma parent_registration_without_child :
  exists st',
    Auth.register parent_payload (Auth.initial (backend "parent"))
    = (Normal (registered (created_user "parent") (VStr "u17")), st')
    /\ fst (Auth.login (VStr "a@b.com") (VStr "pw123456")
              (after_request (register_request parent_payload)
                 (Auth.initial (backend "parent"))))
       = Normal (VObj [("success", VBool true)])
    /\ Auth.userType st' = VStr "parent"
    /\ get (Auth.userData st') "children" = Normal (VObj []).
Proof.
  eexists. split; [vm_compute; reflexivity|]. repeat split; vm_compute; reflexivity.
Qed.

End ClosedExamples.

(** * Further properties *)

(** ** More on strings: trimming, lines *)

Section TrimFacts.

Lemma trimStart_clean (s : string) : starts_clean (trimStart s).
Proof.
  induction s as [|c r IH]; simpl; [exact I|].
  destruct (is_whitespace c) eqn:E; [exact IH | simpl; exact E].
Qed.

Lemma trimStart_of_clean (s : string) : starts_clean s -> trimStart s = s.
Proof. destruct s as [|c r]; simpl; [reflexivity|]. intros ->. reflexivity. Qed.

Lemma trimEnd_clean (s : string) : starts_clean s -> starts_clean (trimEnd s).
Proof.
  destruct s as [|c r]; simpl; [exact (fun H => H)|].
  intros E. rewrite E. simpl. exact E.
Qed.

Lemma trimEnd_idem (s : string) : trimEnd (trimEnd s) = trimEnd s.
Proof.
  induction s as [|c r IH]; simpl; [reflexivity|].
  destruct (is_whitespace c && String.eqb (trimEnd r) "") eqn:E; [reflexivity|].
  simpl. rewrite IH, E. reflexivity.
Qed.

Lemma trim_idem (s : string) : trim (trim s) = trim s.
Proof.
  unfold trim.
  rewrite (trimStart_of_clean (trimEnd (trimStart s)))
    by (apply trimEnd_clean, trimStart_clean).
  apply trimEnd_idem.
Qed.

Lemma trimEnd_last (s : string) (c : ascii) :
  last_unit (trimEnd s) = Some c -> is_whitespace c = false.
Proof.
  induction s as [|d r IH]; simpl; [discriminate|].
  destruct (is_whitespace d && String.eqb (trimEnd r) "") eqn:E; simpl; [discriminate|].
  destruct (trimEnd r) as [|e t] eqn:Et.
  - intros [= <-]. rewrite andb_true_r in E. exact E.
  - exact IH.
Qed.

End TrimFacts.

Section LineFacts.

Lemma lines_nonempty (s : string) : lines s <> [].
Proof.
  unfold lines. induction s as [|c r IH]; simpl; [discriminate|].
  destruct (Ascii.eqb c newline); [discriminate|].
  destruct (split_on newline r); [contradiction | discriminate].
Qed.

Lemma append_empty_r (s : string) : s +:+ "" = s.
Proof.
  induction s as [|c r IH]; [reflexivity|].
  change (String c (r +:+ "") = String c r). rewrite IH. reflexivity.
Qed.

Lemma append_assoc (a b c : string) : (a +:+ b) +:+ c = a +:+ b +:+ c.
Proof.
  induction a as [|x a IH]; [reflexivity|].
  change (String x ((a +:+ b) +:+ c) = String x (a +:+ b +:+ c)). rewrite IH. reflexivity.
Qed.

Lemma join_push (sep : string) (c : ascii) (x : string) (xs : list string) :
  join sep (String c x :: xs) = String c (join sep (x :: xs)).
Proof. destruct xs; reflexivity. Qed.

(** Joining the lines of a text with line breaks gives the text back. *)
Lemma join_lines (s : string) : join Helpers.line_break (lines s) = s.
Proof.
  unfold lines. induction s as [|c r IH]; [reflexivity|].
  cbn [split_on]. destruct (Ascii.eqb_spec c newline) as [->|Hc].
  - pose proof (lines_nonempty r) as Hne. unfold lines in Hne.
    destruct (split_on newline r) as [|y ys] eqn:E; [contradiction|].
    change (join Helpers.line_break ("" :: y :: ys))
      with (String newline (join Helpers.line_break (y :: ys))).
    rewrite IH. reflexivity.
  - pose proof (lines_nonempty r) as Hne. unfold lines in Hne.
    destruct (split_on newline r) as [|y ys] eqn:E; [contradiction|].
    rewrite join_push, IH. reflexivity.
Qed.

Lemma join_app (sep : string) (a b : list string) :
  a <> [] -> b <> [] -> join sep (a ++ b) = join sep a +:+ sep +:+ join sep b.
Proof.
  intros Ha Hb. induction a as [|x a IH]; [contradiction|].
  destruct a as [|y a].
  - destruct b as [|z b]; [contradiction|]. reflexivity.
  - change (x +:+ sep +:+ join sep ((y :: a) ++ b)
            = (x +:+ sep +:+ join sep (y :: a)) +:+ sep +:+ join sep b).
    rewrite IH by discriminate. rewrite !append_assoc. reflexivity.
Qed.

End LineFacts.

Section PreviewProps.
Import Helpers.

(** X1.  The code preview of a text of at most five lines is the text
    itself; of a longer text it is the first five lines, which are a prefix
    of the text, then a line break and an ellipsis.  An empty or absent text
    gives the empty string. *)
Theorem generateCodePreview_spec (s : string) :
  ((List.length (lines s) <= 5)%nat -> generateCodePreview (VStr s) = Normal (VStr s))
  /\ ((5 < List.length (lines s))%nat ->
        generateCodePreview (VStr s)
        = Normal (VStr (join line_break (firstn 5 (lines s)) +:+ line_break +:+ "..."))
        /\ exists rest, s = join line_break (firstn 5 (lines s)) +:+ line_break +:+ rest)
  /\ generateCodePreview (VStr "") = Normal (VStr "")
  /\ generateCodePreview VUndefined = Normal (VStr "")
  /\ generateCodePreview VNull = Normal (VStr "").
Proof.
  destruct s as [|c r].
  { split; [reflexivity|]. split; [|repeat split].
    intros Hlt. cbn in Hlt. lia. }
  remember (String c r) as s eqn:Es.
  assert (truthy (VStr s) = true) as Ht by (subst s; reflexivity).
  unfold generateCodePreview. rewrite Ht. cbn [negb].
  split; [|split; [|repeat split]].
  - intros Hle. destruct (Nat.ltb_spec 5 (List.length (lines s))). lia.
    rewrite firstn_all2 by lia. rewrite join_lines. reflexivity.
  - intros Hlt. destruct (Nat.ltb_spec 5 (List.length (lines s))); [|lia].
    split; [reflexivity|].
    exists (join line_break (skipn 5 (lines s))).
    rewrite <- join_app.
    + rewrite firstn_skipn. symmetry. apply join_lines.
    + intros E. apply (f_equal (@List.length string)) in E.
      rewrite length_firstn in E. cbn [List.length] in E. lia.
    + intros E. apply (f_equal (@List.length string)) in E.
      rewrite length_skipn in E. cbn [List.length] in E. lia.
Qed.
End PreviewProps.

(** ** Validation utilities *)

Section SanitizeProps.
Import Validation.

Lemma sanitized_idem (x : option string) : sanitized (sanitized x) = sanitized x.
Proof. destruct x as [s|]; simpl; [rewrite trim_idem|]; reflexivity. Qed.

Lemma field_value_sanitize (data : draft) (f : field) :
  field_value (sanitizeTemplateData data) f = sanitized (field_value data f).
Proof. destruct f; reflexivity. Qed.

Lemma len_zero (s : string) : (len s =? 0) = String.eqb s "".
Proof. destruct s; reflexivity. Qed.

(** X2.  Sanitizing a draft is idempotent.  Every field of a sanitized draft
    is a string that trimming leaves as it is, with no whitespace at either
    end, so an absent field has become the empty string; and a field is blank
    after sanitizing exactly when it was blank before. *)
Theorem sanitizeTemplateData_idempotent (data : draft) :
  sanitizeTemplateData (sanitizeTemplateData data) = sanitizeTemplateData data
  /\ (forall f, exists s,
        field_value (sanitizeTemplateData data) f = Some s
        /\ trim s = s
        /\ starts_clean s
        /\ (forall c, last_unit s = Some c -> is_whitespace c = false))
  /\ (forall f, missing (field_value (sanitizeTemplateData data) f)
                = missing (field_value data f)).
Proof.
  split; [|split].
  - unfold sanitizeTemplateData. cbn [module category topic subtopic format difficulty
      type dynamic_question logical_answer]. rewrite !sanitized_idem. reflexivity.
  - intros f. rewrite field_value_sanitize.
    destruct (field_value data f) as [s|]; simpl.
    + exists (trim s). split; [reflexivity|]. split; [apply trim_idem|].
      split; [apply trimEnd_clean, trimStart_clean | apply trimEnd_last].
    + exists "". repeat split. discriminate.
  - intros f. rewrite field_value_sanitize.
    destruct (field_value data f) as [s|]; [|reflexivity].
    cbn [sanitized missing]. rewrite trim_idem, len_zero.
    destruct (String.eqb_spec s "") as [->|_]; [reflexivity|].
    cbn [orb]. apply orb_diag.
Qed.

End SanitizeProps.

Section ValidityProps.
Import Validation Helpers.

(** X3.  A string is a valid difficulty exactly when its lower-cased form
    is one of the four levels, which is exactly when the colour helper gives
    one of the four colours of its table; likewise a question type is valid
    exactly when the icon helper gives one of the four icons of its table.
    An absent value is not valid. *)
Theorem validity_matches_lookup (s : string) :
  (exists b, isValidDifficulty (VStr s) = Normal b
     /\ (b = true <-> In (toLowerCase s) difficulty_keys)
     /\ (b = true <-> exists c, getDifficultyColor (VStr s) = Normal (VStr c)
                                /\ In c palette))
  /\ (exists b, isValidQuestionType (VStr s) = Normal b
        /\ (b = true <-> In (toLowerCase s) type_keys)
        /\ (b = true <-> exists i, getQuestionTypeIcon (VStr s) = Normal (VStr i)
                                   /\ In (VStr i) type_icons))
  /\ (forall v, nullish v = true ->
        isValidDifficulty v = Normal false /\ isValidQuestionType v = Normal false).
Proof.
  split; [|split].
  3: { intros v Hv. destruct v; try discriminate Hv; split; reflexivity. }
  - eexists. split; [reflexivity|].
    unfold getDifficultyColor, difficulty_keys, validLevels, palette.
    cbn [nullish call_toLowerCase bindC ToString colors get assoc existsb strict_eq].
    set (k := toLowerCase s).
    destruct (String.eqb_spec "easy" k) as [E1|N1]; [rewrite <- E1; cbn; split; split; eauto 10|].
    destruct (String.eqb_spec "medium" k) as [E1|N2]; [rewrite <- E1; cbn; split; split; eauto 10|].
    destruct (String.eqb_spec "hard" k) as [E1|N3]; [rewrite <- E1; cbn; split; split; eauto 10|].
    destruct (String.eqb_spec "expert" k) as [E1|N4]; [rewrite <- E1; cbn; split; split; eauto 10|].
    cbn [orb]. 
    destruct (String.eqb_spec k "easy"); [congruence|].
    destruct (String.eqb_spec k "medium"); [congruence|].
    destruct (String.eqb_spec k "hard"); [congruence|].
    destruct (String.eqb_spec k "expert"); [congruence|].
    split; split; try discriminate.
    + simpl. intuition congruence.
    + intros (c & Hc & Hin). destruct (Object_prototype k); cbn in Hc.
      * discriminate Hc.
      * injection Hc as <-. simpl in Hin. intuition discriminate.
  - eexists. split; [reflexivity|].
    unfold getQuestionTypeIcon, type_keys, validTypes, type_icons.
    cbn [nullish call_toLowerCase bindC ToString icons get assoc existsb strict_eq].
    set (k := toLowerCase s).
    destruct (String.eqb_spec "mcq" k) as [E1|N1]; [rewrite <- E1; cbn; split; split; eauto 10|].
    destruct (String.eqb_spec "user_input" k) as [E1|N2]; [rewrite <- E1; cbn; split; split; eauto 10|].
    destruct (String.eqb_spec "image_based" k) as [E1|N3]; [rewrite <- E1; cbn; split; split; eauto 10|].
    destruct (String.eqb_spec "code_based" k) as [E1|N4]; [rewrite <- E1; cbn; split; split; eauto 10|].
    cbn [orb].
    destruct (String.eqb_spec k "mcq"); [congruence|].
    destruct (String.eqb_spec k "user_input"); [congruence|].
    destruct (String.eqb_spec k "image_based"); [congruence|].
    destruct (String.eqb_spec k "code_based"); [congruence|].
    split; split; try discriminate.
    + simpl. intuition congruence.
    + intros (c & Hc & Hin). destruct (Object_prototype k); cbn in Hc.
      * discriminate Hc.
      * injection Hc as <-. simpl in Hin. intuition discriminate.
Qed.
End ValidityProps.

Section ValidationDomain.
Import Validation.

Lemma flag_lookup (c : bool) (k msg : string) (e : gmap string string) (k' : string) :
  flag c k msg e !! k' = if c && String.eqb k k' then Some msg else e !! k'.
Proof.
  destruct c; cbn [flag andb]; [|reflexivity].
  destruct (String.eqb_spec k k') as [->|Hne].
  - apply lookup_insert_eq.
  - apply lookup_insert_ne. exact Hne.
Qed.

Lemma flag_domain (c : bool) (k msg : string) (e : gmap string string) (k' : string) :
  is_Some (flag c k msg e !! k') -> k' = k \/ is_Some (e !! k').
Proof.
  rewrite flag_lookup. destruct c; cbn [andb]; [|tauto].
  destruct (String.eqb_spec k k'); [left; congruence | tauto].
Qed.

Lemma errors_violation (data : draft) (f : field) :
  is_Some (errors (validateTemplateForm data) !! field_name f) <-> violation data f = true.
Proof.
  unfold validateTemplateForm, violation. cbn [errors].
  rewrite !flag_lookup, lookup_empty.
  destruct f; cbn [field_name field_value max_length min_length String.eqb Ascii.eqb Bool.eqb andb];
    rewrite ?andb_true_r, ?andb_false_r, ?orb_false_r.
  all: repeat match goal with |- context [if ?c then _ else _] => destruct c end.
  all: cbn [orb]; split; intros Hx; try reflexivity; try discriminate Hx;
    try (eexists; reflexivity); try (destruct Hx as [? [=]]);
    apply orb_true_r.
Qed.

Lemma errors_domain (data : draft) (k : string) :
  is_Some (errors (validateTemplateForm data) !! k) -> exists f, k = field_name f.
Proof.
  unfold validateTemplateForm. cbn [errors]. intros Hk.
  repeat (apply flag_domain in Hk as [->|Hk];
          [first [ now exists Module_ | now exists Category | now exists Topic
                 | now exists Subtopic | now exists Format | now exists Difficulty
                 | now exists Type_ | now exists DynamicQuestion
                 | now exists LogicalAnswer ]|]).
  rewrite lookup_empty in Hk. destruct Hk as [? [=]].
Qed.

Lemma missing_false (x : option string) :
  missing x = false <-> exists s, x = Some s /\ trim s <> "".
Proof.
  destruct x as [s|]; cbn [missing].
  - rewrite orb_false_iff. split.
    + intros [_ Ht]. exists s. split; [reflexivity|].
      intros E. apply trim_empty_iff in E. congruence.
    + intros (s' & [= <-] & Hne). split.
      * destruct (String.eqb_spec s "") as [->|]; [contradiction Hne|]; reflexivity.
      * apply not_true_iff_false. rewrite trim_empty_iff. exact Hne.
  - split; [discriminate | intros (s & [=] & _)].
Qed.

Lemma trim_nonempty (s : string) : trim s <> "" -> s <> "".
Proof. intros Hne ->. apply Hne. reflexivity. Qed.

Lemma no_violation (data : draft) (f : field) :
  violation data f = false
  <-> exists s,
        field_value data f = Some s /\ trim s <> ""
        /\ (forall n, max_length f = Some n -> len s <= n)
        /\ (forall n, min_length f = Some n -> n <= len s).
Proof.
  unfold violation. rewrite !orb_false_iff, missing_false. split.
  - intros [[(s & Es & Hs) Hmax] Hmin]. exists s. split; [exact Es|]. split; [exact Hs|].
    pose proof (trim_nonempty s Hs) as Hne. apply String.eqb_neq in Hne.
    rewrite Es in Hmax, Hmin. split; intros n En.
    + rewrite En in Hmax. cbn [longer_than] in Hmax. rewrite Hne in Hmax.
      cbn [negb andb] in Hmax. rewrite Z.gtb_ltb in Hmax. apply Z.ltb_ge. exact Hmax.
    + rewrite En in Hmin. cbn [shorter_than] in Hmin. rewrite Hne in Hmin.
      cbn [negb andb] in Hmin. apply Z.ltb_ge. exact Hmin.
  - intros (s & Es & Hs & Hmax & Hmin). split; [split|].
    + eauto.
    + rewrite Es. destruct (max_length f) as [n|]; [|reflexivity].
      apply longer_than_within. auto.
    + rewrite Es. destruct (min_length f) as [n|]; [|reflexivity].
      apply shorter_than_within. auto.
Qed.

(** X4.  The form validation is exact.  A field has an entry in the error map
    exactly when it is blank, longer than its upper bound or shorter than its
    lower bound; the map has no other key; and the draft is valid exactly
    when it is complete, that is when the map is empty. *)
Theorem validateTemplateForm_exact (data : draft) :
  (forall f, is_Some (errors (validateTemplateForm data) !! field_name f)
             <-> violation data f = true)
  /\ (forall k, is_Some (errors (validateTemplateForm data) !! k) ->
                exists f, k = field_name f)
  /\ (isValid (validateTemplateForm data) = true <-> complete data)
  /\ (isValid (validateTemplateForm data) = true
      <-> errors (validateTemplateForm data) = ∅).
Proof.
  assert (isValid (validateTemplateForm data) = true
          <-> errors (validateTemplateForm data) = ∅) as Hvalid.
  { unfold validateTemplateForm. cbn [isValid errors].
    rewrite Nat.eqb_eq. apply map_size_empty_iff. }
  split; [apply errors_violation|]. split; [apply errors_domain|].
  split; [|exact Hvalid]. rewrite Hvalid. split.
  - intros He f. apply no_violation. apply not_true_iff_false.
    rewrite <- errors_violation, He, lookup_empty. intros [? [=]].
  - intros Hc. apply map_eq. intros k. rewrite lookup_empty.
    destruct (errors (validateTemplateForm data) !! k) as [msg|] eqn:Ek; [|reflexivity].
    destruct (errors_domain data k) as [f ->]; [rewrite Ek; eauto|].
    assert (violation data f = true) as Hv by (apply errors_violation; rewrite Ek; eauto).
    pose proof (proj2 (no_violation data f) (Hc f)) as Hn. congruence.
Qed.

End ValidationDomain.

Section SyntaxProps.
Import Validation Validation.Python.

Lemma check_lines_positions (i : nat) (ls : list string) :
  check_lines i ls
  = List.map missing_colon
      (List.filter (fun n => reported (nth (n - i) ls "")) (seq i (List.length ls))).
Proof.
  revert i. induction ls as [|l r IH]; intros i; [reflexivity|].
  assert (List.filter (fun n => reported (nth (n - S i) r "")) (seq (S i) (List.length r))
          = List.filter (fun n => reported (nth (n - i) (l :: r) "")) (seq (S i) (List.length r)))
    as Hshift.
  { apply filter_ext_in. intros n Hn. apply in_seq in Hn.
    replace (n - i)%nat with (S (n - S i)) by lia. reflexivity. }
  cbn [check_lines]. rewrite (IH (S i)), Hshift.
  change (seq i (List.length (l :: r))) with (i :: seq (S i) (List.length r)).
  set (f := fun n => reported (nth (n - i) (l :: r) "")).
  assert (f i = reported l) as Hfi
    by (unfold f; rewrite Nat.sub_diag; reflexivity).
  cbn [List.filter]. rewrite Hfi.
  unfold reported. rewrite len_zero.
  destruct (String.eqb (trim l) ""); cbn [negb andb orb]; [reflexivity|].
  destruct (startsWith (trim l) hash); cbn [negb andb orb]; [reflexivity|].
  destruct (control_structure (trim l) && negb (endsWith (trim l) colon)
            && negb (endsWith (trim l) backslash)); reflexivity.
Qed.

(** X5.  The lint rejects blank code with the one message that the code
    cannot be empty.  Of other code it reports exactly the lines that start
    with a control keyword and a whitespace and end in neither a colon nor a
    backslash, comments and blank lines apart, each with its position in the
    text counted from 1 and in the order of the text; the code passes exactly
    when no line is reported. *)
Theorem validatePythonSyntax_spec (code : option string) :
  (blank code ->
     validatePythonSyntax code
     = {| isValid := false; errors := ["Code cannot be empty"] |})
  /\ (forall s, code = Some s -> trim s <> "" ->
        errors (validatePythonSyntax code)
        = List.map missing_colon
            (List.filter (fun n => reported (nth n (lines s) ""))
               (seq 0 (List.length (lines s))))
        /\ (isValid (validatePythonSyntax code) = true
            <-> forall line, In line (lines s) -> reported line = false)
        /\ (List.length (errors (validatePythonSyntax code))
            <= List.length (lines s))%nat).
Proof.
  split.
  - intros Hb. unfold validatePythonSyntax. rewrite (missing_blank _ Hb). reflexivity.
  - intros s -> Hs. unfold validatePythonSyntax. rewrite (missing_present _ Hs).
    change (default "" (Some s)) with s.
    cbn [errors isValid]. rewrite check_lines_positions.
    assert (List.filter (fun n => reported (nth (n - 0) (lines s) ""))
              (seq 0 (List.length (lines s)))
            = List.filter (fun n => reported (nth n (lines s) ""))
                (seq 0 (List.length (lines s)))) as E.
    { apply filter_ext. intros n. rewrite Nat.sub_0_r. reflexivity. }
    rewrite E. clear E. split; [reflexivity|]. split.
    + rewrite length_map, Nat.eqb_eq. split.
      * intros Hz line Hin. apply In_nth with (d := "") in Hin.
        destruct Hin as (n & Hn & <-).
        destruct (reported (nth n (lines s) "")) eqn:Hr; [|reflexivity].
        assert (In n (List.filter (fun n => reported (nth n (lines s) ""))
                        (seq 0 (List.length (lines s))))) as Hin.
        { apply filter_In. split; [apply in_seq; lia | exact Hr]. }
        apply length_zero_iff_nil in Hz. rewrite Hz in Hin. contradiction.
      * intros Hall.
        destruct (List.filter _ _) as [|n ns] eqn:Ef; [reflexivity|].
        assert (In n (n :: ns)) as Hin by (left; reflexivity).
        rewrite <- Ef in Hin. apply filter_In in Hin. destruct Hin as [Hn Hr].
        apply in_seq in Hn. rewrite Hall in Hr; [discriminate|].
        apply nth_In. lia.
    + rewrite length_map. etransitivity; [apply filter_length_le|].
      rewrite length_seq. reflexivity.
Qed.

End SyntaxProps.

(** ** The error-message extractor *)

Section MessageProps.

(** X6.  The error-message extractor gives back a string as it is and the
    message of an error object (the fallback text when that is empty); from
    any value other than null and undefined it gives something, and
    something truthy unless the value is the empty string; null and undefined
    make it raise. *)
Theorem parseErrorMessage_spec (error : value) :
  (nullish error = true ->
     exists t, Helpers.parseErrorMessage error = Throw (mkError t))
  /\ (nullish error = false ->
        exists v, Helpers.parseErrorMessage error = Normal v
                  /\ (truthy v = true \/ error = VStr ""))
  /\ (forall s, error = VStr s -> Helpers.parseErrorMessage error = Normal (VStr s))
  /\ (forall m, error = mkError m ->
        Helpers.parseErrorMessage error = Normal (VStr (displayed m))
        /\ displayed m <> "").
Proof.
  split; [|split; [|split]].
  - destruct error; try discriminate; intros _; eexists; reflexivity.
  - intros Hn. unfold Helpers.parseErrorMessage.
    destruct (get_defined error "message" Hn) as [m ->]. cbn [bindC].
    destruct (truthy m) eqn:Hm; [eauto|].
    destruct error; try discriminate Hn; try (eexists; split; [reflexivity|left; reflexivity]).
    destruct s; eexists; (split; [reflexivity|]); [right|left]; reflexivity.
  - intros s ->. reflexivity.
  - intros m ->. split; [apply parseErrorMessage_error|].
    unfold displayed. destruct (String.eqb_spec m ""); [discriminate | assumption].
Qed.

End MessageProps.

(** ** The API client *)

Section ClientProps.
Context `{Serializer}.

Lemma getAuthHeaders_run (w : world) :
  Service.getAuthHeaders w = (Normal (auth_headers w), w).
Proof.
  unfold Service.getAuthHeaders, bind, getItem, gets, ret, item, auth_headers.
  destruct (storage w !! "authToken") as [t|]; cbn; [|reflexivity].
  destruct (String.eqb t ""); reflexivity.
Qed.

Ltac run_call w :=
  unfold Service.createTemplate, Service.getTemplate, Service.updateTemplate,
    Service.previewTemplate, Service.createGenerationJob, Service.getGenerationJob,
    Service.getGeneratedQuestion, Service.call, Service.listTemplates,
    Service.deleteTemplate, Service.listGeneratedQuestions,
    try_catch, bind, fetch, lift, ret, throw;
  rewrite getAuthHeaders_run;
  cbn -[Service.throw_api_error auth_headers String.append Service.listTemplates_params
        Service.listGeneratedQuestions_params URLSearchParams_toString].

(** X7.  Every call of the API client sends exactly one request, with the
    method of its endpoint, the JSON content type and, exactly when a
    non-empty credential is stored, the bearer header made from it; it leaves
    local storage as it is, whatever the answer. *)
Theorem client_sends_one_request (e : endpoint) (w : world) :
  exists req,
    sent (snd (client e w)) = sent w ++ [req]
    /\ method req = http_method e
    /\ headers req = auth_headers w
    /\ storage (snd (client e w)) = storage w
    /\ responses (snd (client e w)) = responses w.
Proof.
  destruct e; cbn [client http_method]; run_call w;
    (destruct (responses w (List.length (sent w))) as [m|ok b];
     cbn -[Service.throw_api_error auth_headers String.append];
     [eexists; repeat split|];
     destruct ok, b as [m|v];
     cbn -[Service.throw_api_error auth_headers String.append];
     try (eexists; repeat split; fail);
     match goal with |- context [Service.throw_api_error ?r ?fb ?w0] =>
       destruct (throw_api_error_throws r fb w0) as [m' ->] end;
     cbn -[auth_headers String.append]; eexists; repeat split).
Qed.

Lemma throw_api_error_message (v : value) (fb : string) (w : world) :
  exists m, @Service.throw_api_error value v fb w = (Throw (mkError m), w)
    /\ (forall msg, server_message v = Some msg -> m = msg)
    /\ (get v "error" = Normal VUndefined -> m = fb).
Proof.
  unfold Service.throw_api_error, bind, lift, throw.
  destruct (get v "error") as [e|e] eqn:E.
  - destruct (get_opt e "message") as [x|x] eqn:G.
    + eexists; split; [reflexivity|]. split.
      * intros msg S. unfold server_message in S.
        destruct v; try discriminate. cbn in E.
        destruct (assoc "error" props0) as [[| | | | | |es|]|]; try discriminate.
        injection E as <-. cbn in G.
        destruct (assoc "message" es) as [[| | | |t| | |]|]; try discriminate.
        injection G as <-.
        destruct (String.eqb t "") eqn:T; [discriminate|].
        injection S as <-. unfold new_Error, or_else. cbn. rewrite T. reflexivity.
      * intros [= ->]. cbn in G. injection G as <-. reflexivity.
    + destruct (get_opt_defined e "message") as [x' G']. congruence.
  - destruct (get_throws_error _ _ _ E) as [m ->].
    eexists; split; [reflexivity|]. split.
    + intros msg S. unfold server_message in S. destruct v; try discriminate S.
      cbn in E. destruct (assoc "error" props0); [discriminate E|].
      destruct (Object_prototype "error"); discriminate E.
    + discriminate.
Qed.

(** X8.  What a call of the API client gives.  A failure of the transport
    is raised again as it is.  On a success status the parsed body is
    returned unchanged (a body that does not parse raises), except that a
    delete returns true without reading the body.  On any other status the
    call raises an error whose message is the server's [error.message] when
    that is a non-empty string, and the endpoint's own default when the body
    has no [error]. *)
Theorem client_outcome (e : endpoint) (w : world) :
  match responses w (List.length (sent w)) with
  | NetworkError m => fst (client e w) = Throw (mkError m)
  | Response true b =>
      fst (client e w)
      = match e with DeleteTemplate _ => Normal (VBool true) | _ => json b end
  | Response false (BadJson m) => fst (client e w) = Throw (mkError m)
  | Response false (Json v) =>
      exists m, fst (client e w) = Throw (mkError m)
        /\ (forall msg, server_message v = Some msg -> m = msg)
        /\ (get v "error" = Normal VUndefined -> m = default_message e)
  end.
Proof.
  destruct e; cbn [client default_message]; run_call w;
    (destruct (responses w (List.length (sent w))) as [m|ok b];
     cbn -[Service.throw_api_error auth_headers String.append];
     [reflexivity|];
     destruct ok, b as [m|v];
     cbn -[Service.throw_api_error auth_headers String.append];
     try reflexivity;
     match goal with |- context [Service.throw_api_error ?r ?fb ?w0] =>
       destruct (throw_api_error_message r fb w0) as (m' & -> & P1 & P2) end;
     cbn -[auth_headers String.append]; exists m'; auto).
Qed.
End ClientProps.

Section QueryFacts.

Lemma all_units_app (p : ascii -> bool) (a b : string) :
  all_units p (a +:+ b) = all_units p a && all_units p b.
Proof.
  induction a as [|c a IH]; [reflexivity|].
  change (p c && all_units p (a +:+ b) = p c && all_units p a && all_units p b).
  rewrite IH. apply andb_assoc.
Qed.

Lemma hex_digit_safe (n : N) : (n < 16)%N -> url_safe (hex_digit n) = true.
Proof.
  intros Hn. unfold url_safe, hex_digit.
  assert (In n (List.map N.of_nat (seq 0 16))) as Hin.
  { apply in_map_iff. exists (N.to_nat n). split; [lia|]. apply in_seq. lia. }
  cbn in Hin. repeat (destruct Hin as [<-|Hin]; [reflexivity|]). contradiction.
Qed.

Lemma percent_safe (b : N) : (b < 256)%N -> all_units url_safe (percent b) = true.
Proof.
  intros Hb. unfold percent. cbn [all_units].
  rewrite !hex_digit_safe.
  - reflexivity.
  - apply N.mod_lt. discriminate.
  - apply N.Div0.div_lt_upper_bound. exact Hb.
Qed.

Lemma code_bound (c : ascii) : (code c < 256)%N.
Proof. unfold code. apply N_ascii_bounded. Qed.

Lemma encode_unit_safe (c : ascii) : all_units url_safe (encode_unit c) = true.
Proof.
  unfold encode_unit. pose proof (code_bound c) as Hc.
  destruct (unreserved (code c)) eqn:U.
  - cbn. unfold url_safe. rewrite U. reflexivity.
  - destruct (code c =? 32)%N; [reflexivity|].
    destruct (code c <? 128)%N eqn:L.
    + apply percent_safe. exact Hc.
    + rewrite all_units_app, !percent_safe; [reflexivity| |].
      * assert (code c mod 64 < 64)%N by (apply N.mod_lt; discriminate). lia.
      * assert (code c / 64 < 4)%N by (apply N.Div0.div_lt_upper_bound; lia). lia.
Qed.

Lemma urlencode_safe (s : string) : all_units url_safe (urlencode s) = true.
Proof.
  induction s as [|c r IH]; [reflexivity|].
  cbn [urlencode]. rewrite all_units_app, encode_unit_safe, IH. reflexivity.
Qed.

(** Splitting on a unit that the pieces do not contain undoes the joining. *)
Lemma split_on_no_sep (sep : ascii) (x : string) :
  all_units (fun c => negb (Ascii.eqb c sep)) x = true -> split_on sep x = [x].
Proof.
  induction x as [|c r IH]; [reflexivity|].
  cbn [all_units split_on]. intros Hx. apply andb_prop in Hx as [Hc Hr].
  destruct (Ascii.eqb c sep); [discriminate|]. rewrite IH by exact Hr. reflexivity.
Qed.

Lemma split_on_app (sep : ascii) (x y : string) :
  all_units (fun c => negb (Ascii.eqb c sep)) x = true ->
  split_on sep (x +:+ String sep y) = x :: split_on sep y.
Proof.
  induction x as [|c r IH].
  - intros _. change (split_on sep (String sep y) = "" :: split_on sep y).
    cbn [split_on]. rewrite Ascii.eqb_refl. reflexivity.
  - cbn [all_units]. intros Hx. apply andb_prop in Hx as [Hc Hr].
    change (split_on sep (String c (r +:+ String sep y)) = String c r :: split_on sep y).
    cbn [split_on]. destruct (Ascii.eqb c sep); [discriminate|].
    rewrite IH by exact Hr. reflexivity.
Qed.

Lemma split_on_join (sep : ascii) (l : list string) :
  l <> [] ->
  Forall (fun x => all_units (fun c => negb (Ascii.eqb c sep)) x = true) l ->
  split_on sep (join (String sep "") l) = l.
Proof.
  intros Hl Hall. induction Hall as [|x l Hx Hall IH]; [contradiction|].
  destruct l as [|y l].
  - cbn [join]. apply split_on_no_sep. exact Hx.
  - change (join (String sep "") (x :: y :: l))
      with (x +:+ String sep (join (String sep "") (y :: l))).
    rewrite split_on_app by exact Hx. rewrite IH by discriminate. reflexivity.
Qed.

Lemma all_units_impl (p q : ascii -> bool) (s : string) :
  (forall c, p c = true -> q c = true) -> all_units p s = true -> all_units q s = true.
Proof.
  intros Hpq. induction s as [|c r IH]; [reflexivity|].
  cbn [all_units]. intros Hs. apply andb_prop in Hs as [Hc Hr].
  rewrite (Hpq _ Hc), (IH Hr). reflexivity.
Qed.

Lemma url_safe_not (sep : ascii) :
  url_safe sep = false -> forall c, url_safe c = true -> negb (Ascii.eqb c sep) = true.
Proof.
  intros Hs c Hc. destruct (Ascii.eqb_spec c sep) as [->|]; [congruence | reflexivity].
Qed.

(** X9.  An encoded name or value is made of letters, digits, [*-._], [+]
    and [%] only, so it contains neither [&] nor [=]: splitting the query
    string on [&] gives back the entries, and splitting an entry on [=] gives
    back its encoded name and value. *)
Theorem query_string_splits (params : list (string * string)) :
  (forall k v,
     all_units url_safe (urlencode k) = true
     /\ all_units url_safe (urlencode v) = true
     /\ split_on "=" (encoded_pair (k, v)) = [urlencode k; urlencode v])
  /\ (params = [] -> URLSearchParams_toString params = "")
  /\ (params <> [] ->
      split_on "&" (URLSearchParams_toString params) = List.map encoded_pair params).
Proof.
  split; [|split].
  - intros k v. split; [apply urlencode_safe|]. split; [apply urlencode_safe|].
    unfold encoded_pair. cbn [fst snd].
    change (urlencode k +:+ "=" +:+ urlencode v)
      with (urlencode k +:+ String "=" (urlencode v)).
    rewrite split_on_app, split_on_no_sep; [reflexivity| |];
      (eapply all_units_impl; [apply url_safe_not; reflexivity | apply urlencode_safe]).
  - intros ->. reflexivity.
  - intros Hne. unfold URLSearchParams_toString.
    change (fun kv : string * string => urlencode kv.1 +:+ "=" +:+ urlencode kv.2)
      with encoded_pair.
    apply split_on_join.
    + destruct params; [contradiction | discriminate].
    + apply List.Forall_forall. intros x Hx. apply in_map_iff in Hx as ([k v] & <- & _).
      unfold encoded_pair. cbn [fst snd].
      rewrite !all_units_app. cbn [all_units].
      rewrite !(all_units_impl url_safe _ _ (url_safe_not "&" eq_refl) (urlencode_safe _)).
      reflexivity.
Qed.

Lemma param_in (fs : gmap string value) (k k' x : string) :
  In (k', x) (Service.param fs k)
  <-> k' = k /\ truthy (filter_value fs k) = true /\ x = ToString (filter_value fs k).
Proof.
  unfold Service.param, filter_value. destruct (truthy _); cbn.
  - split.
    + intros [[= <- <-]|[]]. repeat split.
    + intros (-> & _ & ->). left. reflexivity.
  - split; [contradiction | intros (_ & ? & _); discriminate].
Qed.

Lemma listTemplates_params_in (fs : gmap string value) (k x : string) :
  In (k, x) (Service.listTemplates_params fs)
  <-> In k filter_names /\ truthy (filter_value fs k) = true
      /\ x = ToString (filter_value fs k).
Proof.
  unfold Service.listTemplates_params, filter_names. rewrite !in_app_iff, !param_in. cbn [In].
  split.
  - intros Hin. repeat destruct Hin as [Hin|Hin]; destruct Hin as (-> & Ht & ->); tauto.
  - intros (Hk & Ht & ->).
    destruct Hk as [<-|[<-|[<-|[<-|[<-|[<-|[]]]]]]]; tauto.
Qed.

Context `{Serializer}.

Lemma listGeneratedQuestions_sends (fs : gmap string value) (w : world) :
  exists hs,
    fst (Service.getAuthHeaders w) = Normal hs
    /\ sent (snd (Service.listGeneratedQuestions fs w))
       = sent w ++ [{| method := "GET";
                       url := Service.API_BASE +:+ "/generated-questions?"
                              +:+ URLSearchParams_toString
                                    (Service.listGeneratedQuestions_params fs);
                       headers := hs; body := None |}].
Proof.
  eexists. split; [reflexivity|].
  unfold Service.listGeneratedQuestions, try_catch, bind, Service.getAuthHeaders,
    getItem, gets, ret, fetch, lift, Service.throw_api_error, throw.
  cbn.
  destruct (responses w (List.length (sent w))) as [m|ok [m|v]]; cbn;
    try reflexivity.
  destruct ok; cbn; [reflexivity|].
  destruct (get v "error") as [e|e]; cbn; [|reflexivity].
  destruct (get_opt e "message"); reflexivity.
Qed.

(** X10.  The list of generated questions is asked for with the truthy filter
    fields only, each with its string form, in the order template, job,
    limit, offset; with no filter the query is empty. *)
Theorem listGeneratedQuestions_query (fs : gmap string value) (w : world) :
  (forall k x, In (k, x) (Service.listGeneratedQuestions_params fs)
               <-> In k question_filter_names
                   /\ truthy (filter_value fs k) = true
                   /\ x = ToString (filter_value fs k))
  /\ (exists hs,
        sent (snd (Service.listGeneratedQuestions fs w))
        = sent w ++ [{| method := "GET";
                        url := Service.API_BASE +:+ "/generated-questions?"
                               +:+ URLSearchParams_toString
                                     (Service.listGeneratedQuestions_params fs);
                        headers := hs; body := None |}])
  /\ exists ks, List.map fst (Service.listGeneratedQuestions_params fs) = ks
                /\ sublist ks question_filter_names.
Proof.
  split; [|split].
  - intros k x. unfold Service.listGeneratedQuestions_params, question_filter_names.
    rewrite !in_app_iff, !param_in. cbn [In]. split.
    + intros Hin. repeat destruct Hin as [Hin|Hin]; destruct Hin as (-> & Ht & ->); tauto.
    + intros (Hk & Ht & ->). destruct Hk as [<-|[<-|[<-|[<-|[]]]]]; tauto.
  - destruct (listGeneratedQuestions_sends fs w) as (hs & _ & Hs). eauto.
  - eexists. split; [reflexivity|].
    unfold Service.listGeneratedQuestions_params, Service.param, question_filter_names.
    rewrite !map_app.
    repeat match goal with |- context [if ?c then _ else _] => destruct c end;
      cbn [List.map fst app];
      repeat first [apply sublist_nil | apply sublist_skip; solve [repeat first [apply sublist_nil | apply sublist_skip | apply sublist_cons]] | apply sublist_cons | apply sublist_skip].
Qed.

End QueryFacts.

(** ** The template store, when the call succeeds *)

Section StoreSuccess.
Import TemplateStore.
Context `{Serializer}.

Lemma succeeded_data (response : value) :
  succeeded response = true ->
  exists ok, get response "success" = Normal ok /\ truthy ok = true
             /\ get response "data" = Normal (data_of response).
Proof.
  unfold succeeded, data_of. destruct (get response "success") as [ok|e] eqn:E; [|discriminate].
  intros Hok. exists ok. split; [reflexivity|]. split; [exact Hok|].
  destruct (get_defined response "data" (get_Normal_defined _ _ _ E)) as [d ->]. reflexivity.
Qed.

Ltac run_store :=
  unfold createTemplate, updateTemplate, deleteTemplate, getTemplate, previewTemplate,
    try_finally, try_catch, bind, api, zoom, setLoading, setError, setCurrentTemplate,
    updateTemplates, report, modify, gets, lift, ret;
  cbn -[Service.createTemplate Service.updateTemplate Service.getTemplate
        Service.deleteTemplate Service.previewTemplate throw_response_error
        Helpers.parseErrorMessage fetchTemplates Array_map Array_filter].

Ltac caught :=
  match goal with
  | |- context [throw_response_error ?r ?fb ?s0] =>
      let m := fresh "m" in
      destruct (throw_response_error_throws r fb s0) as [m ->];
      [eapply get_Normal_defined; eassumption|]
  | _ => idtac
  end;
  rewrite parseErrorMessage_error; cbn; eexists; reflexivity.

Lemma previewTemplate_success (id n : value) (st : state) response w' :
  Service.previewTemplate id n (env st) = (Normal response, w') ->
  succeeded response = true ->
  previewTemplate id n st
  = (Normal (success (data_of response)),
     {| templates := templates st; currentTemplate := currentTemplate st;
        filters := filters st; loading := false; error := VNull;
        totalCount := totalCount st; render_error := render_error st; env := w' |}).
Proof.
  intros Ecall Hs. destruct (succeeded_data _ Hs) as (ok & Eok & Hok & Ed).
  run_store. rewrite Ecall. cbn. rewrite Eok. cbn. rewrite Hok. cbn. rewrite Ed. cbn.
  reflexivity.
Qed.

Lemma getTemplate_success (id : value) (st : state) response w' :
  Service.getTemplate id (env st) = (Normal response, w') ->
  succeeded response = true ->
  getTemplate id st
  = (Normal (success (data_of response)),
     {| templates := templates st; currentTemplate := data_of response;
        filters := filters st; loading := false; error := VNull;
        totalCount := totalCount st; render_error := render_error st; env := w' |}).
Proof.
  intros Ecall Hs. destruct (succeeded_data _ Hs) as (ok & Eok & Hok & Ed).
  run_store. rewrite Ecall. cbn. rewrite Eok. cbn. rewrite Hok. cbn. rewrite Ed. cbn.
  reflexivity.
Qed.

Lemma createTemplate_success (d : value) (st : state) response w' :
  Service.createTemplate d (env st) = (Normal response, w') ->
  succeeded response = true ->
  exists st1,
    fetchTemplates (started w' st) = (Normal VUndefined, st1)
    /\ createTemplate d st = (Normal (success (data_of response)), st1).
Proof.
  intros Ecall Hs. destruct (succeeded_data _ Hs) as (ok & Eok & Hok & Ed).
  destruct (fetchTemplates_run (started w' st)) as (st1 & Hrun & Hl & _).
  exists st1. split; [exact Hrun|].
  run_store. rewrite Ecall. cbn -[fetchTemplates]. rewrite Eok. cbn -[fetchTemplates].
  rewrite Hok. cbn -[fetchTemplates].
  unfold put_env. cbn -[fetchTemplates]. unfold started in Hrun. rewrite Hrun. cbn.
  rewrite Ed. cbn.
  destruct st1; cbn in Hl; subst; reflexivity.
Qed.


Lemma deleteTemplate_success (id : value) (st : state) r w' :
  Service.deleteTemplate id (env st) = (Normal r, w') ->
  exists st',
    deleteTemplate id st = (Normal (VObj [("success", VBool true)]), st')
    /\ templates st'
       = match Array_filter (fun t => let! i := get t "template_id" in
                                      Normal (negb (strict_eq i id))) (templates st) with
         | Normal v => v
         | Throw _ => templates st
         end
    /\ currentTemplate st'
       = (if is_current (currentTemplate st) id then VNull else currentTemplate st)
    /\ loading st' = false /\ error st' = VNull
    /\ filters st' = filters st /\ totalCount st' = totalCount st /\ env st' = w'.
Proof.
  intros Ecall. run_store. rewrite Ecall. cbn -[Array_filter].
  unfold is_current. destruct (get_opt_defined (currentTemplate st) "template_id") as [cid ->].
  cbn -[Array_filter].
  destruct (Array_filter _ (templates st)); cbn;
    destruct (strict_eq cid id); cbn; eexists; repeat split.
Qed.

Lemma updateTemplate_success (id d : value) (st : state) response w' :
  Service.updateTemplate id d (env st) = (Normal response, w') ->
  succeeded response = true ->
  exists st',
    updateTemplate id d st = (Normal (success (data_of response)), st')
    /\ templates st'
       = match Array_map (fun t => let! i := get t "template_id" in
                                   if strict_eq i id then get response "data"
                                   else Normal t) (templates st) with
         | Normal v => v
         | Throw _ => templates st
         end
    /\ currentTemplate st'
       = (if is_current (currentTemplate st) id then data_of response
          else currentTemplate st)
    /\ loading st' = false /\ error st' = VNull
    /\ filters st' = filters st /\ totalCount st' = totalCount st /\ env st' = w'.
Proof.
  intros Ecall Hs. destruct (succeeded_data _ Hs) as (ok & Eok & Hok & Ed).
  run_store. rewrite Ecall. cbn -[Array_map]. rewrite Eok. cbn -[Array_map].
  rewrite Hok. cbn -[Array_map].
  unfold is_current. destruct (get_opt_defined (currentTemplate st) "template_id") as [cid ->].
  cbn -[Array_map].
  destruct (Array_map _ (templates st)); cbn -[Array_map];
    destruct (strict_eq cid id); cbn -[Array_map]; rewrite ?Ed; cbn -[Array_map];
    rewrite ?Ed; cbn;
    eexists; repeat split.
Qed.

Lemma filter_elems_defined (id : value) (l : list value) :
  Forall (fun t => nullish t = false) l ->
  filter_elems (fun t => let! i := get t "template_id" in
                         Normal (negb (strict_eq i id))) l
  = Normal (List.filter (fun t => negb (strict_eq (template_id t) id)) l).
Proof.
  induction 1 as [|t l Ht Hl IH]; [reflexivity|].
  cbn [filter_elems List.filter]. unfold template_id at 1.
  destruct (get_defined t "template_id" Ht) as [i ->]. cbn. rewrite IH. reflexivity.
Qed.

Lemma map_elems_defined (id data : value) (response : value) (l : list value) :
  get response "data" = Normal data ->
  Forall (fun t => nullish t = false) l ->
  map_elems (fun t => let! i := get t "template_id" in
                      if strict_eq i id then get response "data" else Normal t) l
  = Normal (List.map (fun t => if strict_eq (template_id t) id then data else t) l).
Proof.
  intros Ed. induction 1 as [|t l Ht Hl IH]; [reflexivity|].
  cbn [map_elems List.map]. unfold template_id at 1.
  destruct (get_defined t "template_id" Ht) as [i ->]. cbn. rewrite IH.
  destruct (strict_eq i id); rewrite ?Ed; reflexivity.
Qed.


Lemma api_succeeded (op : operation) (w : world) :
  api_failed op w = false ->
  exists response, fst (api_call op w) = Normal response
    /\ match op with Delete _ => True | _ => succeeded response = true end.
Proof.
  unfold api_failed. destruct (fst (api_call op w)) as [response|e]; [|discriminate].
  intros Hf. exists response. split; [reflexivity|].
  destruct op; try exact I; apply negb_false_iff; exact Hf.
Qed.

Lemma failed_operation_state (op : operation) (st : state) :
  api_failed op (env st) = true ->
  exists msg,
    run op st
    = (Normal (failure (VStr msg)),
       {| templates := templates st; currentTemplate := currentTemplate st;
          filters := filters st; loading := false; error := VStr msg;
          totalCount := totalCount st; render_error := render_error st;
          env := snd (api_call op (env st)) |}).
Proof.
  unfold api_failed.
  destruct (api_call op (env st)) as [[response|e] w'] eqn:Ecall; cbn [fst snd].
  - destruct op; try discriminate; unfold succeeded;
      (destruct (get response "success") as [ok|e] eqn:Eok; cbn [negb];
       [destruct (truthy ok) eqn:Hok; [discriminate|] |]); intros _;
      simpl in Ecall;
      unfold run; run_store;
      rewrite Ecall;
      cbn -[throw_response_error Helpers.parseErrorMessage];
      rewrite Eok;
      cbn -[throw_response_error Helpers.parseErrorMessage];
      rewrite ?Hok;
      cbn -[throw_response_error Helpers.parseErrorMessage];
      try (apply get_throws_error in Eok; destruct Eok as [m ->]);
      caught.
  - intros _. pose proof (api_call_throws_error _ _ _ _ Ecall) as [m ->].
    destruct op; simpl in Ecall;
      unfold run; run_store;
      rewrite Ecall;
      cbn -[throw_response_error Helpers.parseErrorMessage];
      caught.
Qed.

(** X11.  Every operation of the store returns: it raises nothing, leaves the
    busy flag cleared and the filters as they were, and its result either is
    [{success: false, error}] with the message also in the error slot, or has
    a true [success]; it is the second exactly when the API call did not
    fail. *)
Theorem operation_returns (op : operation) (st : state) :
  exists v st',
    run op st = (Normal v, st')
    /\ loading st' = false
    /\ filters st' = filters st
    /\ if api_failed op (env st)
       then exists msg, v = failure (VStr msg) /\ error st' = VStr msg
       else get v "success" = Normal (VBool true).
Proof.
  destruct (api_failed op (env st)) eqn:F.
  - destruct (failed_operation_state op st F) as (msg & Hrun).
    eexists; eexists. split; [exact Hrun|]. cbn. repeat split. exists msg. split; reflexivity.
  - destruct (api_succeeded _ _ F) as (r & Er & Hs).
    destruct (api_call op (env st)) as [c w'] eqn:Ecall. cbn [fst] in Er. subst c.
    destruct op; cbn [api_call run] in *.
    + destruct (createTemplate_success _ _ _ _ Ecall Hs) as (st1 & Hf & Hrun).
      destruct (fetchTemplates_run (started w' st)) as (st2 & Hf2 & Hl & Hfs & _).
      rewrite Hf in Hf2. injection Hf2 as <-.
      exists (success (data_of r)), st1. repeat split; assumption.
    + destruct (updateTemplate_success _ _ _ _ _ Ecall Hs)
        as (st' & Hrun & _ & _ & Hl & _ & Hfs & _).
      exists (success (data_of r)), st'. repeat split; assumption.
    + destruct (deleteTemplate_success _ _ _ _ Ecall)
        as (st' & Hrun & _ & _ & Hl & _ & Hfs & _).
      eexists; exists st'. repeat split; try eassumption. reflexivity.
    + rewrite (getTemplate_success _ _ _ _ Ecall Hs). eexists; eexists. repeat split.
    + rewrite (previewTemplate_success _ _ _ _ _ Ecall Hs). eexists; eexists. repeat split.
Qed.

(** X12.  A successful delete takes the elements with the deleted identifier out of
    the collection and keeps the others in order, clears the current
    template when it is the deleted one, and leaves the total count as it
    was. *)
Theorem deleteTemplate_removes (id : value) (st : state) (l : list value) :
  api_failed (Delete id) (env st) = false ->
  templates st = VArr l ->
  Forall (fun t => nullish t = false) l ->
  exists st',
    deleteTemplate id st = (Normal (VObj [("success", VBool true)]), st')
    /\ templates st' = VArr (List.filter (fun t => negb (strict_eq (template_id t) id)) l)
    /\ currentTemplate st'
       = (if is_current (currentTemplate st) id then VNull else currentTemplate st)
    /\ totalCount st' = totalCount st
    /\ error st' = VNull
    /\ loading st' = false.
Proof.
  intros Hok Ht Hl. destruct (api_succeeded _ _ Hok) as (r & Er & _). cbn [api_call] in Er.
  destruct (Service.deleteTemplate id (env st)) as [c w'] eqn:Ecall. cbn [fst] in Er. subst c.
  destruct (deleteTemplate_success id st r w' Ecall)
    as (st' & Hrun & Hts & Hc & Hload & He & _ & Hn & _).
  exists st'. repeat split; try assumption.
  rewrite Hts, Ht. cbn [Array_filter]. rewrite (filter_elems_defined id l Hl). reflexivity.
Qed.

(** X13.  A successful update puts the server's record in the place of every
    element with the updated identifier, keeps the other elements and the
    length of the collection, and replaces the current template when it is
    the updated one. *)
Theorem updateTemplate_replaces (id d : value) (st : state) (l : list value) :
  api_failed (Update id d) (env st) = false ->
  templates st = VArr l ->
  Forall (fun t => nullish t = false) l ->
  exists response st' l',
    fst (Service.updateTemplate id d (env st)) = Normal response
    /\ updateTemplate id d st = (Normal (success (data_of response)), st')
    /\ templates st' = VArr l'
    /\ l' = List.map (fun t => if strict_eq (template_id t) id
                               then data_of response else t) l
    /\ List.length l' = List.length l
    /\ currentTemplate st'
       = (if is_current (currentTemplate st) id then data_of response
          else currentTemplate st)
    /\ error st' = VNull
    /\ loading st' = false.
Proof.
  intros Hok Ht Hl. destruct (api_succeeded _ _ Hok) as (r & Er & Hs). cbn [api_call] in Er.
  destruct (Service.updateTemplate id d (env st)) as [c w'] eqn:Ecall. cbn [fst] in Er. subst c.
  destruct (updateTemplate_success id d st r w' Ecall Hs)
    as (st' & Hrun & Hts & Hc & Hload & He & _).
  destruct (succeeded_data _ Hs) as (ok & _ & _ & Ed).
  exists r, st'. eexists. split; [reflexivity|]. split; [exact Hrun|].
  split; [|split; [reflexivity|]].
  - rewrite Hts, Ht. cbn [Array_map].
    rewrite (map_elems_defined id (data_of r) r l Ed Hl). reflexivity.
  - split; [apply length_map|]. repeat split; assumption.
Qed.


(** X14.  Reading one template or previewing it never touches the collection, the
    total count or the filters.  A preview leaves the current template alone
    as well; a get-by-id makes the server's record the current template when
    it succeeds and leaves it as it was when it fails. *)
Theorem read_operations_frame (id n : value) (st : state) :
  (exists v st',
     getTemplate id st = (Normal v, st')
     /\ templates st' = templates st /\ totalCount st' = totalCount st
     /\ filters st' = filters st
     /\ match fst (Service.getTemplate id (env st)) with
        | Normal response =>
            if succeeded response
            then v = success (data_of response)
                 /\ currentTemplate st' = data_of response /\ error st' = VNull
            else currentTemplate st' = currentTemplate st
        | Throw _ => currentTemplate st' = currentTemplate st
        end)
  /\ (exists v st',
        previewTemplate id n st = (Normal v, st')
        /\ templates st' = templates st /\ totalCount st' = totalCount st
        /\ filters st' = filters st /\ currentTemplate st' = currentTemplate st
        /\ match fst (Service.previewTemplate id n (env st)) with
           | Normal response =>
               succeeded response = true ->
               v = success (data_of response) /\ error st' = VNull
           | Throw _ => True
           end).
Proof.
  split.
  - destruct (api_failed (Get id) (env st)) eqn:F.
    + destruct (failed_operation_state _ _ F) as (msg & Hrun). cbn [run] in Hrun.
      eexists; eexists. split; [exact Hrun|]. cbn. repeat split.
      unfold api_failed in F. cbn [api_call] in F.
      destruct (fst (Service.getTemplate id (env st))) as [r|e]; [|reflexivity].
      apply negb_true_iff in F. rewrite F. reflexivity.
    + destruct (api_succeeded _ _ F) as (r & Er & Hs). cbn [api_call] in Er.
      destruct (Service.getTemplate id (env st)) as [c w'] eqn:Ecall.
      cbn [fst] in Er |- *. subst c.
      rewrite (getTemplate_success _ _ _ _ Ecall Hs). eexists; eexists.
      split; [reflexivity|]. cbn. rewrite Hs. repeat split.
  - destruct (api_failed (Preview id n) (env st)) eqn:F.
    + destruct (failed_operation_state _ _ F) as (msg & Hrun). cbn [run] in Hrun.
      eexists; eexists. split; [exact Hrun|]. cbn. repeat split.
      unfold api_failed in F. cbn [api_call] in F.
      destruct (fst (Service.previewTemplate id n (env st))) as [r|e]; [|exact I].
      apply negb_true_iff in F. rewrite F. discriminate.
    + destruct (api_succeeded _ _ F) as (r & Er & Hs). cbn [api_call] in Er.
      destruct (Service.previewTemplate id n (env st)) as [c w'] eqn:Ecall.
      cbn [fst] in Er |- *. subst c.
      rewrite (previewTemplate_success _ _ _ _ _ Ecall Hs). eexists; eexists.
      split; [reflexivity|]. cbn. repeat split.
Qed.

Lemma createTemplate_sends (d : value) (w : world) :
  exists req,
    sent (snd (Service.createTemplate d w)) = sent w ++ [req]
    /\ method req = "POST" /\ url req = "/api/v1/question-templates"
    /\ body req = Some (JSON_stringify d).
Proof.
  unfold Service.createTemplate, Service.call, try_catch, bind, Service.getAuthHeaders,
    getItem, gets, ret, fetch, lift, throw.
  cbn -[Service.throw_api_error].
  destruct (responses w (List.length (sent w))) as [m|ok [m|v]];
    cbn -[Service.throw_api_error]; try (eexists; repeat split; fail).
  destruct ok; cbn -[Service.throw_api_error]; [eexists; repeat split|].
  match goal with |- context [Service.throw_api_error ?r ?fb ?w0] =>
    destruct (throw_api_error_throws r fb w0) as [m' ->] end.
  cbn. eexists; repeat split.
Qed.

(** X15.  A successful create lists the templates again with the filters in
    force: two requests go out, the POST and then the GET of the list, the
    store ends as the list operation leaves it, and the result reports the
    created record whatever the second request gave. *)
Theorem createTemplate_relists (d : value) (st : state) :
  api_failed (Create d) (env st) = false ->
  exists response st' post,
    fst (Service.createTemplate d (env st)) = Normal response
    /\ fetchTemplates (started (snd (Service.createTemplate d (env st))) st)
       = (Normal VUndefined, st')
    /\ createTemplate d st = (Normal (success (data_of response)), st')
    /\ loading st' = false
    /\ method post = "POST" /\ body post = Some (JSON_stringify d)
    /\ exists hs,
         sent (env st')
         = sent (env st)
           ++ [post; {| method := "GET"; url := Service.listTemplates_url (filters st);
                        headers := hs; body := None |}].
Proof.
  intros F. destruct (api_succeeded _ _ F) as (r & Er & Hs). cbn [api_call] in Er.
  destruct (createTemplate_sends d (env st)) as (post & Hsent & Hm & _ & Hb).
  destruct (Service.createTemplate d (env st)) as [c w'] eqn:Ecall.
  cbn [fst snd] in *. subst c.
  destruct (createTemplate_success _ _ _ _ Ecall Hs) as (st' & Hf & Hrun).
  destruct (fetchTemplates_run (started w' st)) as (st2 & Hf2 & Hl & _ & _ & Hout).
  rewrite Hf in Hf2. injection Hf2 as <-.
  exists r, st', post. repeat split; try assumption.
  cbn [started filters env] in Hout.
  destruct (listTemplates_sends (filters st) w') as (hs & _ & Hsent2).
  exists hs.
  destruct (Service.listTemplates (filters st) w') as [[resp|e] w2];
    cbn [snd] in Hsent2; destruct Hout as (-> & _); rewrite Hsent2, Hsent;
    rewrite <- app_assoc; reflexivity.
Qed.


(** X16.  Changing or clearing the filters starts the paging again: the list
    request that follows carries no offset; after clearing, its query is the
    page size alone. *)
Theorem filters_restart_paging (patch : gmap string value) (st : state) :
  (exists st1 st2 hs,
     updateFilters patch st = (Normal tt, st1)
     /\ fetchTemplates st1 = (Normal VUndefined, st2)
     /\ sent (env st2)
        = sent (env st) ++ [{| method := "GET";
                               url := Service.listTemplates_url (filters st1);
                               headers := hs; body := None |}]
     /\ (forall v, In ("offset", v) (Service.listTemplates_params (filters st1)) -> False)
     /\ forall k v, k <> "offset" -> In k filter_names -> patch !! k = Some v ->
          (In (k, ToString v) (Service.listTemplates_params (filters st1))
           <-> truthy v = true))
  /\ (exists st1 st2 hs,
        clearFilters st = (Normal tt, st1)
        /\ fetchTemplates st1 = (Normal VUndefined, st2)
        /\ sent (env st2)
           = sent (env st) ++ [{| method := "GET";
                                  url := "/api/v1/question-templates?limit=50";
                                  headers := hs; body := None |}]).
Proof.
  split.
  - destruct (fetchTemplates_run (snd (updateFilters patch st)))
      as (st2 & Hrun & _ & _ & _ & Hout).
    destruct (listTemplates_sends (filters (snd (updateFilters patch st)))
                (env (snd (updateFilters patch st)))) as (hs & _ & Hsent).
    eexists; exists st2, hs. split; [reflexivity|]. split; [exact Hrun|].
    cbn [snd updateFilters setFilters modify filters env] in *.
    split; [|split].
    + destruct (Service.listTemplates _ (env st)) as [[r|e] w2]; cbn [snd] in Hsent;
        destruct Hout as (-> & _); exact Hsent.
    + intros v Hin. apply listTemplates_params_in in Hin as (_ & Ht & _).
      unfold filter_value in Ht. rewrite merge_filters_lookup in Ht. discriminate Ht.
    + intros k v Hne Hk Hp.
      assert (filter_value (merge_filters patch (filters st)) k = v) as Hl.
      { unfold filter_value. rewrite merge_filters_lookup.
        destruct (decide (k = "offset")); [contradiction|]. rewrite Hp. reflexivity. }
      rewrite listTemplates_params_in, Hl. tauto.
  - destruct (fetchTemplates_run (snd (clearFilters st)))
      as (st2 & Hrun & _ & _ & _ & Hout).
    destruct (listTemplates_sends (filters (snd (clearFilters st)))
                (env (snd (clearFilters st)))) as (hs & _ & Hsent).
    eexists; exists st2, hs. split; [reflexivity|]. split; [exact Hrun|].
    cbn [snd clearFilters setFilters modify filters env] in *.
    change (Service.listTemplates_url default_filters)
      with "/api/v1/question-templates?limit=50" in Hsent.
    destruct (Service.listTemplates _ (env st)) as [[r|e] w2]; cbn [snd] in Hsent;
      destruct Hout as (-> & _); exact Hsent.
Qed.

End StoreSuccess.

(** ** The session store: loading, signing in and out, the active child *)

Section SessionProps.
Import Auth.
Context `{Serializer}.

Lemma role_of_defined (apiData : value) :
  nullish apiData = false -> exists role, role_of apiData = Normal role /\ truthy role = true.
Proof.
  intros Hn. unfold role_of.
  destruct (get_defined apiData "role" Hn) as [r ->]. cbn.
  destruct (truthy r) eqn:Hr; [eauto|].
  destruct (get_defined apiData "user_type" Hn) as [t ->]. cbn.
  unfold or_else. destruct (truthy t) eqn:Ht; eauto.
Qed.

Ltac run_fetch :=
  unfold fetchUserData, try_catch, bind, platform, zoom, getItem, gets, fetch, lift, ret,
    setUserData, setUserType, setUser, modify;
  cbn -[role_of children_of object_literal String.append or_else item].

Lemma fetchUserData_run (uid overrideToken : value) (st : state) :
  exists st',
    fetchUserData uid overrideToken st = (Normal VUndefined, st')
    /\ activeChildId st' = activeChildId st
    /\ loading st' = loading st
    /\ responses (env st') = responses (env st)
    /\ (forall k, k <> "authUser" -> storage (env st') !! k = storage (env st) !! k)
    /\ (if truthy (credential overrideToken (env st))
        then sent (env st')
             = sent (env st) ++ [me_request (credential overrideToken (env st))]
        else env st' = env st)
    /\ (if truthy (credential overrideToken (env st))
           && profile_served (responses (env st) (List.length (sent (env st))))
        then truthy (userType st') = true
             /\ get (userData st') "userType" = Normal (userType st')
             /\ exists text, storage (env st') !! "authUser" = Some text
        else userData st' = VNull /\ userType st' = VNull /\ user st' = user st
             /\ storage (env st') = storage (env st)).
Proof.
  unfold credential. destruct st as [u0 d0 ty0 a0 al0 l0 [sto resp snt]].
  cbn [env sent responses storage activeChildId loading user userData userType].
  pose (st := {| user := u0; userData := d0; userType := ty0; activeChildId := a0;
                 activeChildLoading := al0; loading := l0;
                 env := {| storage := sto; responses := resp; sent := snt |} |}).
  destruct (truthy (or_else overrideToken
                      (item {| storage := sto; responses := resp; sent := snt |}
                            "authToken"))) eqn:Htok.
  - destruct (resp (List.length snt)) as [m|ok b] eqn:Hr.
    + run_fetch. rewrite Htok. cbn -[role_of children_of object_literal String.append or_else item]. rewrite Hr. cbn. eexists; repeat split.
    + destruct ok; [destruct b as [m|apiData]|].
      * run_fetch. rewrite Htok. cbn -[role_of children_of object_literal String.append or_else item]. rewrite Hr. cbn. eexists; repeat split.
      * destruct (nullish apiData) eqn:Hn.
        { run_fetch. rewrite Htok. cbn -[role_of children_of object_literal String.append or_else item]. rewrite Hr. cbn -[role_of children_of object_literal String.append or_else item].
          assert (exists e, role_of apiData = Throw e) as [e ->]
            by (destruct apiData; try discriminate; eexists; reflexivity).
          cbn. rewrite Hn. cbn. eexists; repeat split. }
        destruct (role_of_defined apiData Hn) as (role & Hrole & Htr).
        destruct (get_defined apiData "user_id" Hn) as [u Hu].
        destruct (strict_eq role (VStr "teacher")) eqn:Ht.
        { apply strict_eq_string in Ht. subst role.
          rewrite (fetchUserData_teacher st uid overrideToken apiData u Htok Hr Hrole Hu).
          eexists. split; [reflexivity|]. cbn -[object_literal teacher_data].
          rewrite Hn. cbn -[object_literal teacher_data]. repeat split.
          - intros k Hk. rewrite lookup_insert_ne by congruence. reflexivity.
          - unfold teacher_data, object_literal. cbn [fold_left].
            apply get_obj_set_eq.
          - eexists. apply lookup_insert_eq. }
        destruct (get_defined apiData "phone_number" Hn) as [p Hp].
        destruct (children_of_defined role apiData Hn) as [c Hc].
        rewrite (fetchUserData_profile st uid overrideToken apiData role u p c
                   Htok Hr Hrole Ht Hu Hp Hc).
        eexists. split; [reflexivity|]. cbn -[object_literal normalized simple_user].
        rewrite Hn. cbn -[object_literal normalized simple_user]. repeat split.
        -- intros k Hk. rewrite lookup_insert_ne by congruence. reflexivity.
        -- exact Htr.
        -- unfold normalized, object_literal. cbn [fold_left].
           rewrite get_obj_set_ne by discriminate. apply get_obj_set_eq.
        -- eexists. apply lookup_insert_eq.
      * run_fetch. rewrite Htok. cbn -[role_of children_of object_literal String.append or_else item]. rewrite Hr. cbn. eexists; repeat split.
  - run_fetch. rewrite Htok. cbn. eexists; repeat split.
Qed.


(** X17.  Loading the profile never raises.  It leaves the active child,
    the loading flag and every stored entry other than the user snapshot as
    they were; without a credential it sends nothing, and with one it sends
    exactly the profile request.  When a profile is served the role, the
    profile and the snapshot are set; in every other case the profile and the
    role are cleared while the user and local storage, the credential
    included, stay. *)
Theorem fetchUserData_total (uid overrideToken : value) (st : state) :
  exists st',
    fetchUserData uid overrideToken st = (Normal VUndefined, st')
    /\ activeChildId st' = activeChildId st
    /\ loading st' = loading st
    /\ responses (env st') = responses (env st)
    /\ (forall k, k <> "authUser" -> storage (env st') !! k = storage (env st) !! k)
    /\ (if truthy (credential overrideToken (env st))
        then sent (env st')
             = sent (env st) ++ [me_request (credential overrideToken (env st))]
        else env st' = env st)
    /\ (if truthy (credential overrideToken (env st))
           && profile_served (responses (env st) (List.length (sent (env st))))
        then truthy (userType st') = true
             /\ get (userData st') "userType" = Normal (userType st')
             /\ exists text, storage (env st') !! "authUser" = Some text
        else userData st' = VNull /\ userType st' = VNull /\ user st' = user st
             /\ storage (env st') = storage (env st)).
Proof. exact (fetchUserData_run uid overrideToken st). Qed.

(** X18.  An accepted login stores the credential it was given and reports
    success, whatever the profile request that follows gives. *)
Theorem login_stores_token (email password : value) (st : state) (data token : value) :
  responses (env st) (List.length (sent (env st))) = Response true (Json data) ->
  get data "access_token" = Normal token ->
  exists st',
    login email password st = (Normal (VObj [("success", VBool true)]), st')
    /\ storage (env st') !! "authToken" = Some (ToString token)
    /\ (truthy token = true ->
        sent (env st')
        = sent (env st) ++ [login_request email password; me_request token])
    /\ activeChildId st' = activeChildId st.
Proof.
  intros Hr Ht. rewrite (login_accepted email password st data token Hr Ht).
  destruct (fetchUserData_run VNull token
              (signed_in token (after_request (login_request email password) st)))
    as (st' & -> & Ha & _ & _ & Hsto & Hsent & _).
  exists st'. split; [reflexivity|]. split; [|split].
  - rewrite Hsto by discriminate. cbn. apply lookup_insert_eq.
  - intros Htr. unfold credential, or_else in Hsent. rewrite !Htr in Hsent.
    rewrite Hsent. cbn. rewrite <- app_assoc. reflexivity.
  - rewrite Ha. reflexivity.
Qed.

Lemma logout_run (st : state) :
  logout st
  = (Normal VUndefined,
     {| user := VNull; userData := VNull; userType := VNull; activeChildId := VNull;
        activeChildLoading := activeChildLoading st; loading := loading st;
        env := set_storage (fun m => delete "authUser" (delete "authToken" m)) (env st) |}).
Proof. destruct st as [u d ty a al l [sto resp snt]]. reflexivity. Qed.

(** X19.  Signing out clears the session and the two stored session entries and
    nothing else: no request is sent, and every other stored entry, such as a
    principal's active-child choice, stays; a profile load that follows
    without a credential of its own sends nothing. *)
Theorem logout_spec (st : state) :
  exists st',
    logout st = (Normal VUndefined, st')
    /\ user st' = VNull /\ userData st' = VNull /\ userType st' = VNull
    /\ activeChildId st' = VNull
    /\ storage (env st') !! "authToken" = None
    /\ storage (env st') !! "authUser" = None
    /\ (forall k, k <> "authToken" -> k <> "authUser" ->
          storage (env st') !! k = storage (env st) !! k)
    /\ sent (env st') = sent (env st)
    /\ activeChild st' = Normal VNull
    /\ (forall uid, fetchUserData uid VNull st' = (Normal VUndefined, st'))
    /\ logout st' = (Normal VUndefined, st').
Proof.
  rewrite logout_run. eexists. split; [reflexivity|]. rewrite logout_run.
  destruct st as [u d ty a al l [sto resp snt]]. cbn. repeat split.
  - rewrite lookup_delete_ne by discriminate. apply lookup_delete_eq.
  - apply lookup_delete_eq.
  - intros k H1 H2. rewrite !lookup_delete_ne by congruence. reflexivity.
  - intros uid. unfold fetchUserData, bind, platform, zoom, getItem, gets, item, ret,
      setUserData, setUserType, modify. cbn.
    rewrite lookup_delete_ne by discriminate. rewrite lookup_delete_eq. reflexivity.
  - unfold set_storage. cbn.
    rewrite (delete_id (delete "authUser" (delete "authToken" sto)) "authToken").
    + rewrite (delete_id (delete "authUser" (delete "authToken" sto)) "authUser").
      * reflexivity.
      * apply lookup_delete_eq.
    + rewrite lookup_delete_ne by discriminate. apply lookup_delete_eq.
Qed.


Lemma selected_in (stored : option string) (first : string) (rest : list string) :
  In (selected stored (first :: rest) first) (first :: rest).
Proof.
  unfold selected. destruct stored as [s|]; [|left; reflexivity].
  destruct (negb (String.eqb s "")); cbn [andb]; [|left; reflexivity].
  destruct (existsb (String.eqb s) (first :: rest)) eqn:E; [|left; reflexivity].
  apply existsb_exists in E as (x & Hx & Ex). apply String.eqb_eq in Ex. subst x. exact Hx.
Qed.

Lemma selected_stored (c first : string) (rest : list string) :
  c <> "" -> In c (first :: rest) -> selected (Some c) (first :: rest) first = c.
Proof.
  intros Hc Hin. unfold selected.
  destruct (String.eqb_spec c ""); [contradiction|]. cbn [negb andb].
  assert (existsb (String.eqb c) (first :: rest) = true) as ->; [|reflexivity].
  apply existsb_exists. exists c. split; [exact Hin | apply String.eqb_refl].
Qed.

(** X20.  The load effect always selects a key of the children mapping, so the
    active child is that key's entry (null when the entry is falsy, or when
    the selected key is the empty string). *)
Theorem effect_selects_a_key (st : state) (children : value)
    (first : string) (rest : list string) :
  truthy (user st) = true ->
  get_opt (userData st) "children" = Normal children ->
  Object_keys children = Normal (first :: rest) ->
  exists k st',
    activeChildEffect st = (Normal tt, st')
    /\ activeChildId st' = VStr k
    /\ In k (first :: rest)
    /\ activeChildLoading st' = false
    /\ activeChild st'
       = (if String.eqb k "" then Normal VNull
          else let! c := get children k in Normal (or_else c VNull)).
Proof.
  intros Hu Hc Hk.
  destruct (activeChildEffect_run st children first rest Hu Hc Hk)
    as (key & st' & _ & Hrun & Hid & _ & Hl & _ & Hd & _).
  eexists; exists st'. split; [exact Hrun|]. split; [exact Hid|].
  split; [apply selected_in|]. split; [exact Hl|].
  unfold activeChild. rewrite Hd, Hc, Hid. cbn [bindC].
  rewrite (Object_keys_truthy _ _ _ Hk). cbn [negb orb truthy ToString].
  destruct (String.eqb _ ""); reflexivity.
Qed.

(** X21.  Without a user, without a children mapping, or with an empty one, the
    load effect selects nothing: it only clears its loading flag. *)
Theorem effect_without_children (st : state) :
  (truthy (user st) = false
   \/ (exists c, get_opt (userData st) "children" = Normal c /\ truthy c = false)
   \/ (truthy (user st) = true
       /\ exists c, get_opt (userData st) "children" = Normal c
                    /\ Object_keys c = Normal [])) ->
  activeChildEffect st
  = (Normal tt,
     {| user := user st; userData := userData st; userType := userType st;
        activeChildId := activeChildId st; activeChildLoading := false;
        loading := loading st; env := env st |}).
Proof.
  destruct st as [u d ty a al l [sto resp snt]].
  cbn [user userData userType activeChildId loading env].
  destruct (get_opt_defined d "children") as [c Hc].
  unfold activeChildEffect, bind, gets, lift, platform, zoom, getItem, item,
    setActiveChildId, setActiveChildLoading, modify, ret.
  cbn -[existsb String.append activeChild_key]. rewrite Hc.
  cbn -[existsb String.append activeChild_key].
  intros [Hu|[(c' & Hc' & Ht)|(Hu & c' & Hc' & Hk)]].
  - rewrite Hu. reflexivity.
  - assert (c' = c) as -> by congruence. rewrite Ht, orb_true_r. reflexivity.
  - assert (c' = c) as -> by congruence. rewrite Hu. cbn [negb orb].
    destruct (truthy c) eqn:Ht; [|reflexivity]. cbn [negb].
    destruct (get_defined u "uid" (truthy_defined _ Hu)) as [uid Euid].
    unfold activeChild_key. rewrite Euid. cbn -[existsb String.append].
    rewrite Hk. cbn -[String.append].
    destruct (sto !! _) as [x|]; [destruct (truthy (VStr x))|]; reflexivity.
Qed.

Lemma append_inj_l (p a b : string) : p +:+ a = p +:+ b -> a = b.
Proof.
  induction p as [|x p IH]; [exact (fun E => E)|].
  change (String x (p +:+ a) = String x (p +:+ b) -> a = b).
  intros [= E]. exact (IH E).
Qed.

(** X22.  A child selected explicitly is the one the load effect restores later,
    for the same user over the same local storage, as long as it is a
    non-empty key of the children mapping; and the choice of one principal
    does not reach another: for a user with a different identifier the
    effect selects what it would have selected before. *)
Theorem selection_round_trip (c : string) (st st2 : state) (children : value)
    (first : string) (rest : list string) :
  truthy (user st) = true ->
  truthy (user st2) = true ->
  storage (env st2) = storage (env (snd (updateActiveChild (VStr c) st))) ->
  get_opt (userData st2) "children" = Normal children ->
  Object_keys children = Normal (first :: rest) ->
  exists st3 key key2,
    activeChildEffect st2 = (Normal tt, st3)
    /\ activeChild_key (user st) = Normal key
    /\ activeChild_key (user st2) = Normal key2
    /\ (key2 = key -> c <> "" -> In c (first :: rest) -> activeChildId st3 = VStr c)
    /\ (key2 <> key ->
        activeChildId st3
        = VStr (selected (storage (env st) !! key2) (first :: rest) first))
    /\ (forall uid uid2,
          get (user st) "uid" = Normal uid -> get (user st2) "uid" = Normal uid2 ->
          ToString uid <> ToString uid2 -> key2 <> key).
Proof.
  intros Hu Hu2 Hsto Hc Hk.
  destruct (updateActiveChild_run (VStr c) st Hu) as (key & st1 & Hkey & Hrun & _ & Hs & Hf).
  rewrite Hrun in Hsto. cbn [snd] in Hsto.
  destruct (activeChildEffect_run st2 children first rest Hu2 Hc Hk)
    as (key2 & st3 & Hkey2 & Hrun2 & Hid & _).
  exists st3, key, key2. split; [exact Hrun2|]. split; [exact Hkey|]. split; [exact Hkey2|].
  rewrite Hid, Hsto. split; [|split].
  - intros -> Hne Hin. rewrite Hs. cbn [ToString]. rewrite selected_stored by assumption.
    reflexivity.
  - intros Hne. rewrite Hf by exact Hne. reflexivity.
  - intros uid uid2 E1 E2 Hne E. unfold activeChild_key in Hkey, Hkey2.
    rewrite E1 in Hkey. rewrite E2 in Hkey2. cbn [bindC] in Hkey, Hkey2.
    injection Hkey as <-. injection Hkey2 as <-.
    apply append_inj_l in E. congruence.
Qed.

End SessionProps.

Section RestoreProps.
Import Auth.
Context `{Serializer} `{Parser}.

(** X23.  The session check at start-up always completes and clears the loading
    flag.  Without a stored session it changes nothing else.  With one whose
    snapshot does not parse, or parses to null, it removes both stored
    entries without sending anything.  Otherwise it asks for the profile with
    the stored credential, and keeps the credential whatever the answer. *)
Theorem checkSession_spec (st : state) :
  exists st',
    checkSession st = (Normal VUndefined, st')
    /\ loading st' = false
    /\ activeChildId st' = activeChildId st
    /\ match stored_session (env st) with
       | None => env st' = env st /\ user st' = user st /\ userData st' = userData st
       | Some (token, text) =>
           match JSON_parse text with
           | Throw _ =>
               storage (env st') = delete "authUser" (delete "authToken" (storage (env st)))
               /\ sent (env st') = sent (env st) /\ user st' = user st
           | Normal parsed =>
               if nullish parsed
               then storage (env st')
                    = delete "authUser" (delete "authToken" (storage (env st)))
                    /\ sent (env st') = sent (env st) /\ user st' = parsed
               else storage (env st') !! "authToken" = Some token
                    /\ sent (env st') = sent (env st) ++ [me_request (VStr token)]
           end
       end.
Proof.
  destruct st as [u d ty a al l [sto resp snt]].
  unfold stored_session.
  cbn [env storage sent user userData loading activeChildId].
  unfold checkSession, bind, platform, zoom, getItem, gets, item, ret, try_catch,
    setLoading, setUser, removeItem, lift, modify.
  cbn -[fetchUserData JSON_parse].
  destruct (sto !! "authToken") as [token|] eqn:Etok; cbn -[fetchUserData JSON_parse];
    [|eexists; repeat split].
  destruct (String.eqb token "") eqn:Htok; cbn -[fetchUserData JSON_parse].
  { destruct (sto !! "authUser"); eexists; repeat split. }
  destruct (sto !! "authUser") as [text|] eqn:Etext; cbn -[fetchUserData JSON_parse];
    [|eexists; repeat split].
  destruct (String.eqb text "") eqn:Htext; cbn -[fetchUserData JSON_parse];
    [eexists; repeat split|].
  destruct (JSON_parse text) as [parsed|e]; cbn -[fetchUserData JSON_parse];
    [|eexists; repeat split].
  destruct (nullish parsed) eqn:Hn.
  { assert (exists e, get parsed "uid" = Throw e) as [e ->]
      by (destruct parsed; try discriminate; eexists; reflexivity).
    cbn. eexists; repeat split. }
  destruct (get_defined parsed "uid" Hn) as [uid ->]. cbn -[fetchUserData].
  match goal with |- context [fetchUserData uid VNull ?s0] =>
    destruct (fetchUserData_run uid VNull s0)
      as (st' & -> & Ha & Hl & _ & Hsto & Hsent & _) end.
  cbn [env storage sent activeChildId loading] in *.
  unfold credential, item, or_else in Hsent. cbn [storage truthy] in Hsent.
  rewrite Etok in Hsent. cbn [truthy] in Hsent. rewrite Htok in Hsent. cbn [negb] in Hsent.
  cbn. eexists. split; [reflexivity|]. cbn. split; [reflexivity|]. split; [exact Ha|].
  split; [|exact Hsent]. rewrite Hsto by discriminate. exact Etok.
Qed.

(** X24.  Refreshing the profile never raises and keeps the active child
    and the stored credential; without a user it changes nothing, and without
    a stored credential it sends nothing. *)
Theorem refreshUserData_spec (st : state) :
  exists st',
    refreshUserData st = (Normal VUndefined, st')
    /\ activeChildId st' = activeChildId st
    /\ storage (env st') !! "authToken" = storage (env st) !! "authToken"
    /\ (truthy (user st) = false -> st' = st)
    /\ (truthy (item (env st) "authToken") = false -> sent (env st') = sent (env st)).
Proof.
  unfold refreshUserData, bind, gets, lift, ret.
  destruct (truthy (user st)) eqn:Hu.
  - destruct (get_defined (user st) "uid" (truthy_defined _ Hu)) as [uid Euid].
    rewrite Euid.
    destruct (fetchUserData_run uid VNull st) as (st' & Hrun & Ha & _ & _ & Hsto & Hsent & _).
    exists st'. split; [exact Hrun|]. split; [exact Ha|].
    split; [apply Hsto; discriminate|]. split; [discriminate|].
    intros Ht. unfold credential, or_else in Hsent. cbn [truthy] in Hsent.
    rewrite Ht in Hsent. rewrite Hsent. reflexivity.
  - exists st. repeat split.
Qed.

End RestoreProps.

(** ** The components *)

Section ComponentProps.
Import Validation Components.

Lemma note_flag c k msg e : note c k msg e = flag c k msg e.
Proof. reflexivity. Qed.

Lemma validate_present (formData : draft) :
  (forall f, In f form_fields -> is_Some (field_value formData f)) ->
  exists e ok,
    validate formData = Normal (e, ok)
    /\ (forall f, In f form_fields ->
          (is_Some (e !! field_name f) <-> blank (field_value formData f)))
    /\ (forall k, is_Some (e !! k) -> exists f, In f form_fields /\ k = field_name f)
    /\ (ok = true <-> forall f, In f form_fields -> ~ blank (field_value formData f))
    /\ (isValid (validateTemplateForm formData) = true -> ok = true).
Proof.
  intros Hall.
  destruct (Hall Module_) as [m Em]; [cbn; tauto|].
  destruct (Hall Category) as [c Ec]; [cbn; tauto|].
  destruct (Hall Topic) as [t Et]; [cbn; tauto|].
  destruct (Hall Subtopic) as [s Es]; [cbn; tauto|].
  destruct (Hall Format) as [fo Efo]; [cbn; tauto|].
  destruct (Hall DynamicQuestion) as [q Eq]; [cbn; tauto|].
  destruct (Hall LogicalAnswer) as [a Ea]; [cbn; tauto|].
  cbn [field_value] in Em, Ec, Et, Es, Efo, Eq, Ea.
  unfold validate, empty_field. rewrite Em, Ec, Et, Es, Efo, Eq, Ea. cbn [bindC].
  rewrite !note_flag.
  eexists; eexists. split; [reflexivity|].
  assert (forall f, In f form_fields ->
            (is_Some (flag (String.eqb (trim a) "") "logical_answer"
                        "Logical answer code is required"
                        (flag (String.eqb (trim q) "") "dynamic_question"
                           "Dynamic question code is required"
                           (flag (String.eqb (trim fo) "") "format" "Format is required"
                              (flag (String.eqb (trim s) "") "subtopic" "Subtopic is required"
                                 (flag (String.eqb (trim t) "") "topic" "Topic is required"
                                    (flag (String.eqb (trim c) "") "category"
                                       "Category is required"
                                       (flag (String.eqb (trim m) "") "module"
                                          "Module is required" ∅))))))
                      !! field_name f)
             <-> blank (field_value formData f))) as Hflag.
  { intros f Hf. rewrite !flag_lookup, lookup_empty.
    cbn in Hf. destruct Hf as [<-|[<-|[<-|[<-|[<-|[<-|[<-|[]]]]]]]];
      cbn [field_name field_value blank String.eqb Ascii.eqb Bool.eqb andb];
      rewrite ?andb_true_r, ?andb_false_r;
      rewrite ?Em, ?Ec, ?Et, ?Es, ?Efo, ?Eq, ?Ea; cbn [blank];
      match goal with |- context [String.eqb (trim ?x) ""] =>
        destruct (String.eqb_spec (trim x) "") as [E|E] end;
      (split; [intros Hx; first [exact E | destruct Hx as [? [=]]]
              | intros Hx; first [eexists; reflexivity | contradiction]]). }
  assert (forall k, is_Some (flag (String.eqb (trim a) "") "logical_answer"
                        "Logical answer code is required"
                        (flag (String.eqb (trim q) "") "dynamic_question"
                           "Dynamic question code is required"
                           (flag (String.eqb (trim fo) "") "format" "Format is required"
                              (flag (String.eqb (trim s) "") "subtopic" "Subtopic is required"
                                 (flag (String.eqb (trim t) "") "topic" "Topic is required"
                                    (flag (String.eqb (trim c) "") "category"
                                       "Category is required"
                                       (flag (String.eqb (trim m) "") "module"
                                          "Module is required" ∅)))))) !! k) ->
                    exists f, In f form_fields /\ k = field_name f) as Hdom.
  { intros k Hk.
    repeat (apply flag_domain in Hk as [->|Hk];
            [first [ now (exists Module_; cbn; tauto) | now (exists Category; cbn; tauto)
                   | now (exists Topic; cbn; tauto) | now (exists Subtopic; cbn; tauto)
                   | now (exists Format; cbn; tauto)
                   | now (exists DynamicQuestion; cbn; tauto)
                   | now (exists LogicalAnswer; cbn; tauto) ]|]).
    rewrite lookup_empty in Hk. destruct Hk as [? [=]]. }
  split; [exact Hflag|]. split; [exact Hdom|].
  assert (forall e : gmap string string,
            (forall f, In f form_fields ->
               (is_Some (e !! field_name f) <-> blank (field_value formData f))) ->
            (forall k, is_Some (e !! k) -> exists f, In f form_fields /\ k = field_name f) ->
            (Nat.eqb (size e) 0 = true
             <-> forall f, In f form_fields -> ~ blank (field_value formData f))) as Hok.
  { intros e Hf Hd. rewrite Nat.eqb_eq, map_size_empty_iff. split.
    - intros -> f Hin Hb. apply Hf in Hb; [|exact Hin].
      rewrite lookup_empty in Hb. destruct Hb as [? [=]].
    - intros Hnb. apply map_eq. intros k. rewrite lookup_empty.
      destruct (e !! k) as [msg|] eqn:Ek; [|reflexivity].
      destruct (Hd k) as (f & Hin & ->); [rewrite Ek; eauto|].
      exfalso. apply (Hnb f Hin). apply Hf; [exact Hin|]. rewrite Ek. eauto. }
  split; [apply Hok; assumption|].
  intros Hv. apply Hok; [assumption..|].
  intros f Hin Hb. pose proof (blank_field_flagged formData f Hb) as Hs.
  unfold validateTemplateForm in Hv, Hs. cbn [isValid errors] in Hv, Hs.
  apply flagged_invalid in Hs. congruence.
Qed.

Lemma validate_absent (formData : draft) :
  (exists f, In f form_fields /\ field_value formData f = None) ->
  exists e, validate formData = Throw e /\ is_error e.
Proof.
  intros (f & Hin & Hf). unfold validate, empty_field.
  destruct formData as [[m|] [c|] [t|] [s|] [fo|] d ty [q|] [a|]];
    cbn [Validation.module category topic subtopic format dynamic_question logical_answer
         bindC];
    try (eexists; split; [reflexivity | eexists; reflexivity]).
  exfalso. cbn in Hin. destruct Hin as [<-|[<-|[<-|[<-|[<-|[<-|[<-|[]]]]]]]];
    discriminate Hf.
Qed.


(** X25.  The upload form's own check looks at seven fields and at
    blankness only.  With the seven fields there, it flags exactly the blank
    ones and accepts exactly when none is blank, so that it accepts whatever
    the full form validation accepts.  A field that is not there makes it
    raise. *)
Theorem validate_spec (formData : draft) :
  ((forall f, In f form_fields -> is_Some (field_value formData f)) ->
   exists e ok,
     validate formData = Normal (e, ok)
     /\ (forall f, In f form_fields ->
           (is_Some (e !! field_name f) <-> blank (field_value formData f)))
     /\ (forall k, is_Some (e !! k) -> exists f, In f form_fields /\ k = field_name f)
     /\ (ok = true <-> forall f, In f form_fields -> ~ blank (field_value formData f))
     /\ (isValid (validateTemplateForm formData) = true -> ok = true))
  /\ ((exists f, In f form_fields /\ field_value formData f = None) ->
      exists e, validate formData = Throw e /\ is_error e).
Proof. split; [apply validate_present | apply validate_absent]. Qed.

(** X26.  The pager keeps the index of the sample shown within the list: from an
    index in range both steps give an index in range, at which the list has a
    sample; they stop at the ends, and undo one another away from them. *)
Theorem pager_in_range (l : list value) (i : Z) :
  0 <= i < Z.of_nat (List.length l) ->
  (0 <= handleNext (Some l) i < Z.of_nat (List.length l)
   /\ exists sample, nth_error l (Z.to_nat (handleNext (Some l) i)) = Some sample)
  /\ (0 <= handlePrevious i < Z.of_nat (List.length l)
      /\ exists sample, nth_error l (Z.to_nat (handlePrevious i)) = Some sample)
  /\ (i + 1 < Z.of_nat (List.length l) ->
      handleNext (Some l) i = i + 1 /\ handlePrevious (handleNext (Some l) i) = i)
  /\ (i + 1 = Z.of_nat (List.length l) -> handleNext (Some l) i = i)
  /\ (0 < i -> handlePrevious i = i - 1 /\ handleNext (Some l) (handlePrevious i) = i)
  /\ (i = 0 -> handlePrevious i = 0)
  /\ handleNext None i = i.
Proof.
  intros Hi. unfold handleNext, handlePrevious.
  assert (forall j, 0 <= j < Z.of_nat (List.length l) ->
            exists sample, nth_error l (Z.to_nat j) = Some sample) as Hnth.
  { intros j Hj. destruct (nth_error l (Z.to_nat j)) as [x|] eqn:E; [eauto|].
    apply nth_error_None in E. lia. }
  repeat split; try lia; apply Hnth; lia.
Qed.

Lemma field_matches_searchable (t : value) (k term : string) :
  nullish (field_of t k) = true \/ (exists s, field_of t k = VStr s) ->
  exists r, field_matches (field_of t k) term = Normal r
    /\ truthy r = match field_of t k with
                  | VStr s => includes (toLowerCase s) term
                  | _ => false
                  end.
Proof.
  unfold field_matches. intros [Hn|[s ->]].
  - rewrite Hn. exists VUndefined. split; [reflexivity|].
    destruct (field_of t k); try discriminate; reflexivity.
  - cbn. eexists. split; reflexivity.
Qed.

Lemma template_matches_found (term : string) (t : value) :
  searchable t -> template_matches term t = Normal (found term t).
Proof.
  intros [Hn Hf]. unfold template_matches, found.
  destruct (String.eqb term ""); [reflexivity|]. cbn [orb search_fields existsb].
  assert (forall k, get t k = Normal (field_of t k)) as Hget.
  { intros k. unfold field_of. destruct (get_defined t k Hn) as [x ->]. reflexivity. }
  rewrite !Hget. cbn [bindC].
  destruct (field_matches_searchable t "module" (toLowerCase term)) as (r1 & E1 & T1);
    [apply Hf; cbn; tauto|].
  destruct (field_matches_searchable t "topic" (toLowerCase term)) as (r2 & E2 & T2);
    [apply Hf; cbn; tauto|].
  destruct (field_matches_searchable t "subtopic" (toLowerCase term)) as (r3 & E3 & T3);
    [apply Hf; cbn; tauto|].
  destruct (field_matches_searchable t "category" (toLowerCase term)) as (r4 & E4 & T4);
    [apply Hf; cbn; tauto|].
  rewrite E1. cbn [bindC]. rewrite T1.
  destruct (match field_of t "module" with VStr _ => _ | _ => false end);
    [reflexivity|]. cbn [orb].
  rewrite E2. cbn [bindC]. rewrite T2.
  destruct (match field_of t "topic" with VStr _ => _ | _ => false end);
    [reflexivity|]. cbn [orb].
  rewrite E3. cbn [bindC]. rewrite T3.
  destruct (match field_of t "subtopic" with VStr _ => _ | _ => false end);
    [reflexivity|]. cbn [orb].
  rewrite E4. cbn [bindC]. rewrite T4, orb_false_r. reflexivity.
Qed.

Lemma filter_elems_found (term : string) (l : list value) :
  Forall searchable l ->
  TemplateStore.filter_elems (template_matches term) l
  = Normal (List.filter (found term) l).
Proof.
  induction 1 as [|t l Ht Hl IH]; [reflexivity|].
  cbn [TemplateStore.filter_elems List.filter].
  rewrite (template_matches_found term t Ht), IH. reflexivity.
Qed.

Lemma filter_all (A : Type) (p : A -> bool) (l : list A) :
  (forall x, p x = true) -> List.filter p l = l.
Proof.
  intros Hp. induction l as [|x l IH]; [reflexivity|].
  cbn. rewrite Hp, IH. reflexivity.
Qed.

(** X27.  The list's search keeps, in order, the templates in which the term
    occurs in the module, topic, subtopic or category, case ignored; an empty
    term keeps them all, and the case of the term makes no difference. *)
Theorem filteredTemplates_spec (l : list value) (term : string) :
  Forall searchable l ->
  filteredTemplates (VArr l) term = Normal (VArr (List.filter (found term) l))
  /\ filteredTemplates (VArr l) "" = Normal (VArr l)
  /\ filteredTemplates (VArr l) (toLowerCase term) = filteredTemplates (VArr l) term
  /\ (forall t, In t (List.filter (found term) l) -> In t l /\ found term t = true).
Proof.
  intros Hl. unfold filteredTemplates.
  rewrite !filter_elems_found by exact Hl. cbn [bindC]. split; [reflexivity|].
  split; [|split].
  - rewrite filter_all; [reflexivity|]. intros x. reflexivity.
  - do 2 f_equal. apply filter_ext. intros t. unfold found.
    rewrite toLowerCase_idem.
    assert (String.eqb (toLowerCase term) "" = String.eqb term "") as ->; [|reflexivity].
    destruct term; reflexivity.
  - intros t Hin. apply filter_In in Hin. exact Hin.
Qed.

End ComponentProps.

(** ** The option lists of the form *)

Section OptionProps.
Import Helpers.

Lemma In4 (A : Type) (P : A -> Prop) (a b c d : A) :
  P a -> P b -> P c -> P d -> forall x, In x [a; b; c; d] -> P x.
Proof. intros Ha Hb Hc Hd x [<-|[<-|[<-|[<-|[]]]]]; assumption. Qed.

(** X28.  The option lists agree with the lookup helpers and the validators.
    Every difficulty on offer is a valid difficulty and is offered with the
    colour the colour helper gives it; every question type on offer is a
    valid type and is offered with the label and the icon the helpers give
    it; and every string the validators accept is, lower-cased, the value of
    an option on offer. *)
Theorem options_agree_with_helpers :
  (forall o, In o getDifficultyOptions ->
     exists v c,
       option_field o "value" = Some v /\ option_field o "color" = Some c
       /\ Validation.isValidDifficulty (VStr v) = Normal true
       /\ getDifficultyColor (VStr v) = Normal (VStr c))
  /\ (forall o, In o getQuestionTypeOptions ->
        exists v l i,
          option_field o "value" = Some v /\ option_field o "label" = Some l
          /\ option_field o "icon" = Some i
          /\ Validation.isValidQuestionType (VStr v) = Normal true
          /\ formatQuestionType (VStr v) = Normal (VStr l)
          /\ getQuestionTypeIcon (VStr v) = Normal (VStr i))
  /\ (forall s, Validation.isValidDifficulty (VStr s) = Normal true ->
        exists o, In o getDifficultyOptions
                  /\ option_field o "value" = Some (toLowerCase s))
  /\ (forall s, Validation.isValidQuestionType (VStr s) = Normal true ->
        exists o, In o getQuestionTypeOptions
                  /\ option_field o "value" = Some (toLowerCase s)).
Proof.
  split; [|split; [|split]].
  - apply In4; eexists; eexists; repeat split.
  - apply In4; eexists; eexists; eexists; repeat split.
  - intros s Hs. unfold Validation.isValidDifficulty in Hs.
    cbn [nullish call_toLowerCase bindC] in Hs.
    assert (existsb (fun x => strict_eq (VStr x) (VStr (toLowerCase s)))
              Validation.validLevels = true) as E by congruence.
    apply existsb_exists in E as (x & Hx & Ex).
    apply strict_eq_string in Ex. injection Ex as ->.
    unfold Validation.validLevels in Hx. cbn [In] in Hx.
    destruct Hx as [E|[E|[E|[E|[]]]]]; rewrite <- E;
      [exists (nth 0 getDifficultyOptions VNull) | exists (nth 1 getDifficultyOptions VNull)
      | exists (nth 2 getDifficultyOptions VNull) | exists (nth 3 getDifficultyOptions VNull)];
      (split; [cbn; tauto | reflexivity]).
  - intros s Hs. unfold Validation.isValidQuestionType in Hs.
    cbn [nullish call_toLowerCase bindC] in Hs.
    assert (existsb (fun x => strict_eq (VStr x) (VStr (toLowerCase s)))
              Validation.validTypes = true) as E by congruence.
    apply existsb_exists in E as (x & Hx & Ex).
    apply strict_eq_string in Ex. injection Ex as ->.
    unfold Validation.validTypes in Hx. cbn [In] in Hx.
    destruct Hx as [E|[E|[E|[E|[]]]]]; rewrite <- E;
      [exists (nth 0 getQuestionTypeOptions VNull) | exists (nth 1 getQuestionTypeOptions VNull)
      | exists (nth 2 getQuestionTypeOptions VNull)
      | exists (nth 3 getQuestionTypeOptions VNull)];
      (split; [cbn; tauto | reflexivity]).
Qed.

Lemma lookup_unknown (table : props) (k : string) :
  assoc k table = None -> Object_prototype k = None ->
  (let! c := get (VObj table) k in Normal (or_else c (VArr []))) = Normal (VArr []).
Proof. intros Ha Hp. cbn [get]. rewrite Ha, Hp. reflexivity. Qed.

Lemma assoc_outside (table : props) (k : string) :
  ~ In k (List.map fst table) -> assoc k table = None.
Proof.
  induction table as [|[k' v] r IH]; [reflexivity|].
  cbn [List.map fst In assoc]. intros Hn.
  destruct (String.eqb_spec k k') as [->|_]; [tauto|]. apply IH. tauto.
Qed.

(** X29.  The cascading option lists.  Every module on offer has at least
    one category, and every category offered has a list of topics, which is
    empty exactly for the categories outside the topic table.  For a name
    that is in neither table (and is not a property every object inherits)
    and for an absent value, both lookups give the empty list. *)
Theorem grade1_options_cascade :
  (forall o, In o getGrade1ModuleOptions ->
     exists m c cs,
       option_field o "value" = Some m /\ In m module_names
       /\ getGrade1CategoryOptions (VStr m) = Normal (VArr (c :: cs))
       /\ forall x, In x (c :: cs) ->
            exists name ts,
              option_field x "value" = Some name
              /\ getGrade1TopicOptions (VStr name) = Normal (VArr ts)
              /\ (ts = [] <-> ~ In name categories_with_topics))
  /\ (forall k, ~ In k module_names -> Object_prototype k = None ->
        getGrade1CategoryOptions (VStr k) = Normal (VArr []))
  /\ (forall k, ~ In k categories_with_topics -> Object_prototype k = None ->
        getGrade1TopicOptions (VStr k) = Normal (VArr []))
  /\ (forall v, nullish v = true ->
        getGrade1CategoryOptions v = Normal (VArr [])
        /\ getGrade1TopicOptions v = Normal (VArr [])).
Proof.
  split; [|split; [|split]].
  - apply In4; eexists; eexists; eexists;
      (split; [reflexivity|]); (split; [cbn; tauto|]); (split; [reflexivity|]);
      intros x Hx; cbn [In] in Hx;
      repeat (destruct Hx as [<-|Hx];
              [eexists; eexists; split; [reflexivity|]; split; [reflexivity|];
               cbn; split; [intros E; try discriminate E; intuition discriminate
                           | intros Hn; try reflexivity; exfalso; apply Hn; tauto]|]);
      destruct Hx.
  - intros k Hk Hp. unfold getGrade1CategoryOptions, categories. cbn [ToString].
    apply lookup_unknown; [|exact Hp]. apply assoc_outside. exact Hk.
  - intros k Hk Hp. unfold getGrade1TopicOptions, topics. cbn [ToString].
    apply lookup_unknown; [|exact Hp]. apply assoc_outside. exact Hk.
  - intros v Hv. destruct v; try discriminate Hv; split; reflexivity.
Qed.

End OptionProps.

(** ** More closed examples *)

Section MoreExamples.
#[local] Existing Instance example_json.

Lemma deleteTemplate_removes_witness :
  exists st',
    TemplateStore.deleteTemplate (VNum 1) (listing (scripted [Response true (BadJson "")]))
    = (Normal (VObj [("success", VBool true)]), st')
    /\ TemplateStore.templates st' = VArr [fractions]
    /\ TemplateStore.currentTemplate st' = VNull
    /\ TemplateStore.totalCount st' = VNum 2.
Proof.
  destruct (deleteTemplate_removes (VNum 1)
              (listing (scripted [Response true (BadJson "")])) [addition; fractions]
              eq_refl eq_refl)
    as (st' & Hrun & Ht & Hc & Hn & _).
  - repeat constructor.
  - exists st'. split; [exact Hrun|]. split; [rewrite Ht; reflexivity|].
    split; [rewrite Hc; reflexivity | exact Hn].
Defined.

Lemma updateTemplate_replaces_witness :
  exists st',
    TemplateStore.updateTemplate (VNum 1) (VObj [("topic", VStr "Sums")])
      (listing (scripted [answer renamed]))
    = (Normal (TemplateStore.success renamed), st')
    /\ TemplateStore.templates st' = VArr [renamed; fractions]
    /\ TemplateStore.currentTemplate st' = renamed.
Proof.
  destruct (updateTemplate_replaces (VNum 1) (VObj [("topic", VStr "Sums")])
              (listing (scripted [answer renamed])) [addition; fractions]
              eq_refl eq_refl)
    as (r & st' & l' & Hr & Hrun & Ht & Hl & _ & Hc & _).
  - repeat constructor.
  - injection Hr as <-. exists st'. split; [exact Hrun|].
    split; [rewrite Ht, Hl; reflexivity | rewrite Hc; reflexivity].
Defined.

Lemma createTemplate_relists_witness :
  exists st',
    TemplateStore.createTemplate renamed
      (listing (scripted [answer renamed;
                          answer (VObj [("templates", VArr [addition; fractions; renamed]);
                                        ("total", VNum 3)])]))
    = (Normal (TemplateStore.success renamed), st')
    /\ List.map method (sent (TemplateStore.env st')) = ["POST"; "GET"].
Proof.
  destruct (createTemplate_relists renamed
              (listing (scripted [answer renamed;
                          answer (VObj [("templates", VArr [addition; fractions; renamed]);
                                        ("total", VNum 3)])])) eq_refl)
    as (r & st' & post & Hr & _ & Hrun & _ & Hm & _ & hs & Hsent).
  injection Hr as <-. exists st'. split; [exact Hrun|].
  rewrite Hsent. cbn. rewrite Hm. reflexivity.
Defined.

Lemma login_stores_token_witness :
  exists st',
    Auth.login (VStr "a@b.com") (VStr "pw123456") (Auth.initial login_backend)
    = (Normal (VObj [("success", VBool true)]), st')
    /\ storage (Auth.env st') !! "authToken" = Some "tok-1"
    /\ List.length (sent (Auth.env st')) = 2%nat.
Proof.
  destruct (login_stores_token (VStr "a@b.com") (VStr "pw123456")
              (Auth.initial login_backend) token_answer (VStr "tok-1") eq_refl eq_refl)
    as (st' & Hrun & Hs & Hsent & _).
  exists st'. split; [exact Hrun|]. split; [exact Hs|].
  rewrite (Hsent eq_refl). reflexivity.
Defined.

Lemma effect_selects_a_key_witness :
  exists k st',
    Auth.activeChildEffect (parent_session ∅) = (Normal tt, st')
    /\ Auth.activeChildId st' = VStr k
    /\ In k ["c1"; "c2"].
Proof.
  destruct (effect_selects_a_key (parent_session ∅) two_children "c1" ["c2"]
              eq_refl eq_refl eq_refl)
    as (k & st' & Hrun & Hid & Hin & _).
  exists k, st'. split; [exact Hrun|]. split; [exact Hid | exact Hin].
Defined.

Lemma effect_without_children_witness :
  Auth.activeChildEffect (Auth.initial offline)
  = (Normal tt,
     {| Auth.user := VNull; Auth.userData := VNull; Auth.userType := VNull;
        Auth.activeChildId := VNull; Auth.activeChildLoading := false;
        Auth.loading := true; Auth.env := offline |}).
Proof.
  apply (effect_without_children (Auth.initial offline)). left. reflexivity.
Defined.

Lemma selection_round_trip_witness :
  exists st3,
    Auth.activeChildEffect (parent_session {["activeChild_p1" := "c2"]}) = (Normal tt, st3)
    /\ Auth.activeChildId st3 = VStr "c2".
Proof.
  destruct (selection_round_trip "c2" (parent_session ∅)
              (parent_session {["activeChild_p1" := "c2"]}) two_children "c1" ["c2"]
              eq_refl eq_refl eq_refl eq_refl eq_refl)
    as (st3 & key & key2 & Hrun & Hk & Hk2 & Hsame & _).
  exists st3. split; [exact Hrun|].
  apply Hsame.
  - injection Hk as <-. injection Hk2 as <-. reflexivity.
  - discriminate.
  - right. left. reflexivity.
Defined.

Lemma pager_in_range_witness :
  Components.handleNext (Some [VNum 1; VNum 2; VNum 3]) 1 = 2
  /\ Components.handlePrevious (Components.handleNext (Some [VNum 1; VNum 2; VNum 3]) 1) = 1.
Proof.
  destruct (pager_in_range [VNum 1; VNum 2; VNum 3] 1) as (_ & _ & Hnext & _).
  - cbn. lia.
  - apply Hnext. cbn. lia.
Defined.

Lemma filteredTemplates_spec_witness :
  Components.filteredTemplates (VArr [addition; fractions]) "FRACT"
  = Normal (VArr [fractions]).
Proof.
  destruct (filteredTemplates_spec [addition; fractions] "FRACT") as (Hrun & _).
  - constructor; [|constructor; [|constructor]];
      (split; [reflexivity|]);
      intros k [<-|[<-|[<-|[<-|[]]]]]; cbn; eauto.
  - rewrite Hrun. reflexivity.
Defined.

End MoreExamples.
